(** * docfactory-backend: templates package

    A shallow embedding of [internal/templates] (models.go, repository.go,
    service.go): the validation rules, the in-memory repository and the
    template service, followed by the properties of the template and
    version consistency engine.

    Conventions of the embedding.
    - Go [string] is a byte sequence: [string] of the Standard Library, with
      [String.length] for [len].
    - Go [int] is taken at its 64-bit width; [int_wrap] writes the
      wrap-around of [+] and [++] out.
    - [time.Time] values are instants on a line, modelled as [Z];
      [time.Now().UTC()] and [newID()] read the environment, so every
      operation that calls them receives their results as arguments.
    - [*time.Time] is [option Time] ([nil] is [None]).
    - The two maps of [inMemoryRepository] are [gmap]s; indexing a missing
      key of [versions] yields the nil slice, i.e. [[]].
    - Every repository method runs under the repository lock for its entire
      body, so a method is one function from the state before to the result
      and the state after. *)

From Stdlib Require Import ZArith Lia Ascii String.
From stdpp Require Import gmap strings list fin_maps sorting.

Local Open Scope string_scope.
Local Open Scope list_scope.
Local Open Scope Z_scope.

(** ** Machine integers *)

Definition int_min : Z := - 2 ^ 63.
Definition int_max : Z := 2 ^ 63 - 1.

Definition in_int (z : Z) : Prop := int_min <= z <= int_max.

(** Two's complement wrap-around of a 64-bit signed result. *)
Definition int_wrap (z : Z) : Z := (z + 2 ^ 63) mod 2 ^ 64 - 2 ^ 63.

Definition int_add (a b : Z) : Z := int_wrap (a + b).

(** [x++] *)
Definition int_incr (a : Z) : Z := int_add a 1.

(** ** Time *)

Definition Time : Type := Z.

(** [t.After(u)] *)
Definition After (t u : Time) : bool := u <? t.

(** ** Errors *)

(** The three sentinel errors of models.go, the anonymous errors built with
    [errors.New] and the wrapping done by [fmt.Errorf] with the %w verb. *)
Inductive error : Type :=
| ErrNotFound
| ErrConflict
| ErrInvalidInput
| errors_New (msg : string)
| fmt_Errorf (msg : string) (wrapped : error).

#[global] Instance error_eq_dec : EqDecision error.
Proof. solve_decision. Defined.

(** [errors.Is]: the error itself or one it wraps. *)
Fixpoint errors_Is (e target : error) : bool :=
  if decide (e = target) then true
  else match e with
       | fmt_Errorf _ w => errors_Is w target
       | _ => false
       end.

Inductive result (A : Type) : Type :=
| Ok (a : A)
| Err (e : error).
Arguments Ok {A} a.
Arguments Err {A} e.

Definition is_Ok {A} (x : result A) : bool :=
  match x with Ok _ => true | Err _ => false end.

(** ** strings.TrimSpace and strings.Contains *)

Definition bytes (l : list nat) : string :=
  string_of_list_ascii (map ascii_of_nat l).

(** The UTF-8 encodings of the code points for which [unicode.IsSpace]
    holds: the six ASCII ones, U+0085, U+00A0, U+1680, U+2000 to U+200A,
    U+2028, U+2029, U+202F, U+205F and U+3000. *)
Definition space_runes : list string :=
  map bytes
    [ [9]; [10]; [11]; [12]; [13]; [32];
      [194; 133]; [194; 160]; [225; 154; 128];
      [226; 128; 128]; [226; 128; 129]; [226; 128; 130]; [226; 128; 131];
      [226; 128; 132]; [226; 128; 133]; [226; 128; 134]; [226; 128; 135];
      [226; 128; 136]; [226; 128; 137]; [226; 128; 138];
      [226; 128; 168]; [226; 128; 169]; [226; 128; 175];
      [226; 129; 159]; [227; 128; 128] ]%nat.

Fixpoint strip_prefix (p s : string) : option string :=
  match p, s with
  | EmptyString, _ => Some s
  | String a p', String b s' => if decide (a = b) then strip_prefix p' s' else None
  | String _ _, EmptyString => None
  end.

(** The rest of [s] after one leading rune taken from [runes], if any. *)
Fixpoint strip_rune (runes : list string) (s : string) : option string :=
  match runes with
  | [] => None
  | w :: rest =>
      match strip_prefix w s with
      | Some s' => Some s'
      | None => strip_rune rest s
      end
  end.

Fixpoint trim_left_fuel (runes : list string) (fuel : nat) (s : string) : string :=
  match fuel with
  | O => s
  | S fuel' =>
      match strip_rune runes s with
      | Some s' => trim_left_fuel runes fuel' s'
      | None => s
      end
  end.

(** Every step removes at least one byte, so [length s] steps suffice. *)
Definition TrimLeftSpace (s : string) : string :=
  trim_left_fuel space_runes (String.length s) s.

Definition string_rev (s : string) : string :=
  string_of_list_ascii (rev (list_ascii_of_string s)).

(** The trailing side decodes the last rune; on the byte sequences above
    that is stripping the reversed encodings from the reversed string. *)
Definition TrimRightSpace (s : string) : string :=
  string_rev
    (trim_left_fuel (map string_rev space_runes) (String.length s) (string_rev s)).

Definition TrimSpace (s : string) : string := TrimRightSpace (TrimLeftSpace s).

Definition Contains (s substr : string) : bool :=
  match String.index 0 substr s with
  | Some _ => true
  | None => false
  end.

(** ** models.go *)

Record Template : Type := mkTemplate {
  TemplateID : string;
  TenantID : string;
  Name : string;
  Description : string;
  DocumentType : string;
  PageSize : string;
  Orientation : string;
  JSONSchemaURL : string;
  ThumbnailURL : string;
  Version : Z;
  CreatedBy : string;
  UpdatedBy : string;
  CreatedAt : Time;
  UpdatedAt : Time;
  DeletedAt : option Time;
  DocumentsCount : Z;
  LastUsedAt : option Time
}.

Record TemplateVersion : Type := mkTemplateVersion {
  VersionID : string;
  V_TemplateID : string;
  VersionNumber : Z;
  ChangeSummary : string;
  V_JSONSchemaURL : string;
  V_CreatedBy : string;
  V_CreatedAt : Time;
  IsCurrent : bool
}.

#[global] Instance Template_eq_dec : EqDecision Template.
Proof. solve_decision. Defined.

#[global] Instance TemplateVersion_eq_dec : EqDecision TemplateVersion.
Proof. solve_decision. Defined.

Definition DocumentTypeWarranty := "warranty".
Definition DocumentTypeInstruction := "instruction".
Definition DocumentTypeCertificate := "certificate".
Definition DocumentTypeLabel := "label".
Definition PageSizeA4 := "A4".
Definition PageSizeA5 := "A5".
Definition PageSizeLetter := "Letter".
Definition OrientationPortrait := "portrait".
Definition OrientationLandscape := "landscape".

(** Field assignments [t.F = x]. *)
Definition set_TemplateID (x : string) (t : Template) : Template :=
  mkTemplate x (TenantID t) (Name t) (Description t) (DocumentType t) (PageSize t)
    (Orientation t) (JSONSchemaURL t) (ThumbnailURL t) (Version t) (CreatedBy t)
    (UpdatedBy t) (CreatedAt t) (UpdatedAt t) (DeletedAt t) (DocumentsCount t) (LastUsedAt t).
Definition set_Name (x : string) (t : Template) : Template :=
  mkTemplate (TemplateID t) (TenantID t) x (Description t) (DocumentType t) (PageSize t)
    (Orientation t) (JSONSchemaURL t) (ThumbnailURL t) (Version t) (CreatedBy t)
    (UpdatedBy t) (CreatedAt t) (UpdatedAt t) (DeletedAt t) (DocumentsCount t) (LastUsedAt t).
Definition set_Description (x : string) (t : Template) : Template :=
  mkTemplate (TemplateID t) (TenantID t) (Name t) x (DocumentType t) (PageSize t)
    (Orientation t) (JSONSchemaURL t) (ThumbnailURL t) (Version t) (CreatedBy t)
    (UpdatedBy t) (CreatedAt t) (UpdatedAt t) (DeletedAt t) (DocumentsCount t) (LastUsedAt t).
Definition set_JSONSchemaURL (x : string) (t : Template) : Template :=
  mkTemplate (TemplateID t) (TenantID t) (Name t) (Description t) (DocumentType t) (PageSize t)
    (Orientation t) x (ThumbnailURL t) (Version t) (CreatedBy t)
    (UpdatedBy t) (CreatedAt t) (UpdatedAt t) (DeletedAt t) (DocumentsCount t) (LastUsedAt t).
Definition set_Version (x : Z) (t : Template) : Template :=
  mkTemplate (TemplateID t) (TenantID t) (Name t) (Description t) (DocumentType t) (PageSize t)
    (Orientation t) (JSONSchemaURL t) (ThumbnailURL t) x (CreatedBy t)
    (UpdatedBy t) (CreatedAt t) (UpdatedAt t) (DeletedAt t) (DocumentsCount t) (LastUsedAt t).
Definition set_CreatedBy (x : string) (t : Template) : Template :=
  mkTemplate (TemplateID t) (TenantID t) (Name t) (Description t) (DocumentType t) (PageSize t)
    (Orientation t) (JSONSchemaURL t) (ThumbnailURL t) (Version t) x
    (UpdatedBy t) (CreatedAt t) (UpdatedAt t) (DeletedAt t) (DocumentsCount t) (LastUsedAt t).
Definition set_UpdatedBy (x : string) (t : Template) : Template :=
  mkTemplate (TemplateID t) (TenantID t) (Name t) (Description t) (DocumentType t) (PageSize t)
    (Orientation t) (JSONSchemaURL t) (ThumbnailURL t) (Version t) (CreatedBy t)
    x (CreatedAt t) (UpdatedAt t) (DeletedAt t) (DocumentsCount t) (LastUsedAt t).
Definition set_CreatedAt (x : Time) (t : Template) : Template :=
  mkTemplate (TemplateID t) (TenantID t) (Name t) (Description t) (DocumentType t) (PageSize t)
    (Orientation t) (JSONSchemaURL t) (ThumbnailURL t) (Version t) (CreatedBy t)
    (UpdatedBy t) x (UpdatedAt t) (DeletedAt t) (DocumentsCount t) (LastUsedAt t).
Definition set_UpdatedAt (x : Time) (t : Template) : Template :=
  mkTemplate (TemplateID t) (TenantID t) (Name t) (Description t) (DocumentType t) (PageSize t)
    (Orientation t) (JSONSchemaURL t) (ThumbnailURL t) (Version t) (CreatedBy t)
    (UpdatedBy t) (CreatedAt t) x (DeletedAt t) (DocumentsCount t) (LastUsedAt t).
Definition set_DeletedAt (x : option Time) (t : Template) : Template :=
  mkTemplate (TemplateID t) (TenantID t) (Name t) (Description t) (DocumentType t) (PageSize t)
    (Orientation t) (JSONSchemaURL t) (ThumbnailURL t) (Version t) (CreatedBy t)
    (UpdatedBy t) (CreatedAt t) (UpdatedAt t) x (DocumentsCount t) (LastUsedAt t).
Definition set_DocumentsCount (x : Z) (t : Template) : Template :=
  mkTemplate (TemplateID t) (TenantID t) (Name t) (Description t) (DocumentType t) (PageSize t)
    (Orientation t) (JSONSchemaURL t) (ThumbnailURL t) (Version t) (CreatedBy t)
    (UpdatedBy t) (CreatedAt t) (UpdatedAt t) (DeletedAt t) x (LastUsedAt t).
Definition set_LastUsedAt (x : option Time) (t : Template) : Template :=
  mkTemplate (TemplateID t) (TenantID t) (Name t) (Description t) (DocumentType t) (PageSize t)
    (Orientation t) (JSONSchemaURL t) (ThumbnailURL t) (Version t) (CreatedBy t)
    (UpdatedBy t) (CreatedAt t) (UpdatedAt t) (DeletedAt t) (DocumentsCount t) x.

Definition set_VersionID (x : string) (v : TemplateVersion) : TemplateVersion :=
  mkTemplateVersion x (V_TemplateID v) (VersionNumber v) (ChangeSummary v)
    (V_JSONSchemaURL v) (V_CreatedBy v) (V_CreatedAt v) (IsCurrent v).
Definition set_V_TemplateID (x : string) (v : TemplateVersion) : TemplateVersion :=
  mkTemplateVersion (VersionID v) x (VersionNumber v) (ChangeSummary v)
    (V_JSONSchemaURL v) (V_CreatedBy v) (V_CreatedAt v) (IsCurrent v).
Definition set_VersionNumber (x : Z) (v : TemplateVersion) : TemplateVersion :=
  mkTemplateVersion (VersionID v) (V_TemplateID v) x (ChangeSummary v)
    (V_JSONSchemaURL v) (V_CreatedBy v) (V_CreatedAt v) (IsCurrent v).
Definition set_V_CreatedAt (x : Time) (v : TemplateVersion) : TemplateVersion :=
  mkTemplateVersion (VersionID v) (V_TemplateID v) (VersionNumber v) (ChangeSummary v)
    (V_JSONSchemaURL v) (V_CreatedBy v) x (IsCurrent v).
Definition set_IsCurrent (x : bool) (v : TemplateVersion) : TemplateVersion :=
  mkTemplateVersion (VersionID v) (V_TemplateID v) (VersionNumber v) (ChangeSummary v)
    (V_JSONSchemaURL v) (V_CreatedBy v) (V_CreatedAt v) x.

(** [func (t Template) Validate() error]; [None] is the nil error. *)
Definition Template_Validate (t : Template) : option error :=
  if decide (TenantID t = "") then Some (errors_New "tenant_id is required")
  else if (String.length (TrimSpace (Name t)) <? 3)%nat
          || (100 <? String.length (Name t))%nat
  then Some (errors_New "name must be between 3 and 100 characters")
  else if (500 <? String.length (Description t))%nat
  then Some (errors_New "description must be <= 500 characters")
  else if negb (bool_decide (DocumentType t ∈
                  [DocumentTypeWarranty; DocumentTypeInstruction;
                   DocumentTypeCertificate; DocumentTypeLabel]))
  then Some (errors_New "document_type is invalid")
  else if negb (bool_decide (PageSize t ∈ [PageSizeA4; PageSizeA5; PageSizeLetter]))
  then Some (errors_New "page_size is invalid")
  else if negb (bool_decide (Orientation t ∈ [OrientationPortrait; OrientationLandscape]))
  then Some (errors_New "orientation is invalid")
  else if decide (JSONSchemaURL t = "") then Some (errors_New "json_schema_url is required")
  else if decide (CreatedBy t = "") then Some (errors_New "created_by is required")
  else if decide (UpdatedBy t = "") then Some (errors_New "updated_by is required")
  else None.

(** [func (tv TemplateVersion) Validate() error] *)
Definition TemplateVersion_Validate (tv : TemplateVersion) : option error :=
  if decide (V_TemplateID tv = "") then Some (errors_New "template_id is required")
  else if VersionNumber tv <=? 0 then Some (errors_New "version_number must be positive")
  else if decide (V_JSONSchemaURL tv = "") then Some (errors_New "json_schema_url is required")
  else if decide (V_CreatedBy tv = "") then Some (errors_New "created_by is required")
  else None.

(** ** repository.go *)

Record ListOptions : Type := mkListOptions {
  L_TenantID : string;
  Search : string;
  L_DocumentType : string;
  IncludeDeleted : bool;
  Limit : Z;
  Offset : Z
}.

Record DuplicateOptions : Type := mkDuplicateOptions {
  D_CreatedBy : string;
  D_UpdatedBy : string;
  CopyVersions : bool;
  NameOverride : string;
  DescriptionOverride : string
}.

Record VersionComparison : Type := mkVersionComparison {
  C_TemplateID : string;
  Left : TemplateVersion;
  Right : TemplateVersion;
  Summary : string
}.

(** ** service.go: the in-memory repository *)

Record inMemoryRepository : Type := mkRepo {
  templates : gmap string Template;
  versions : gmap string (list TemplateVersion)
}.

Definition NewInMemoryRepository : inMemoryRepository := mkRepo ∅ ∅.

(** [r.versions[id]]: the nil slice when the key is absent. *)
Definition history (r : inMemoryRepository) (id : string) : list TemplateVersion :=
  default [] (versions r !! id).

(** The guard every tenant-scoped method opens with:
    [tpl, ok := r.templates[id]; if !ok || tpl.TenantID != tenantID]. *)
Definition owned (r : inMemoryRepository) (tenantID templateID : string) : option Template :=
  match templates r !! templateID with
  | Some tpl => if decide (TenantID tpl = tenantID) then Some tpl else None
  | None => None
  end.

(** [result[start:end]] on a slice whose length is [length l]; [None] is the
    run-time panic "slice bounds out of range". Go admits [hi] up to the
    capacity; [paginate] below never asks for more than the length. *)
Definition slice {A} (l : list A) (lo hi : Z) : option (list A) :=
  if (0 <=? lo) && (lo <=? hi) && (hi <=? Z.of_nat (length l))
  then Some (take (Z.to_nat (hi - lo)) (drop (Z.to_nat lo) l))
  else None.

(** Lines 205-213 of service.go, on the filtered and sorted [result]. *)
Definition paginate {A} (result : list A) (offset limit : Z) : option (list A) :=
  let start := offset in
  if Z.of_nat (length result) <? start then Some []
  else
    let end_ := int_add start limit in
    let end_ := if (limit <=? 0) || (Z.of_nat (length result) <? end_)
                then Z.of_nat (length result) else end_ in
    slice result start end_.

(** [sort.Slice] with [less i j := result[i].UpdatedAt.After(result[j].UpdatedAt)]:
    most recently updated first. Go fixes neither the iteration order of a
    map nor the order of elements that compare equal; the insertion sort
    below is one of the orders the code can produce. *)
Fixpoint insert_by_UpdatedAt (t : Template) (l : list Template) : list Template :=
  match l with
  | [] => [t]
  | x :: l' =>
      if After (UpdatedAt x) (UpdatedAt t) then x :: insert_by_UpdatedAt t l'
      else t :: x :: l'
  end.

Definition sort_by_UpdatedAt (l : list Template) : list Template :=
  foldr insert_by_UpdatedAt [] l.

Module inMemoryRepository.

Section Listing.
(** [strings.ToLower] maps every rune through the Unicode case tables;
    the listing is defined for whichever function it is. *)
Variable ToLower : string → string.

(** The body of the filtering loop: [true] when [tpl] is appended. *)
Definition selects (opt : ListOptions) (tpl : Template) : bool :=
  let search := ToLower (TrimSpace (Search opt)) in
  if negb (bool_decide (TenantID tpl = L_TenantID opt)) then false
  else if negb (IncludeDeleted opt) && bool_decide (DeletedAt tpl ≠ None) then false
  else if negb (bool_decide (L_DocumentType opt = ""))
          && negb (bool_decide (DocumentType tpl = L_DocumentType opt)) then false
  else if negb (bool_decide (search = ""))
          && negb (Contains (ToLower (Name tpl)) search)
          && negb (Contains (ToLower (Description tpl)) search) then false
  else true.

Definition matching (opt : ListOptions) (r : inMemoryRepository) : list Template :=
  sort_by_UpdatedAt (filter (λ tpl, selects opt tpl = true) (map_to_list (templates r)).*2).

(** [None]: the call panics. The error result is always nil. *)
Definition ListTemplates (opt : ListOptions) (r : inMemoryRepository)
  : option (list Template) :=
  paginate (matching opt r) (Offset opt) (Limit opt).

Definition CountTemplates (opt : ListOptions) (r : inMemoryRepository) : Z :=
  Z.of_nat (length (filter (λ tpl, selects opt tpl = true) (map_to_list (templates r)).*2)).
End Listing.

Definition GetTemplate (tenantID templateID : string) (r : inMemoryRepository)
  : result Template :=
  match owned r tenantID templateID with
  | None => Err ErrNotFound
  | Some tpl => Ok tpl
  end.

Definition CreateTemplate (tpl : Template) (r : inMemoryRepository)
  : result Template * inMemoryRepository :=
  match templates r !! TemplateID tpl with
  | Some _ => (Err ErrConflict, r)
  | None => (Ok tpl, mkRepo (<[TemplateID tpl := tpl]> (templates r)) (versions r))
  end.

Definition UpdateTemplate (tpl : Template) (r : inMemoryRepository)
  : result Template * inMemoryRepository :=
  match owned r (TenantID tpl) (TemplateID tpl) with
  | None => (Err ErrNotFound, r)
  | Some _ => (Ok tpl, mkRepo (<[TemplateID tpl := tpl]> (templates r)) (versions r))
  end.

Definition SoftDeleteTemplate (now : Time) (tenantID templateID : string)
    (r : inMemoryRepository) : result unit * inMemoryRepository :=
  match owned r tenantID templateID with
  | None => (Err ErrNotFound, r)
  | Some tpl =>
      (Ok (), mkRepo (<[templateID := set_DeletedAt (Some now) tpl]> (templates r)) (versions r))
  end.

Definition RestoreTemplate (tenantID templateID : string) (r : inMemoryRepository)
  : result Template * inMemoryRepository :=
  match owned r tenantID templateID with
  | None => (Err ErrNotFound, r)
  | Some tpl =>
      let tpl := set_DeletedAt None tpl in
      (Ok tpl, mkRepo (<[templateID := tpl]> (templates r)) (versions r))
  end.

(** [cloneID] and [versionID] are the two results of [newID()], in call
    order. *)
Definition DuplicateTemplate (cloneID versionID : string) (now : Time)
    (tenantID templateID : string) (opt : DuplicateOptions) (r : inMemoryRepository)
  : result Template * inMemoryRepository :=
  match owned r tenantID templateID with
  | None => (Err ErrNotFound, r)
  | Some tpl =>
      let clone := tpl in
      let clone := set_TemplateID cloneID clone in
      let clone := set_CreatedAt now clone in
      let clone := set_UpdatedAt now clone in
      let clone := set_CreatedBy (D_CreatedBy opt) clone in
      let clone := set_UpdatedBy (D_UpdatedBy opt) clone in
      let clone := set_DeletedAt None clone in
      let clone := set_DocumentsCount 0 clone in
      let clone := set_LastUsedAt None clone in
      let clone := set_Version 1 clone in
      let clone :=
        if negb (bool_decide (NameOverride opt = ""))
        then set_Name (NameOverride opt) clone
        else set_Name (Name tpl +:+ " Copy") clone in
      let clone :=
        if negb (bool_decide (DescriptionOverride opt = ""))
        then set_Description (DescriptionOverride opt) clone
        else clone in
      match Template_Validate clone with
      | Some err => (Err err, r)
      | None =>
          match templates r !! TemplateID clone with
          | Some _ => (Err ErrConflict, r)
          | None =>
              let version :=
                {| VersionID := versionID;
                   V_TemplateID := TemplateID clone;
                   VersionNumber := Version clone;
                   V_JSONSchemaURL := JSONSchemaURL clone;
                   ChangeSummary := "duplicated from " +:+ TemplateID tpl;
                   V_CreatedBy := D_UpdatedBy opt;
                   V_CreatedAt := now;
                   IsCurrent := true |} in
              (Ok clone,
               mkRepo (<[TemplateID clone := clone]> (templates r))
                      (<[TemplateID clone := history r (TemplateID clone) ++ [version]]>
                         (versions r)))
          end
      end
  end.

Definition ListVersions (tenantID templateID : string) (r : inMemoryRepository)
  : result (list TemplateVersion) :=
  match owned r tenantID templateID with
  | None => Err ErrNotFound
  | Some _ => Ok (history r templateID)
  end.

Definition CreateVersion (tenantID : string) (version : TemplateVersion)
    (r : inMemoryRepository) : result TemplateVersion * inMemoryRepository :=
  match owned r tenantID (V_TemplateID version) with
  | None => (Err ErrNotFound, r)
  | Some _ =>
      match TemplateVersion_Validate version with
      | Some err => (Err err, r)
      | None =>
          let cleared := set_IsCurrent false <$> history r (V_TemplateID version) in
          (Ok version,
           mkRepo (templates r)
                  (<[V_TemplateID version := cleared ++ [version]]> (versions r)))
      end
  end.

(** The search loop of RestoreVersion: the first entry with the number. *)
Definition find_version (versionNumber : Z) (l : list TemplateVersion)
  : option TemplateVersion :=
  list_find (λ v, VersionNumber v = versionNumber) l ≫= λ p, Some p.2.

Definition RestoreVersion (now : Time) (tenantID templateID : string) (versionNumber : Z)
    (r : inMemoryRepository) : result TemplateVersion * inMemoryRepository :=
  match owned r tenantID templateID with
  | None => (Err ErrNotFound, r)
  | Some tpl =>
      match find_version versionNumber (history r templateID) with
      | None => (Err ErrNotFound, r)
      | Some restored =>
          let tpl := set_JSONSchemaURL (V_JSONSchemaURL restored) tpl in
          let tpl := set_Version (int_incr (Version tpl)) tpl in
          let tpl := set_UpdatedAt now tpl in
          let tpl := set_UpdatedBy (V_CreatedBy restored) tpl in
          let clone := restored in
          let clone := set_IsCurrent true clone in
          let clone := set_VersionNumber (Version tpl) clone in
          let clone := set_V_CreatedAt (UpdatedAt tpl) clone in
          (Ok clone,
           mkRepo (<[templateID := tpl]> (templates r))
                  (<[templateID := history r templateID ++ [clone]]> (versions r)))
      end
  end.

(** The loop of CompareVersions: the switch tries [left] first, and a
    later entry with the same number replaces an earlier one. *)
Definition pick_versions (left right : Z) (l : list TemplateVersion)
  : option TemplateVersion * option TemplateVersion :=
  foldl (λ acc version,
           if decide (VersionNumber version = left) then (Some version, acc.2)
           else if decide (VersionNumber version = right) then (acc.1, Some version)
           else acc)
        (None, None) l.

Definition CompareVersions (tenantID templateID : string) (left right : Z)
    (r : inMemoryRepository) : result VersionComparison :=
  match owned r tenantID templateID with
  | None => Err ErrNotFound
  | Some tpl =>
      match pick_versions left right (history r templateID) with
      | (Some leftVersion, Some rightVersion) =>
          Ok {| C_TemplateID := TemplateID tpl;
                Left := leftVersion;
                Right := rightVersion;
                Summary := "left schema: " +:+ V_JSONSchemaURL leftVersion
                           +:+ ", right schema: " +:+ V_JSONSchemaURL rightVersion |}
      | _ => Err ErrNotFound
      end
  end.

End inMemoryRepository.

(** ** service.go: the template service *)

(** A service method is a sequence of repository calls, each under its own
    lock; [M] threads the repository through them and stops at the first
    error, keeping whatever the earlier calls have already written.  A
    method in [M] is the method as it runs when no other goroutine gets the
    lock between two of its repository calls. *)
Definition M (A : Type) : Type := inMemoryRepository → result A * inMemoryRepository.

Definition ret {A} (a : A) : M A := λ r, (Ok a, r).
Definition fail {A} (e : error) : M A := λ r, (Err e, r).
Definition read {A} (f : inMemoryRepository → result A) : M A := λ r, (f r, r).
Definition bind {A B} (c : M A) (k : A → M B) : M B :=
  λ r, match c r with
       | (Ok a, r') => k a r'
       | (Err e, r') => (Err e, r')
       end.

Notation "'call' x <- c ; k" := (bind c (λ x, k))
  (at level 10, x name, c at level 100, k at level 200).

(** The caller-supplied closure [mutate], which receives a pointer to the
    loaded template: the template it leaves behind, or the error it returns. *)
Definition Mutation : Type := Template → result Template.

Module TemplateService.

(** [templateID] and [versionID] are the results of the two [newID()]
    calls, [now] that of [time.Now().UTC()]. *)
Definition CreateTemplate (templateID versionID : string) (now : Time) (tpl : Template)
  : M Template :=
  let tpl := set_TemplateID templateID tpl in
  let tpl := set_CreatedAt now tpl in
  let tpl := set_UpdatedAt now tpl in
  let tpl := set_Version 1 tpl in
  match Template_Validate tpl with
  | Some err => fail (fmt_Errorf "validate template" err)
  | None =>
      call created <- inMemoryRepository.CreateTemplate tpl;
      let version :=
        {| VersionID := versionID;
           V_TemplateID := TemplateID tpl;
           VersionNumber := Version tpl;
           V_JSONSchemaURL := JSONSchemaURL tpl;
           ChangeSummary := "initial version";
           V_CreatedBy := CreatedBy tpl;
           V_CreatedAt := now;
           IsCurrent := true |} in
      call _ <- inMemoryRepository.CreateVersion (TenantID tpl) version;
      ret created
  end.

Definition UpdateTemplate (versionID : string) (now : Time) (tenantID templateID : string)
    (mutate : Mutation) (updatedBy changeSummary : string) : M Template :=
  call tpl <- read (inMemoryRepository.GetTemplate tenantID templateID);
  match DeletedAt tpl with
  | Some _ => fail (fmt_Errorf "template is deleted" ErrInvalidInput)
  | None =>
      match mutate tpl with
      | Err err => fail err
      | Ok tpl =>
          let tpl := set_Version (int_incr (Version tpl)) tpl in
          let tpl := set_UpdatedBy updatedBy tpl in
          let tpl := set_UpdatedAt now tpl in
          match Template_Validate tpl with
          | Some err => fail err
          | None =>
              call updated <- inMemoryRepository.UpdateTemplate tpl;
              let version :=
                {| VersionID := versionID;
                   V_TemplateID := TemplateID tpl;
                   VersionNumber := Version tpl;
                   V_JSONSchemaURL := JSONSchemaURL tpl;
                   ChangeSummary := changeSummary;
                   V_CreatedBy := updatedBy;
                   V_CreatedAt := UpdatedAt tpl;
                   IsCurrent := true |} in
              call _ <- inMemoryRepository.CreateVersion tenantID version;
              ret updated
          end
      end
  end.

(** The loop over the source history; [ids i] is the identifier drawn for
    the entry at position [i]. *)
Fixpoint copy_versions (tenantID : string) (tpl : Template) (ids : nat → string)
    (i : nat) (vs : list TemplateVersion) : M unit :=
  match vs with
  | [] => ret ()
  | v :: vs' =>
      let v := set_V_TemplateID (TemplateID tpl) v in
      let v := set_VersionID (ids i) v in
      let v := if IsCurrent v then set_VersionNumber (Version tpl) v else v in
      call _ <- inMemoryRepository.CreateVersion tenantID v;
      copy_versions tenantID tpl ids (S i) vs'
  end.

Definition DuplicateTemplate (cloneID versionID : string) (now : Time)
    (ids : nat → string) (tenantID templateID : string) (opt : DuplicateOptions)
  : M Template :=
  call tpl <- inMemoryRepository.DuplicateTemplate cloneID versionID now tenantID templateID opt;
  if CopyVersions opt then
    call vs <- read (inMemoryRepository.ListVersions tenantID templateID);
    call _ <- copy_versions tenantID tpl ids 0 vs;
    ret tpl
  else ret tpl.

Definition RestoreTemplate (tenantID templateID : string) : M Template :=
  inMemoryRepository.RestoreTemplate tenantID templateID.

Definition DeleteTemplate (now : Time) (tenantID templateID : string) : M unit :=
  inMemoryRepository.SoftDeleteTemplate now tenantID templateID.

(** The items and the total; [None] when the repository call panics. *)
Definition ListTemplates (ToLower : string → string) (opt : ListOptions)
    (r : inMemoryRepository) : option (list Template * Z) :=
  match inMemoryRepository.ListTemplates ToLower opt r with
  | None => None
  | Some items => Some (items, inMemoryRepository.CountTemplates ToLower opt r)
  end.

Definition GetTemplate (tenantID templateID : string) (r : inMemoryRepository)
  : result Template :=
  inMemoryRepository.GetTemplate tenantID templateID r.

Definition ListVersions (tenantID templateID : string) (r : inMemoryRepository)
  : result (list TemplateVersion) :=
  inMemoryRepository.ListVersions tenantID templateID r.

Definition RestoreVersion (now : Time) (tenantID templateID : string) (versionNumber : Z)
  : M TemplateVersion :=
  inMemoryRepository.RestoreVersion now tenantID templateID versionNumber.

Definition CompareVersions (tenantID templateID : string) (left right : Z)
    (r : inMemoryRepository) : result VersionComparison :=
  inMemoryRepository.CompareVersions tenantID templateID left right r.

End TemplateService.

(** ** Observations on a history *)

Definition current_entries (l : list TemplateVersion) : list TemplateVersion :=
  filter (λ v, IsCurrent v = true) l.

Definition version_numbers (l : list TemplateVersion) : list Z := VersionNumber <$> l.

(** ** The scenario of the specification, used as running example *)

Definition warranty_eu : Template :=
  {| TemplateID := ""; TenantID := "t1"; Name := "Warranty EU"; Description := "";
     DocumentType := DocumentTypeWarranty; PageSize := PageSizeA4;
     Orientation := OrientationPortrait; JSONSchemaURL := "s3://schemas/v1.json";
     ThumbnailURL := ""; Version := 0; CreatedBy := "u1"; UpdatedBy := "u1";
     CreatedAt := 0; UpdatedAt := 0; DeletedAt := None; DocumentsCount := 0;
     LastUsedAt := None |}.

(** T created for tenant t1 at instant 10. *)
Definition repo_created : inMemoryRepository :=
  (TemplateService.CreateTemplate "T" "v-1" 10 warranty_eu NewInMemoryRepository).2.

Definition rename_v2 : Mutation := λ t, Ok (set_Name "Warranty EU v2" t).

Definition repo_updated : inMemoryRepository :=
  (TemplateService.UpdateTemplate "v-2" 20 "t1" "T" rename_v2 "u1" "rename" repo_created).2.

Definition repo_restored : inMemoryRepository :=
  (TemplateService.RestoreVersion 30 "t1" "T" 1 repo_updated).2.

(** T soft-deleted at instant 15, right after its creation. *)
Definition repo_deleted : inMemoryRepository :=
  (TemplateService.DeleteTemplate 15 "t1" "T" repo_created).2.

(** A repository that holds a template U of tenant t1, and the same after
    T has been created in it. *)
Definition repo_U : inMemoryRepository :=
  (TemplateService.CreateTemplate "U" "v-u" 5 (set_Name "Label EU" warranty_eu)
     NewInMemoryRepository).2.

Definition repo_two : inMemoryRepository :=
  (TemplateService.CreateTemplate "T" "v-1" 10 warranty_eu repo_U).2.

(** A closure that overwrites the identifier of the loaded template. *)
Definition retarget_U : Mutation := λ t, Ok (set_TemplateID "U" t).

(** A name of 101 bytes: three letters followed by 98 blanks. *)
Definition padded_name : string :=
  "abc" +:+ string_of_list_ascii (replicate 98 " "%char).

(** ** Runs of service calls *)

(** One call of [TemplateService.UpdateTemplate] on a fixed template,
    together with what it reads from the environment. *)
Record UpdateCall : Type := mkUpdateCall {
  u_versionID : string;
  u_now : Time;
  u_mutate : Mutation;
  u_updatedBy : string;
  u_changeSummary : string
}.

(** The state after a sequence of updates all of which were accepted
    (returned a nil error); [None] as soon as one is refused. *)
Fixpoint run_updates (tenantID templateID : string) (calls : list UpdateCall)
    (r : inMemoryRepository) : option inMemoryRepository :=
  match calls with
  | [] => Some r
  | c :: calls' =>
      match TemplateService.UpdateTemplate (u_versionID c) (u_now c) tenantID templateID
              (u_mutate c) (u_updatedBy c) (u_changeSummary c) r with
      | (Ok _, r') => run_updates tenantID templateID calls' r'
      | (Err _, _) => None
      end
  end.

Definition keeps_version (m : Mutation) : Prop :=
  ∀ t t', m t = Ok t' → Version t' = Version t.

Definition keeps_identifier (m : Mutation) : Prop :=
  ∀ t t', m t = Ok t' → TemplateID t' = TemplateID t.

Definition keeps_tenant (m : Mutation) : Prop :=
  ∀ t t', m t = Ok t' → TenantID t' = TenantID t.

(** The state-changing methods of the service, as requests. *)
Inductive Call : Type :=
| CallCreate (templateID versionID : string) (now : Time) (tpl : Template)
| CallUpdate (versionID : string) (now : Time) (tenantID templateID : string)
    (mutate : Mutation) (updatedBy changeSummary : string)
| CallDuplicate (cloneID versionID : string) (now : Time) (ids : nat → string)
    (tenantID templateID : string) (opt : DuplicateOptions)
| CallRestoreTemplate (tenantID templateID : string)
| CallDelete (now : Time) (tenantID templateID : string)
| CallRestoreVersion (now : Time) (tenantID templateID : string) (versionNumber : Z).

(** The repository a call leaves behind, whether it succeeds or not. *)
Definition exec (c : Call) (r : inMemoryRepository) : inMemoryRepository :=
  match c with
  | CallCreate templateID versionID now tpl =>
      (TemplateService.CreateTemplate templateID versionID now tpl r).2
  | CallUpdate versionID now tenantID templateID mutate updatedBy changeSummary =>
      (TemplateService.UpdateTemplate versionID now tenantID templateID mutate
         updatedBy changeSummary r).2
  | CallDuplicate cloneID versionID now ids tenantID templateID opt =>
      (TemplateService.DuplicateTemplate cloneID versionID now ids tenantID templateID opt r).2
  | CallRestoreTemplate tenantID templateID =>
      (TemplateService.RestoreTemplate tenantID templateID r).2
  | CallDelete now tenantID templateID =>
      (TemplateService.DeleteTemplate now tenantID templateID r).2
  | CallRestoreVersion now tenantID templateID versionNumber =>
      (TemplateService.RestoreVersion now tenantID templateID versionNumber r).2
  end.

(** The record of the values each template's version counter has held:
    after a call, the counter of every stored template is compared with the
    one before the call, and a new or changed value is written down. *)
Definition observe (r r' : inMemoryRepository) (held : gmap string (list Z))
  : gmap string (list Z) :=
  map_imap (λ id t',
              let seen := default [] (held !! id) in
              match templates r !! id with
              | Some t => if decide (Version t = Version t') then Some seen
                          else Some (seen ++ [Version t'])
              | None => Some (seen ++ [Version t'])
              end)
           (templates r').

(** A run from a state, with the record of counter values kept alongside.
    The calls of a run are made one at a time: each starts in the state the
    previous one has left, after that one has returned.  Calls that overlap
    are not runs; see [UpdateTemplate_reads] below for those. *)
Fixpoint run (calls : list Call) (r : inMemoryRepository) (held : gmap string (list Z))
  : inMemoryRepository * gmap string (list Z) :=
  match calls with
  | [] => (r, held)
  | c :: calls' => run calls' (exec c r) (observe r (exec c r) held)
  end.

(** The calls for which the numbering of a history is claimed: the
    identifier generator hands out non-empty identifiers, an update closure
    leaves identifier and version counter alone, and a duplicate does not
    copy the source history. *)
Definition plain (c : Call) : Prop :=
  match c with
  | CallCreate templateID _ _ _ => templateID ≠ ""
  | CallUpdate _ _ _ _ mutate _ _ => keeps_identifier mutate ∧ keeps_version mutate
  | CallDuplicate cloneID _ _ _ _ _ opt => cloneID ≠ "" ∧ CopyVersions opt = false
  | _ => True
  end.

(** What [Template.Validate] asks of the fields other than the name. *)
Definition other_fields_valid (t : Template) : Prop :=
  TenantID t ≠ "" ∧
  (String.length (Description t) ≤ 500)%nat ∧
  DocumentType t ∈ [DocumentTypeWarranty; DocumentTypeInstruction;
                    DocumentTypeCertificate; DocumentTypeLabel] ∧
  PageSize t ∈ [PageSizeA4; PageSizeA5; PageSizeLetter] ∧
  Orientation t ∈ [OrientationPortrait; OrientationLandscape] ∧
  JSONSchemaURL t ≠ "" ∧
  CreatedBy t ≠ "" ∧
  UpdatedBy t ≠ "".

(** A history entry that is not flagged current, as the copy loop of
    [TemplateService.DuplicateTemplate] passes for every superseded entry
    of the source. *)
Definition stale_entry : TemplateVersion :=
  {| VersionID := "v-x"; V_TemplateID := "T"; VersionNumber := 2;
     ChangeSummary := "copied"; V_JSONSchemaURL := "s3://schemas/v1.json";
     V_CreatedBy := "u1"; V_CreatedAt := 20; IsCurrent := false |}.

(** The state of one template that a run of accepted updates maintains. *)
Definition tracks (tenantID templateID : string) (k : Z) (r : inMemoryRepository) : Prop :=
  ∃ t e,
    templates r !! templateID = Some t ∧
    TemplateID t = templateID ∧
    TenantID t = tenantID ∧
    Version t = k ∧
    1 ≤ k ≤ int_max ∧
    current_entries (history r templateID) = [e] ∧
    VersionNumber e = k.

(** How one service call may change the repository, as far as version
    counters and histories are concerned: not at all; one stored template
    replaced with its counter untouched; one stored template replaced with
    its counter moved to the successor and one entry with that number
    appended to its history; or one new template with counter 1 and one entry
    numbered 1 appended under its identifier. *)
Inductive effect (r r' : inMemoryRepository) : Prop :=
| effect_none :
    r' = r → effect r r'
| effect_touch id t t' :
    templates r !! id = Some t →
    TemplateID t' = id →
    Version t' = Version t →
    r' = mkRepo (<[id := t']> (templates r)) (versions r) →
    effect r r'
| effect_bump id t t' h :
    templates r !! id = Some t →
    TemplateID t' = id →
    Version t' = Version t + 1 →
    version_numbers h = version_numbers (history r id) ++ [Version t'] →
    r' = mkRepo (<[id := t']> (templates r)) (<[id := h]> (versions r)) →
    effect r r'
| effect_new id t' h :
    templates r !! id = None →
    id ≠ "" →
    TemplateID t' = id →
    Version t' = 1 →
    version_numbers h = version_numbers (history r id) ++ [1] →
    r' = mkRepo (<[id := t']> (templates r)) (<[id := h]> (versions r)) →
    effect r r'.

(** The numbering of histories after [n] calls: every stored template sits
    under its own non-empty identifier, its counter is between 1 and 1 + n,
    its history is numbered 1, 2, ..., counter in this order, and these are
    the values recorded for the counter; an identifier without a template
    has neither entries nor a record. *)
Definition numbered (n : nat) (r : inMemoryRepository) (held : gmap string (list Z)) : Prop :=
  (∀ id t, templates r !! id = Some t →
     TemplateID t = id ∧ id ≠ "" ∧
     1 ≤ Version t ≤ 1 + Z.of_nat n ∧
     version_numbers (history r id) = seqZ 1 (Version t) ∧
     held !! id = Some (seqZ 1 (Version t))) ∧
  (∀ id, templates r !! id = None → history r id = [] ∧ held !! id = None).

(** The scenario as service calls, followed by a soft delete. *)
Definition scenario_calls : list Call :=
  [ CallCreate "T" "v-1" 10 warranty_eu;
    CallUpdate "v-2" 20 "t1" "T" rename_v2 "u1" "rename";
    CallRestoreVersion 30 "t1" "T" 1;
    CallDelete 31 "t1" "T" ].

(** The identifiers drawn in the copy loop of a duplicate. *)
Definition copy_ids (i : nat) : string := "copy-" +:+ String (ascii_of_nat (65 + i)) "".

(** T created and updated once, then duplicated as D together with its
    history. *)
Definition duplicate_calls : list Call :=
  [ CallCreate "T" "v-1" 10 warranty_eu;
    CallUpdate "v-2" 20 "t1" "T" rename_v2 "u1" "rename";
    CallDuplicate "D" "v-d" 40 copy_ids "t1" "T"
      (mkDuplicateOptions "u2" "u2" true "" "") ].

(** A closure that sets the version counter of the loaded template back
    to zero. *)
Definition reset_version : Mutation := λ t, Ok (set_Version 0 t).

(** T created, then updated with the closure that resets the counter. *)
Definition reset_calls : list Call :=
  [ CallCreate "T" "v-1" 10 warranty_eu;
    CallUpdate "v-2" 20 "t1" "T" reset_version "u1" "reset" ].

(** U created and updated once, T created, then T updated with the closure
    that overwrites the identifier with U's. *)
Definition retarget_calls : list Call :=
  [ CallCreate "U" "v-u" 5 (set_Name "Label EU" warranty_eu);
    CallUpdate "v-u2" 6 "t1" "U" rename_v2 "u1" "rename";
    CallCreate "T" "v-1" 10 warranty_eu;
    CallUpdate "v-2" 20 "t1" "T" retarget_U "u1" "retarget" ].

(** A create for which the identifier generator returns the empty string. *)
Definition unnamed_calls : list Call := [ CallCreate "" "v-1" 10 warranty_eu ].

(** ** Calls that overlap *)

(** Every repository method holds the repository's mutex from its first
    statement to its return, but a service method is several repository
    calls, and between two of them another goroutine may get the mutex.
    [TemplateService.UpdateTemplate] takes it three times: in GetTemplate,
    in UpdateTemplate and in CreateVersion.  [UpdateTemplate_reads] is the
    method up to its first write: from the state it reads it computes the
    template it is going to store and the entry it is going to append.
    [UpdateTemplate_writes] is the rest, run on whatever state is there by
    then. *)
Definition UpdateTemplate_reads (versionID : string) (now : Time)
    (tenantID templateID : string) (mutate : Mutation) (updatedBy changeSummary : string)
    (r : inMemoryRepository) : result (Template * TemplateVersion) :=
  match inMemoryRepository.GetTemplate tenantID templateID r with
  | Err err => Err err
  | Ok tpl =>
      match DeletedAt tpl with
      | Some _ => Err (fmt_Errorf "template is deleted" ErrInvalidInput)
      | None =>
          match mutate tpl with
          | Err err => Err err
          | Ok tpl =>
              let tpl := set_Version (int_incr (Version tpl)) tpl in
              let tpl := set_UpdatedBy updatedBy tpl in
              let tpl := set_UpdatedAt now tpl in
              match Template_Validate tpl with
              | Some err => Err err
              | None =>
                  Ok (tpl,
                      {| VersionID := versionID;
                         V_TemplateID := TemplateID tpl;
                         VersionNumber := Version tpl;
                         V_JSONSchemaURL := JSONSchemaURL tpl;
                         ChangeSummary := changeSummary;
                         V_CreatedBy := updatedBy;
                         V_CreatedAt := UpdatedAt tpl;
                         IsCurrent := true |})
              end
          end
      end
  end.

Definition UpdateTemplate_writes (tenantID : string) (w : Template * TemplateVersion)
  : M Template :=
  call updated <- inMemoryRepository.UpdateTemplate w.1;
  call _ <- inMemoryRepository.CreateVersion tenantID w.2;
  ret updated.

(** Two updates of T that overlap: both have read T in [repo_created]
    before either writes; then the first writes, then the second.  The
    result is what each of them returns and the repository they leave. *)
Definition overlapped_updates : result Template * result Template * inMemoryRepository :=
  match UpdateTemplate_reads "v-2" 20 "t1" "T" rename_v2 "u1" "rename" repo_created,
        UpdateTemplate_reads "v-3" 21 "t1" "T" rename_v2 "u2" "rename again" repo_created
  with
  | Ok w1, Ok w2 =>
      let '(x1, r1) := UpdateTemplate_writes "t1" w1 repo_created in
      let '(x2, r2) := UpdateTemplate_writes "t1" w2 r1 in
      (x1, x2, r2)
  | Err err, _ => (Err err, Err err, repo_created)
  | _, Err err => (Err err, Err err, repo_created)
  end.

(** ** Runs of repository calls *)

(** The state-changing methods of the repository, as requests. A service
    method is a sequence of such calls, and since each runs under the lock
    for its entire body, so is every concurrent execution of the service. *)
Inductive RepoCall : Type :=
| RepoCreateTemplate (tpl : Template)
| RepoUpdateTemplate (tpl : Template)
| RepoSoftDeleteTemplate (now : Time) (tenantID templateID : string)
| RepoRestoreTemplate (tenantID templateID : string)
| RepoDuplicateTemplate (cloneID versionID : string) (now : Time)
    (tenantID templateID : string) (opt : DuplicateOptions)
| RepoCreateVersion (tenantID : string) (version : TemplateVersion)
| RepoRestoreVersion (now : Time) (tenantID templateID : string) (versionNumber : Z).

(** The error a call returned ([None] for nil) next to the state it left. *)
Definition outcome {A} (x : result A * inMemoryRepository)
  : option error * inMemoryRepository :=
  (match x.1 with Ok _ => None | Err e => Some e end, x.2).

Definition repo_exec (c : RepoCall) (r : inMemoryRepository)
  : option error * inMemoryRepository :=
  match c with
  | RepoCreateTemplate tpl => outcome (inMemoryRepository.CreateTemplate tpl r)
  | RepoUpdateTemplate tpl => outcome (inMemoryRepository.UpdateTemplate tpl r)
  | RepoSoftDeleteTemplate now tenantID templateID =>
      outcome (inMemoryRepository.SoftDeleteTemplate now tenantID templateID r)
  | RepoRestoreTemplate tenantID templateID =>
      outcome (inMemoryRepository.RestoreTemplate tenantID templateID r)
  | RepoDuplicateTemplate cloneID versionID now tenantID templateID opt =>
      outcome (inMemoryRepository.DuplicateTemplate cloneID versionID now tenantID
                 templateID opt r)
  | RepoCreateVersion tenantID version =>
      outcome (inMemoryRepository.CreateVersion tenantID version r)
  | RepoRestoreVersion now tenantID templateID versionNumber =>
      outcome (inMemoryRepository.RestoreVersion now tenantID templateID versionNumber r)
  end.

(** The states the store can be in: the empty repository, and whatever a
    repository method or a service method leaves behind, with any arguments,
    closures and environment. *)
Inductive reachable : inMemoryRepository → Prop :=
| reachable_new : reachable NewInMemoryRepository
| reachable_repo c r : reachable r → reachable (repo_exec c r).2
| reachable_service c r : reachable r → reachable (exec c r).

(** Referential integrity between the two maps: a template is stored under
    its own identifier, and every history entry is filed under the
    identifier it carries, which is that of a stored template. *)
Definition consistent (r : inMemoryRepository) : Prop :=
  (∀ id t, templates r !! id = Some t → TemplateID t = id) ∧
  (∀ id v, v ∈ history r id → V_TemplateID v = id ∧ is_Some (templates r !! id)).

(** An entry of a history as it is found later: as it was, or as it was
    but for its is_current flag, which has been cleared. *)
Definition dimmed (v v' : TemplateVersion) : Prop :=
  v' = v ∨ v' = set_IsCurrent false v.

(** A history [l'] extends [l]: it begins with the entries of [l], one for
    one and in their order, each as it was or with its flag cleared, and
    whatever else it has comes after them. *)
Definition extends (l l' : list TemplateVersion) : Prop :=
  ∃ kept added, l' = kept ++ added ∧ Forall2 dimmed l kept.

(** [r'] continues [r]: every template of [r] is still stored, under the
    same tenant, and every history of [r'] extends the one in [r]. *)
Definition continues (r r' : inMemoryRepository) : Prop :=
  (∀ id t, templates r !! id = Some t →
     ∃ t', templates r' !! id = Some t' ∧ TenantID t' = TenantID t) ∧
  (∀ id, extends (history r id) (history r' id)).

(** A relation between the state before and after that a computation keeps. *)
Definition respects {A} (R : relation inMemoryRepository) (c : M A) : Prop :=
  ∀ r, R r (c r).2.


(** Keeping [consistent], as a relation between the state before and the
    state after. *)
Definition keeps_consistent : relation inMemoryRepository :=
  λ r r', consistent r → consistent r'.


(** A string of [n] blanks. *)
Definition blanks (n : nat) : string := string_of_list_ascii (replicate n " "%char).


(** ** httpapi: templates_handler.go and router.go *)

(** The handlers are embedded from the point where the request has been
    taken apart: header values, path parameters, query values and the JSON
    body are arguments, and a handler returns the status code it writes next
    to the repository it leaves.  CreateTemplate receives the body as what
    [json.NewDecoder(r.Body).Decode(&payload)] makes of it: [Some payload],
    or [None] when Decode returns an error.  UpdateTemplate and
    DuplicateTemplate are embedded from the decoded payload on; their branch
    that answers 400 to a body that does not decode has no counterpart here.
    [strconv.Atoi] is left open: [None] is its error result. *)

Module httpapi.

Definition StatusOK : Z := 200.
Definition StatusCreated : Z := 201.
Definition StatusNoContent : Z := 204.
Definition StatusMultiStatus : Z := 207.
Definition StatusBadRequest : Z := 400.
Definition StatusNotFound : Z := 404.
Definition StatusMethodNotAllowed : Z := 405.
Definition StatusInternalServerError : Z := 500.

Record TemplatePayload : Type := mkTemplatePayload {
  P_Name : string;
  P_Description : string;
  P_DocumentType : string;
  P_PageSize : string;
  P_Orientation : string;
  P_JSONSchemaURL : string;
  P_ThumbnailURL : string;
  P_ChangeSummary : string
}.

Record DuplicatePayload : Type := mkDuplicatePayload {
  DP_CopyVersions : bool;
  DP_NameOverride : string;
  DP_DescriptionOverride : string;
  DP_CreatedBy : string;
  DP_UpdatedBy : string
}.

(** The zero [time.Time] of a composite literal that leaves the field out;
    the service overwrites both timestamps before anything reads them. *)
Definition zero_Time : Time := 0.

Definition ToTemplate (p : TemplatePayload) : Template :=
  {| TemplateID := ""; TenantID := "";
     Name := TrimSpace (P_Name p);
     Description := TrimSpace (P_Description p);
     DocumentType := P_DocumentType p;
     PageSize := P_PageSize p;
     Orientation := P_Orientation p;
     JSONSchemaURL := TrimSpace (P_JSONSchemaURL p);
     ThumbnailURL := TrimSpace (P_ThumbnailURL p);
     Version := 0; CreatedBy := ""; UpdatedBy := "";
     CreatedAt := zero_Time; UpdatedAt := zero_Time; DeletedAt := None;
     DocumentsCount := 0; LastUsedAt := None |}.

Definition Defaults (userID : string) (p : DuplicatePayload) : DuplicatePayload :=
  let p := if bool_decide (DP_CreatedBy p = "")
           then mkDuplicatePayload (DP_CopyVersions p) (DP_NameOverride p)
                  (DP_DescriptionOverride p) userID (DP_UpdatedBy p)
           else p in
  if bool_decide (DP_UpdatedBy p = "")
  then mkDuplicatePayload (DP_CopyVersions p) (DP_NameOverride p)
         (DP_DescriptionOverride p) (DP_CreatedBy p) userID
  else p.

(** [header] is [r.Header.Get("X-Tenant-ID")]. *)
Definition tenantFromRequest (header : string) : result string :=
  let tenantID := TrimSpace header in
  if bool_decide (tenantID = "") then Err (errors_New "X-Tenant-ID header is required")
  else Ok tenantID.

(** [header] is [r.Header.Get("X-User-ID")]. *)
Definition userFromRequest (header : string) : string :=
  let userID := TrimSpace header in
  if bool_decide (userID = "") then "system" else userID.

(** [limitParam] and [offsetParam] are the query values, empty when the
    key is absent; the result is the pair (limit, offset). *)
Definition paginationFromRequest (Atoi : string → option Z)
    (limitParam offsetParam : string) (defaultLimit : Z) : Z * Z :=
  let limit := defaultLimit in
  let offset := 0 in
  let limit :=
    if negb (bool_decide (limitParam = "")) then
      match Atoi limitParam with
      | Some parsed => if 0 <? parsed then parsed else limit
      | None => limit
      end
    else limit in
  let offset :=
    if negb (bool_decide (offsetParam = "")) then
      match Atoi offsetParam with
      | Some parsed => if 0 <=? parsed then parsed else offset
      | None => offset
      end
    else offset in
  (limit, offset).

(** The options the ListTemplates handler builds from the query. *)
Definition ListTemplates_options (Atoi : string → option Z)
    (tenantID search docType includeDeleted limitParam offsetParam : string) : ListOptions :=
  let '(limit, offset) := paginationFromRequest Atoi limitParam offsetParam 50 in
  {| L_TenantID := tenantID;
     Search := search;
     L_DocumentType := docType;
     IncludeDeleted := bool_decide (includeDeleted = "true");
     Limit := limit;
     Offset := offset |}.

Definition set_DocumentType (x : string) (t : Template) : Template :=
  mkTemplate (TemplateID t) (TenantID t) (Name t) (Description t) x (PageSize t)
    (Orientation t) (JSONSchemaURL t) (ThumbnailURL t) (Version t) (CreatedBy t)
    (UpdatedBy t) (CreatedAt t) (UpdatedAt t) (DeletedAt t) (DocumentsCount t) (LastUsedAt t).
Definition set_PageSize (x : string) (t : Template) : Template :=
  mkTemplate (TemplateID t) (TenantID t) (Name t) (Description t) (DocumentType t) x
    (Orientation t) (JSONSchemaURL t) (ThumbnailURL t) (Version t) (CreatedBy t)
    (UpdatedBy t) (CreatedAt t) (UpdatedAt t) (DeletedAt t) (DocumentsCount t) (LastUsedAt t).
Definition set_Orientation (x : string) (t : Template) : Template :=
  mkTemplate (TemplateID t) (TenantID t) (Name t) (Description t) (DocumentType t) (PageSize t)
    x (JSONSchemaURL t) (ThumbnailURL t) (Version t) (CreatedBy t)
    (UpdatedBy t) (CreatedAt t) (UpdatedAt t) (DeletedAt t) (DocumentsCount t) (LastUsedAt t).
Definition set_ThumbnailURL (x : string) (t : Template) : Template :=
  mkTemplate (TemplateID t) (TenantID t) (Name t) (Description t) (DocumentType t) (PageSize t)
    (Orientation t) (JSONSchemaURL t) x (Version t) (CreatedBy t)
    (UpdatedBy t) (CreatedAt t) (UpdatedAt t) (DeletedAt t) (DocumentsCount t) (LastUsedAt t).
Definition set_TenantID (x : string) (t : Template) : Template :=
  mkTemplate (TemplateID t) x (Name t) (Description t) (DocumentType t) (PageSize t)
    (Orientation t) (JSONSchemaURL t) (ThumbnailURL t) (Version t) (CreatedBy t)
    (UpdatedBy t) (CreatedAt t) (UpdatedAt t) (DeletedAt t) (DocumentsCount t) (LastUsedAt t).

(** The closure the UpdateTemplate handler passes to the service. *)
Definition payload_mutation (payload : TemplatePayload) : Mutation :=
  λ t,
    let t := if negb (bool_decide (P_Name payload = ""))
             then set_Name (P_Name payload) t else t in
    let t := set_Description (P_Description payload) t in
    let t := if negb (bool_decide (P_DocumentType payload = ""))
             then set_DocumentType (P_DocumentType payload) t else t in
    let t := if negb (bool_decide (P_PageSize payload = ""))
             then set_PageSize (P_PageSize payload) t else t in
    let t := if negb (bool_decide (P_Orientation payload = ""))
             then set_Orientation (P_Orientation payload) t else t in
    let t := if negb (bool_decide (P_JSONSchemaURL payload = ""))
             then set_JSONSchemaURL (P_JSONSchemaURL payload) t else t in
    let t := if negb (bool_decide (P_ThumbnailURL payload = ""))
             then set_ThumbnailURL (P_ThumbnailURL payload) t else t in
    Ok t.

(** POST /templates; [body] is the outcome of decoding the request body. *)
Definition CreateTemplate (templateID versionID : string) (now : Time)
    (tenantHeader userHeader : string) (body : option TemplatePayload)
    (r : inMemoryRepository) : Z * inMemoryRepository :=
  match tenantFromRequest tenantHeader with
  | Err _ => (StatusBadRequest, r)
  | Ok tenantID =>
      let userID := userFromRequest userHeader in
      match body with
      | None => (StatusBadRequest, r)
      | Some payload =>
          let tpl := ToTemplate payload in
          let tpl := set_TenantID tenantID tpl in
          let tpl := set_CreatedBy userID tpl in
          let tpl := set_UpdatedBy userID tpl in
          match TemplateService.CreateTemplate templateID versionID now tpl r with
          | (Err err, r') =>
              (if errors_Is err ErrInvalidInput then StatusBadRequest
               else StatusInternalServerError, r')
          | (Ok _, r') => (StatusCreated, r')
          end
      end
  end.

(** PUT /templates/{id} *)
Definition UpdateTemplate (versionID : string) (now : Time)
    (tenantHeader userHeader templateID : string) (payload : TemplatePayload)
    (r : inMemoryRepository) : Z * inMemoryRepository :=
  match tenantFromRequest tenantHeader with
  | Err _ => (StatusBadRequest, r)
  | Ok tenantID =>
      let userID := userFromRequest userHeader in
      match TemplateService.UpdateTemplate versionID now tenantID templateID
              (payload_mutation payload) userID (P_ChangeSummary payload) r with
      | (Err err, r') =>
          (if errors_Is err ErrInvalidInput then StatusBadRequest
           else if errors_Is err ErrNotFound then StatusNotFound
           else StatusInternalServerError, r')
      | (Ok _, r') => (StatusOK, r')
      end
  end.

(** DELETE /templates/{id} *)
Definition DeleteTemplate (now : Time) (tenantHeader templateID : string)
    (r : inMemoryRepository) : Z * inMemoryRepository :=
  match tenantFromRequest tenantHeader with
  | Err _ => (StatusBadRequest, r)
  | Ok tenantID =>
      match TemplateService.DeleteTemplate now tenantID templateID r with
      | (Err err, r') =>
          (if errors_Is err ErrNotFound then StatusNotFound
           else StatusInternalServerError, r')
      | (Ok _, r') => (StatusNoContent, r')
      end
  end.

(** POST /templates/{id}/restore *)
Definition RestoreTemplate (tenantHeader templateID : string) (r : inMemoryRepository)
  : Z * inMemoryRepository :=
  match tenantFromRequest tenantHeader with
  | Err _ => (StatusBadRequest, r)
  | Ok tenantID =>
      match TemplateService.RestoreTemplate tenantID templateID r with
      | (Err err, r') =>
          (if errors_Is err ErrNotFound then StatusNotFound
           else StatusInternalServerError, r')
      | (Ok _, r') => (StatusOK, r')
      end
  end.

(** POST /templates/{id}/duplicate *)
Definition DuplicateTemplate (cloneID versionID : string) (now : Time) (ids : nat → string)
    (tenantHeader userHeader templateID : string) (payload : DuplicatePayload)
    (r : inMemoryRepository) : Z * inMemoryRepository :=
  match tenantFromRequest tenantHeader with
  | Err _ => (StatusBadRequest, r)
  | Ok tenantID =>
      let payload := Defaults (userFromRequest userHeader) payload in
      match TemplateService.DuplicateTemplate cloneID versionID now ids tenantID templateID
              {| D_CreatedBy := DP_CreatedBy payload;
                 D_UpdatedBy := DP_UpdatedBy payload;
                 CopyVersions := DP_CopyVersions payload;
                 NameOverride := DP_NameOverride payload;
                 DescriptionOverride := DP_DescriptionOverride payload |} r with
      | (Err err, r') =>
          (if errors_Is err ErrNotFound then StatusNotFound
           else StatusInternalServerError, r')
      | (Ok _, r') => (StatusCreated, r')
      end
  end.

(** POST /templates/{id}/versions/{version}/restore *)
Definition RestoreVersion (Atoi : string → option Z) (now : Time)
    (tenantHeader templateID versionParam : string) (r : inMemoryRepository)
  : Z * inMemoryRepository :=
  match tenantFromRequest tenantHeader with
  | Err _ => (StatusBadRequest, r)
  | Ok tenantID =>
      match Atoi versionParam with
      | None => (StatusBadRequest, r)
      | Some versionNumber =>
          match TemplateService.RestoreVersion now tenantID templateID versionNumber r with
          | (Err err, r') =>
              (if errors_Is err ErrNotFound then StatusNotFound
               else StatusInternalServerError, r')
          | (Ok _, r') => (StatusOK, r')
          end
      end
  end.

(** The loop of BulkDelete: the identifiers that succeeded, in request
    order, the identifiers that failed, and the repository left; [nows i] is
    the clock reading of the call for position [i]. [Failed] is a map in the
    source, so an identifier that fails twice is recorded once. *)
Fixpoint BulkDelete_loop (nows : nat → Time) (i : nat) (tenantID : string)
    (templateIDs : list string) (r : inMemoryRepository)
  : list string * gset string * inMemoryRepository :=
  match templateIDs with
  | [] => ([], ∅, r)
  | id :: rest =>
      match TemplateService.DeleteTemplate (nows i) tenantID id r with
      | (Err _, r') =>
          let '(succeeded, failed, r'') := BulkDelete_loop nows (S i) tenantID rest r' in
          (succeeded, {[id]} ∪ failed, r'')
      | (Ok _, r') =>
          let '(succeeded, failed, r'') := BulkDelete_loop nows (S i) tenantID rest r' in
          (id :: succeeded, failed, r'')
      end
  end.

(** router.go: where a request goes. *)
Inductive Dispatch : Type :=
| NotFound
| MethodNotAllowed
| ToListTemplates
| ToCreateTemplate
| ToGetTemplate (templateID : string)
| ToUpdateTemplate (templateID : string)
| ToDeleteTemplate (templateID : string)
| ToRestoreTemplate (templateID : string)
| ToDuplicateTemplate (templateID : string)
| ToListVersions (templateID : string)
| ToCompareVersions (templateID : string)
| ToRestoreVersion (templateID version : string)
| ToBulkDelete
| ToBulkExport
| ToBulkDuplicate.

Definition handleTemplatesCollection (method : string) : Dispatch :=
  if bool_decide (method = "GET") then ToListTemplates
  else if bool_decide (method = "POST") then ToCreateTemplate
  else MethodNotAllowed.

Definition handlerTemplate (method templateID : string) : Dispatch :=
  if bool_decide (method = "GET") then ToGetTemplate templateID
  else if bool_decide (method = "PUT") then ToUpdateTemplate templateID
  else if bool_decide (method = "DELETE") then ToDeleteTemplate templateID
  else MethodNotAllowed.

Definition handleTemplatesBulk (method : string) (segments : list string) : Dispatch :=
  match segments with
  | [] => NotFound
  | s :: _ =>
      if negb (bool_decide (method = "POST")) then MethodNotAllowed
      else if bool_decide (s = "delete") then ToBulkDelete
      else if bool_decide (s = "export") then ToBulkExport
      else if bool_decide (s = "duplicate") then ToBulkDuplicate
      else NotFound
  end.

Definition handleVersions (method templateID : string) (segments : list string) : Dispatch :=
  match segments with
  | [] => if bool_decide (method = "GET") then ToListVersions templateID
          else MethodNotAllowed
  | s :: rest =>
      if bool_decide (s = "compare") then
        if negb (bool_decide (method = "GET")) then MethodNotAllowed
        else ToCompareVersions templateID
      else
        match rest with
        | [s1] => if bool_decide (s1 = "restore") && bool_decide (method = "POST")
                  then ToRestoreVersion templateID s
                  else NotFound
        | _ => NotFound
        end
  end.

(** The body of Router once the path is split: [segments] is
    [strings.Split(strings.Trim(r.URL.Path, "/"), "/")], of a trimmed path
    that is not empty. *)
Definition route (method : string) (segments : list string) : Dispatch :=
  match segments with
  | [] => NotFound
  | s0 :: rest =>
      if negb (bool_decide (s0 = "templates")) then NotFound
      else
        match rest with
        | [] => handleTemplatesCollection method
        | s1 :: rest' =>
            if bool_decide (s1 = "bulk") then handleTemplatesBulk method rest'
            else
              match rest' with
              | [] => handlerTemplate method s1
              | s2 :: rest'' =>
                  if bool_decide (s2 = "restore") then ToRestoreTemplate s1
                  else if bool_decide (s2 = "duplicate") then ToDuplicateTemplate s1
                  else if bool_decide (s2 = "versions") then handleVersions method s1 rest''
                  else NotFound
              end
        end
  end.

(** [strings.Trim(s, "/")]: the slashes at both ends removed. *)
Fixpoint trim_left_slashes (s : string) : string :=
  match s with
  | String c s' => if bool_decide (c = "/"%char) then trim_left_slashes s' else s
  | EmptyString => EmptyString
  end.

Definition trim_slashes (s : string) : string :=
  string_rev (trim_left_slashes (string_rev (trim_left_slashes s))).

(** [strings.Split(s, "/")]: the pieces between the slashes, one more than
    there are slashes. *)
Fixpoint split_slashes (s : string) : list string :=
  match s with
  | EmptyString => [EmptyString]
  | String c s' =>
      if bool_decide (c = "/"%char) then EmptyString :: split_slashes s'
      else match split_slashes s' with
           | piece :: pieces => String c piece :: pieces
           | [] => [String c EmptyString]
           end
  end.

(** [path] is [r.URL.Path], [method] is [r.Method]. *)
Definition Router (method path : string) : Dispatch :=
  let path := trim_slashes path in
  if bool_decide (path = "") then NotFound
  else route method (split_slashes path).

(** The template identifier a dispatch hands to its handler, if any. *)
Definition dispatched_id (d : Dispatch) : option string :=
  match d with
  | ToGetTemplate id | ToUpdateTemplate id | ToDeleteTemplate id | ToRestoreTemplate id
  | ToDuplicateTemplate id | ToListVersions id | ToCompareVersions id
  | ToRestoreVersion id _ => Some id
  | _ => None
  end.

End httpapi.


(** ** Runs of HTTP requests *)

(** The state-changing requests of the HTTP layer, with what each handler
    reads from the request and from the environment. *)
Inductive HttpCall : Type :=
| HttpCreate (templateID versionID : string) (now : Time)
    (tenantHeader userHeader : string) (body : option httpapi.TemplatePayload)
| HttpUpdate (versionID : string) (now : Time)
    (tenantHeader userHeader templateID : string) (payload : httpapi.TemplatePayload)
| HttpDelete (now : Time) (tenantHeader templateID : string)
| HttpRestore (tenantHeader templateID : string)
| HttpDuplicate (cloneID versionID : string) (now : Time) (ids : nat → string)
    (tenantHeader userHeader templateID : string) (payload : httpapi.DuplicatePayload)
| HttpRestoreVersion (now : Time) (tenantHeader templateID versionParam : string).

(** The repository a request leaves behind, whatever the status. *)
Definition http_exec (Atoi : string → option Z) (c : HttpCall) (r : inMemoryRepository)
  : inMemoryRepository :=
  match c with
  | HttpCreate templateID versionID now tenantHeader userHeader body =>
      (httpapi.CreateTemplate templateID versionID now tenantHeader userHeader body r).2
  | HttpUpdate versionID now tenantHeader userHeader templateID payload =>
      (httpapi.UpdateTemplate versionID now tenantHeader userHeader templateID payload r).2
  | HttpDelete now tenantHeader templateID =>
      (httpapi.DeleteTemplate now tenantHeader templateID r).2
  | HttpRestore tenantHeader templateID =>
      (httpapi.RestoreTemplate tenantHeader templateID r).2
  | HttpDuplicate cloneID versionID now ids tenantHeader userHeader templateID payload =>
      (httpapi.DuplicateTemplate cloneID versionID now ids tenantHeader userHeader
         templateID payload r).2
  | HttpRestoreVersion now tenantHeader templateID versionParam =>
      (httpapi.RestoreVersion Atoi now tenantHeader templateID versionParam r).2
  end.

(** The repository after a list of requests that are served one at a time:
    each handler starts in the state the previous one has left, after that
    one has answered.  [net/http] serves every request on a goroutine of its
    own, so requests may also overlap; such executions are not of this
    form. *)
Definition http_run (Atoi : string → option Z) (calls : list HttpCall)
    (r : inMemoryRepository) : inMemoryRepository :=
  foldl (λ r c, http_exec Atoi c r) r calls.

(** What is asked of the requests of a run: generated template identifiers
    are not empty, and a duplicate does not copy the source history. *)
Definition http_plain (c : HttpCall) : Prop :=
  match c with
  | HttpCreate templateID _ _ _ _ _ => templateID ≠ ""
  | HttpDuplicate cloneID _ _ _ _ _ _ payload =>
      cloneID ≠ "" ∧ httpapi.DP_CopyVersions payload = false
  | _ => True
  end.


(** A small run of requests: create T, rename it, restore its version 1. *)
Definition http_scenario : list HttpCall :=
  [ HttpCreate "T" "v-1" 10 "t1" "u1"
      (Some (httpapi.mkTemplatePayload " Warranty EU " "" "warranty" "A4" "portrait"
               "s3://schemas/v1.json" "" ""));
    HttpUpdate "v-2" 20 "t1" "u1" "T"
      (httpapi.mkTemplatePayload "Warranty EU v2" "" "" "" "" "" "" "rename");
    HttpRestoreVersion 30 "t1" "T" "1" ].

(** A stand-in for [strconv.Atoi] that knows one numeral. *)
Definition Atoi_one (s : string) : option Z :=
  if bool_decide (s = "1") then Some 1 else None.


(** * Properties *)

(** ** Machine integers *)

Lemma int_wrap_in_range z : in_int z → int_wrap z = z.
Proof.
  unfold in_int, int_min, int_max, int_wrap. intros Hz.
  rewrite Z.mod_small by lia. lia.
Qed.

Lemma int_wrap_range z : in_int (int_wrap z).
Proof.
  unfold in_int, int_min, int_max, int_wrap.
  pose proof (Z.mod_pos_bound (z + 2 ^ 63) (2 ^ 64)). lia.
Qed.

Lemma int_incr_below_max v : int_min ≤ v < int_max → int_incr v = v + 1.
Proof.
  intros Hv. unfold int_incr, int_add. apply int_wrap_in_range.
  unfold in_int. lia.
Qed.

Lemma int_incr_at_max : int_incr int_max = int_min.
Proof. reflexivity. Qed.

(** An increment that comes out positive has not wrapped. *)
Lemma int_incr_positive v : in_int v → 0 < int_incr v → int_incr v = v + 1 ∧ v < int_max.
Proof.
  intros Hv Hpos. destruct (decide (v = int_max)) as [->|Hne].
  - rewrite int_incr_at_max in Hpos. unfold int_min in Hpos. lia.
  - unfold in_int in Hv. split; [apply int_incr_below_max|]; lia.
Qed.

(** ** Validation *)

(** A branch of a validator that returns an error. *)
Ltac refused := split; [discriminate | intros; exfalso; intuition (lia || congruence)].

Lemma Template_Validate_None t :
  Template_Validate t = None ↔
  other_fields_valid t ∧
  (3 ≤ String.length (TrimSpace (Name t)))%nat ∧ (String.length (Name t) ≤ 100)%nat.
Proof.
  unfold Template_Validate, other_fields_valid.
  destruct (decide (TenantID t = "")); [refused|].
  destruct (String.length (TrimSpace (Name t)) <? 3)%nat eqn:Hlo; simpl.
  { apply Nat.ltb_lt in Hlo. refused. }
  apply Nat.ltb_ge in Hlo.
  destruct (100 <? String.length (Name t))%nat eqn:Hhi; simpl.
  { apply Nat.ltb_lt in Hhi. refused. }
  apply Nat.ltb_ge in Hhi.
  destruct (500 <? String.length (Description t))%nat eqn:Hd; simpl.
  { apply Nat.ltb_lt in Hd. refused. }
  apply Nat.ltb_ge in Hd.
  repeat (case_bool_decide; simpl; [|refused]).
  repeat (case_decide; [refused|]).
  intuition.
Qed.

Lemma TemplateVersion_Validate_None tv :
  TemplateVersion_Validate tv = None ↔
  V_TemplateID tv ≠ "" ∧ 0 < VersionNumber tv ∧ V_JSONSchemaURL tv ≠ "" ∧ V_CreatedBy tv ≠ "".
Proof.
  unfold TemplateVersion_Validate.
  destruct (decide (V_TemplateID tv = "")); [refused|].
  destruct (VersionNumber tv <=? 0) eqn:Hn.
  { apply Z.leb_le in Hn. refused. }
  apply Z.leb_gt in Hn.
  repeat (case_decide; [refused|]).
  intuition.
Qed.

(** C8, as the code has it: with the other fields valid, [Validate] accepts
    a template exactly when the trimmed name has at least 3 bytes and the
    name as given, untrimmed, has at most 100. *)
Theorem Validate_name_bounds (t : Template) :
  other_fields_valid t →
  (Template_Validate t = None ↔
   (3 ≤ String.length (TrimSpace (Name t)))%nat ∧ (String.length (Name t) ≤ 100)%nat).
Proof.
  intros Hother. rewrite Template_Validate_None. intuition.
Qed.

Lemma Validate_name_bounds_witness :
  other_fields_valid (set_Name "  Warranty EU  " warranty_eu) ∧
  (Template_Validate (set_Name "  Warranty EU  " warranty_eu) = None ↔
   (3 ≤ String.length (TrimSpace "  Warranty EU  "))%nat ∧
   (String.length "  Warranty EU  " ≤ 100)%nat).
Proof.
  assert (Hother : other_fields_valid (set_Name "  Warranty EU  " warranty_eu)).
  { unfold other_fields_valid; simpl. repeat split; try done; try lia; set_solver. }
  split; [exact Hother|].
  exact (Validate_name_bounds (set_Name "  Warranty EU  " warranty_eu) Hother).
Defined.

(** C8 as stated fails: a name of three letters and 98 trailing blanks has
    trimmed length 3, within [3,100], yet [Validate] refuses it, the other
    fields being valid. *)
Lemma Validate_rejects_padded_name :
  other_fields_valid (set_Name padded_name warranty_eu) ∧
  (3 ≤ String.length (TrimSpace (Name (set_Name padded_name warranty_eu))) ≤ 100)%nat ∧
  Template_Validate (set_Name padded_name warranty_eu)
  = Some (errors_New "name must be between 3 and 100 characters").
Proof.
  split; [|split].
  - unfold other_fields_valid; simpl. repeat split; try done; try lia; set_solver.
  - vm_compute. lia.
  - vm_compute. reflexivity.
Qed.

(** ** Pagination *)

Lemma paginate_offset_beyond {A} (result : list A) offset limit :
  Z.of_nat (length result) < offset → paginate result offset limit = Some [].
Proof.
  intros Hlen. unfold paginate.
  destruct (Z.ltb_spec (Z.of_nat (length result)) offset); [done | lia].
Qed.

Lemma paginate_all_remaining {A} (result : list A) offset limit :
  0 ≤ offset → limit ≤ 0 →
  paginate result offset limit = Some (drop (Z.to_nat offset) result).
Proof.
  intros Hoff Hlim. unfold paginate.
  destruct (Z.ltb_spec (Z.of_nat (length result)) offset) as [Hlt|Hge].
  - rewrite drop_ge by lia. done.
  - destruct (Z.leb_spec limit 0); [simpl | lia].
    unfold slice.
    destruct (Z.leb_spec 0 offset); [simpl | lia].
    destruct (Z.leb_spec offset (Z.of_nat (length result))); [simpl | lia].
    rewrite Z.leb_refl.
    rewrite take_ge; [done|]. rewrite length_drop. lia.
Qed.

Lemma paginate_negative_offset {A} (result : list A) offset limit :
  offset < 0 → paginate result offset limit = None.
Proof.
  intros Hneg. unfold paginate.
  destruct (Z.ltb_spec (Z.of_nat (length result)) offset); [lia|].
  unfold slice. destruct (Z.leb_spec 0 offset); [lia | done].
Qed.

(** Without wrap-around of [start + opt.Limit] the indices are in bounds. *)
Lemma paginate_window {A} (result : list A) offset limit :
  0 ≤ offset → 0 < limit → offset + limit ≤ int_max →
  paginate result offset limit
  = Some (take (Z.to_nat limit) (drop (Z.to_nat offset) result)).
Proof.
  intros Hoff Hlim Hsum. unfold paginate.
  destruct (Z.ltb_spec (Z.of_nat (length result)) offset) as [Hlt|Hge].
  - rewrite drop_ge by lia. by rewrite take_nil.
  - unfold int_add. rewrite int_wrap_in_range by (unfold in_int, int_min; lia).
    destruct (Z.leb_spec limit 0); [lia | simpl].
    unfold slice.
    destruct (Z.leb_spec 0 offset); [simpl | lia].
    destruct (Z.ltb_spec (Z.of_nat (length result)) (offset + limit)) as [Hover|Hfit].
    + destruct (Z.leb_spec offset (Z.of_nat (length result))); [simpl | lia].
      rewrite Z.leb_refl.
      rewrite !take_ge; [done | |]; rewrite length_drop; lia.
    + destruct (Z.leb_spec offset (offset + limit)); [simpl | lia].
      destruct (Z.leb_spec (offset + limit) (Z.of_nat (length result))); [|lia].
      do 3 f_equal. lia.
Qed.

(** C9, as the code has it: for a call whose offset is not negative, a limit
    of zero or less returns everything that matches from the offset on; a
    positive limit whose sum with the offset does not exceed the largest int
    returns the first [Limit] of these, or all of them when fewer are left;
    and an offset beyond the number of matches returns the empty page. *)
Theorem ListTemplates_offset_limit (ToLower : string → string) (opt : ListOptions)
    (r : inMemoryRepository) :
  0 ≤ Offset opt →
  (Limit opt ≤ 0 →
   inMemoryRepository.ListTemplates ToLower opt r
   = Some (drop (Z.to_nat (Offset opt)) (inMemoryRepository.matching ToLower opt r))) ∧
  (0 < Limit opt → Offset opt + Limit opt ≤ int_max →
   inMemoryRepository.ListTemplates ToLower opt r
   = Some (take (Z.to_nat (Limit opt))
             (drop (Z.to_nat (Offset opt)) (inMemoryRepository.matching ToLower opt r)))) ∧
  (Z.of_nat (length (inMemoryRepository.matching ToLower opt r)) < Offset opt →
   inMemoryRepository.ListTemplates ToLower opt r = Some []).
Proof.
  intros Hoff. unfold inMemoryRepository.ListTemplates. split; [|split].
  - intros Hlim. by apply paginate_all_remaining.
  - intros Hlim Hsum. by apply paginate_window.
  - apply paginate_offset_beyond.
Qed.

Lemma ListTemplates_offset_limit_witness :
  inMemoryRepository.ListTemplates id (mkListOptions "t1" "" "" false 0 0) repo_two
  = Some (drop 0 (inMemoryRepository.matching id (mkListOptions "t1" "" "" false 0 0) repo_two))
  ∧ (length (inMemoryRepository.matching id (mkListOptions "t1" "" "" false 1 0) repo_two)
     = 2%nat ∧
     inMemoryRepository.ListTemplates id (mkListOptions "t1" "" "" false 1 0) repo_two
     = Some (take 1 (drop 0
               (inMemoryRepository.matching id (mkListOptions "t1" "" "" false 1 0) repo_two))))
  ∧ inMemoryRepository.ListTemplates id (mkListOptions "t1" "" "" false 3 5) repo_two
    = Some [].
Proof.
  split; [|split; [split|]].
  - apply (ListTemplates_offset_limit id (mkListOptions "t1" "" "" false 0 0) repo_two);
      simpl; lia.
  - vm_compute; reflexivity.
  - apply (ListTemplates_offset_limit id (mkListOptions "t1" "" "" false 1 0) repo_two);
      [simpl; lia | simpl; lia | vm_compute; discriminate].
  - apply (ListTemplates_offset_limit id (mkListOptions "t1" "" "" false 3 5) repo_two);
      [simpl; lia | vm_compute; reflexivity].
Defined.

(** C9 as stated fails in two ways.  For a negative offset: with limit 0 and
    offset -1 the slice expression panics where "all remaining templates"
    were promised.  For a positive limit whose sum with the offset exceeds
    the largest int: with two matching templates, offset 2 and limit
    2^63 - 2 the call panics where a page was promised. *)
Lemma ListTemplates_panics_out_of_range :
  (Limit (mkListOptions "t1" "" "" false 0 (-1)) ≤ 0 ∧
   inMemoryRepository.matching id (mkListOptions "t1" "" "" false 0 (-1)) repo_created ≠ [] ∧
   inMemoryRepository.ListTemplates id (mkListOptions "t1" "" "" false 0 (-1)) repo_created
   = None) ∧
  (0 ≤ Offset (mkListOptions "t1" "" "" false (int_max - 1) 2) ∧
   0 < Limit (mkListOptions "t1" "" "" false (int_max - 1) 2) ≤ int_max ∧
   length (inMemoryRepository.matching id (mkListOptions "t1" "" "" false (int_max - 1) 2)
             repo_two) = 2%nat ∧
   inMemoryRepository.ListTemplates id (mkListOptions "t1" "" "" false (int_max - 1) 2)
     repo_two = None).
Proof.
  split.
  - split; [simpl; lia|]. split; [by vm_compute | by vm_compute].
  - split; [simpl; lia|]. split; [by vm_compute|]. split; by vm_compute.
Qed.

(** C10: the code panics for an offset that is not negative: with one
    matching template, offset 1 and the largest limit, [start + opt.Limit]
    wraps around to the smallest int, escapes the test [end > len(result)],
    and [result[1:end]] is out of bounds. *)
Theorem ListTemplates_limit_overflow_panics :
  0 ≤ Offset (mkListOptions "t1" "" "" false int_max 1) ∧
  in_int (Limit (mkListOptions "t1" "" "" false int_max 1)) ∧
  length (inMemoryRepository.matching id (mkListOptions "t1" "" "" false int_max 1)
            repo_created) = 1%nat ∧
  int_add 1 int_max = int_min ∧
  inMemoryRepository.ListTemplates id (mkListOptions "t1" "" "" false int_max 1) repo_created
  = None.
Proof.
  repeat split; try (by vm_compute).
Qed.

(** ** Tenant isolation *)

Lemma owned_Some r tenantID templateID tpl :
  owned r tenantID templateID = Some tpl ↔
  templates r !! templateID = Some tpl ∧ TenantID tpl = tenantID.
Proof.
  unfold owned. destruct (templates r !! templateID) as [t|]; [|intuition congruence].
  case_decide; intuition congruence.
Qed.

Lemma owned_other_tenant r tenantID templateID tpl :
  templates r !! templateID = Some tpl → TenantID tpl ≠ tenantID →
  owned r tenantID templateID = None.
Proof.
  intros Hget Hne. unfold owned. rewrite Hget. by case_decide.
Qed.

(** C6: on a template owned by another tenant, every tenant-scoped
    operation of the repository, and the service methods built on them,
    returns [ErrNotFound] and leaves the repository as it was. *)
Theorem cross_tenant_is_not_found (r : inMemoryRepository) (templateID tenantID : string)
    (tpl : Template) :
  templates r !! templateID = Some tpl →
  TenantID tpl ≠ tenantID →
  inMemoryRepository.GetTemplate tenantID templateID r = Err ErrNotFound ∧
  (∀ upd, TemplateID upd = templateID → TenantID upd = tenantID →
     inMemoryRepository.UpdateTemplate upd r = (Err ErrNotFound, r)) ∧
  (∀ versionID now mutate updatedBy changeSummary,
     TemplateService.UpdateTemplate versionID now tenantID templateID mutate
       updatedBy changeSummary r = (Err ErrNotFound, r)) ∧
  (∀ now, inMemoryRepository.SoftDeleteTemplate now tenantID templateID r
          = (Err ErrNotFound, r)) ∧
  inMemoryRepository.RestoreTemplate tenantID templateID r = (Err ErrNotFound, r) ∧
  (∀ cloneID versionID now opt,
     inMemoryRepository.DuplicateTemplate cloneID versionID now tenantID templateID opt r
     = (Err ErrNotFound, r)) ∧
  (∀ cloneID versionID now ids opt,
     TemplateService.DuplicateTemplate cloneID versionID now ids tenantID templateID opt r
     = (Err ErrNotFound, r)) ∧
  inMemoryRepository.ListVersions tenantID templateID r = Err ErrNotFound ∧
  (∀ version, V_TemplateID version = templateID →
     inMemoryRepository.CreateVersion tenantID version r = (Err ErrNotFound, r)) ∧
  (∀ now versionNumber,
     inMemoryRepository.RestoreVersion now tenantID templateID versionNumber r
     = (Err ErrNotFound, r)) ∧
  (∀ left right,
     inMemoryRepository.CompareVersions tenantID templateID left right r = Err ErrNotFound).
Proof.
  intros Hget Hne.
  pose proof (owned_other_tenant r tenantID templateID tpl Hget Hne) as Hown.
  repeat split; intros.
  - unfold inMemoryRepository.GetTemplate. by rewrite Hown.
  - unfold inMemoryRepository.UpdateTemplate. subst. by rewrite Hown.
  - unfold TemplateService.UpdateTemplate, bind, read, inMemoryRepository.GetTemplate.
    by rewrite Hown.
  - unfold inMemoryRepository.SoftDeleteTemplate. by rewrite Hown.
  - unfold inMemoryRepository.RestoreTemplate. by rewrite Hown.
  - unfold inMemoryRepository.DuplicateTemplate. by rewrite Hown.
  - unfold TemplateService.DuplicateTemplate, bind, inMemoryRepository.DuplicateTemplate.
    by rewrite Hown.
  - unfold inMemoryRepository.ListVersions. by rewrite Hown.
  - unfold inMemoryRepository.CreateVersion. subst. by rewrite Hown.
  - unfold inMemoryRepository.RestoreVersion. by rewrite Hown.
  - unfold inMemoryRepository.CompareVersions. by rewrite Hown.
Qed.

Lemma cross_tenant_is_not_found_witness :
  inMemoryRepository.GetTemplate "t2" "T" repo_created = Err ErrNotFound ∧
  inMemoryRepository.RestoreVersion 30 "t2" "T" 1 repo_created
  = (Err ErrNotFound, repo_created) ∧
  inMemoryRepository.GetTemplate "t1" "T" repo_created
  = Ok (set_Version 1 (set_UpdatedAt 10 (set_CreatedAt 10 (set_TemplateID "T" warranty_eu)))).
Proof.
  assert (Hget : templates repo_created !! "T"
                 = Some (set_Version 1 (set_UpdatedAt 10 (set_CreatedAt 10
                           (set_TemplateID "T" warranty_eu)))))
    by (vm_compute; reflexivity).
  assert (Hne : TenantID (set_Version 1 (set_UpdatedAt 10 (set_CreatedAt 10
                           (set_TemplateID "T" warranty_eu)))) ≠ "t2")
    by (simpl; discriminate).
  pose proof (cross_tenant_is_not_found repo_created "T" "t2" _ Hget Hne) as H.
  split; [apply H|]. split; [apply H|]. vm_compute. reflexivity.
Defined.

(** ** Listing *)

Lemma insert_by_UpdatedAt_perm t l : insert_by_UpdatedAt t l ≡ₚ t :: l.
Proof.
  induction l as [|x l IH]; simpl; [done|].
  destruct (After (UpdatedAt x) (UpdatedAt t)); [|done].
  rewrite IH. apply Permutation_swap.
Qed.

Lemma sort_by_UpdatedAt_perm l : sort_by_UpdatedAt l ≡ₚ l.
Proof.
  induction l as [|x l IH]; simpl; [done|].
  rewrite insert_by_UpdatedAt_perm. by rewrite IH.
Qed.

(** The order [ListTemplates] promises: no template is followed by one
    updated later. *)
Lemma insert_by_UpdatedAt_sorted t l :
  Sorted (λ a b, UpdatedAt b ≤ UpdatedAt a) l →
  Sorted (λ a b, UpdatedAt b ≤ UpdatedAt a) (insert_by_UpdatedAt t l).
Proof.
  induction 1 as [|x l Hs IH Hhd]; simpl.
  - repeat constructor.
  - unfold After. destruct (Z.ltb_spec (UpdatedAt t) (UpdatedAt x)) as [Hlt|Hge].
    + constructor; [done|].
      destruct Hhd as [|y l' Hxy]; simpl in *.
      * constructor. lia.
      * destruct (After (UpdatedAt y) (UpdatedAt t)); constructor; lia.
    + constructor; [by constructor|]. constructor. lia.
Qed.

Lemma sort_by_UpdatedAt_sorted l :
  Sorted (λ a b, UpdatedAt b ≤ UpdatedAt a) (sort_by_UpdatedAt l).
Proof.
  induction l; simpl; [constructor | by apply insert_by_UpdatedAt_sorted].
Qed.

Lemma paginate_elem_of {A} (result page : list A) offset limit x :
  paginate result offset limit = Some page → x ∈ page → x ∈ result.
Proof.
  unfold paginate, slice.
  destruct (Z.of_nat (length result) <? offset).
  - intros [= <-] Hx. by apply elem_of_nil in Hx.
  - match goal with |- context [if ?c then Some _ else None] => destruct c end; [|done].
    intros [= <-] Hx.
    eapply (subseteq_drop (Z.to_nat offset)), (subseteq_take _ _ _ Hx).
Qed.

Lemma selects_hides_deleted ToLower opt tpl :
  IncludeDeleted opt = false →
  inMemoryRepository.selects ToLower opt tpl = true →
  DeletedAt tpl = None.
Proof.
  intros Hinc. unfold inMemoryRepository.selects. rewrite Hinc. simpl.
  destruct (negb (bool_decide (TenantID tpl = L_TenantID opt))); [done|].
  case_bool_decide as Hdel; [done|].
  intros _. by destruct (DeletedAt tpl).
Qed.

Lemma matching_selects ToLower opt r x :
  x ∈ inMemoryRepository.matching ToLower opt r →
  inMemoryRepository.selects ToLower opt x = true ∧
  ∃ id, templates r !! id = Some x.
Proof.
  unfold inMemoryRepository.matching. rewrite sort_by_UpdatedAt_perm.
  rewrite list_elem_of_filter. intros [Hsel Hin]. split; [done|].
  apply list_elem_of_fmap in Hin as ([id y] & -> & Hin).
  exists id. by apply elem_of_map_to_list in Hin.
Qed.

(** ** Soft delete *)

(** C5, as the code has it: a soft-deleted template is left out of every
    listing that does not ask for deleted records, and the service's
    UpdateTemplate on it fails with an error that wraps [ErrInvalidInput],
    the repository unchanged. *)
Theorem soft_deleted_hidden_and_not_updatable (r : inMemoryRepository)
    (templateID : string) (tpl : Template) (d : Time) :
  templates r !! templateID = Some tpl →
  DeletedAt tpl = Some d →
  (∀ ToLower opt page,
     IncludeDeleted opt = false →
     inMemoryRepository.ListTemplates ToLower opt r = Some page →
     (tpl ∉ page) ∧ Forall (λ x, DeletedAt x = None) page) ∧
  (∀ versionID now mutate updatedBy changeSummary,
     TemplateService.UpdateTemplate versionID now (TenantID tpl) templateID mutate
       updatedBy changeSummary r
     = (Err (fmt_Errorf "template is deleted" ErrInvalidInput), r) ∧
     errors_Is (fmt_Errorf "template is deleted" ErrInvalidInput) ErrInvalidInput = true).
Proof.
  intros Hget Hdel. split.
  - intros ToLower opt page Hinc Hlist.
    assert (Hall : ∀ x, x ∈ page → DeletedAt x = None).
    { intros x Hx. eapply selects_hides_deleted; [done|].
      eapply matching_selects, paginate_elem_of; [exact Hlist | exact Hx]. }
    split.
    + intros Hin. apply Hall in Hin. congruence.
    + by apply Forall_forall.
  - intros. split; [|done].
    unfold TemplateService.UpdateTemplate, bind, read, inMemoryRepository.GetTemplate.
    assert (owned r (TenantID tpl) templateID = Some tpl) as -> by by apply owned_Some.
    by rewrite Hdel.
Qed.

Lemma soft_deleted_hidden_and_not_updatable_witness :
  inMemoryRepository.ListTemplates id (mkListOptions "t1" "" "" false 0 0) repo_deleted
  = Some [] ∧
  TemplateService.UpdateTemplate "v-2" 20 "t1" "T" rename_v2 "u1" "rename" repo_deleted
  = (Err (fmt_Errorf "template is deleted" ErrInvalidInput), repo_deleted).
Proof.
  assert (Hget : templates repo_deleted !! "T"
                 = Some (set_DeletedAt (Some 15) (set_Version 1 (set_UpdatedAt 10
                           (set_CreatedAt 10 (set_TemplateID "T" warranty_eu))))))
    by (vm_compute; reflexivity).
  pose proof (soft_deleted_hidden_and_not_updatable repo_deleted "T" _ 15 Hget eq_refl)
    as [_ Hupd].
  split; [vm_compute; reflexivity|].
  apply (Hupd "v-2" 20 rename_v2 "u1" "rename").
Defined.

(** C5 as stated fails: on the soft-deleted template T, RestoreVersion and a
    second DeleteTemplate both succeed, and both change the stored record. *)
Lemma soft_deleted_still_mutable :
  (DeletedAt <$> templates repo_deleted !! "T") = Some (Some 15) ∧
  is_Ok (TemplateService.RestoreVersion 30 "t1" "T" 1 repo_deleted).1 = true ∧
  (Version <$> templates repo_deleted !! "T") = Some 1 ∧
  (Version <$> templates (TemplateService.RestoreVersion 30 "t1" "T" 1 repo_deleted).2 !! "T")
  = Some 2 ∧
  is_Ok (TemplateService.DeleteTemplate 16 "t1" "T" repo_deleted).1 = true ∧
  (DeletedAt <$> templates (TemplateService.DeleteTemplate 16 "t1" "T" repo_deleted).2 !! "T")
  = Some (Some 16).
Proof. repeat split; by vm_compute. Qed.

(** ** Appending to a history *)

Lemma history_insert_eq r ts id l :
  history (mkRepo ts (<[id := l]> (versions r))) id = l.
Proof. unfold history; simpl. by rewrite lookup_insert_eq. Qed.

Lemma history_insert_ne r ts id id' l :
  id ≠ id' → history (mkRepo ts (<[id := l]> (versions r))) id' = history r id'.
Proof. intros Hne. unfold history; simpl. by rewrite lookup_insert_ne. Qed.

Lemma current_entries_cleared l : current_entries (set_IsCurrent false <$> l) = [].
Proof.
  unfold current_entries. induction l as [|v l IH]; [done|].
  rewrite fmap_cons, filter_cons_False; [done | simpl; congruence].
Qed.

Lemma version_numbers_cleared l :
  version_numbers (set_IsCurrent false <$> l) = version_numbers l.
Proof. unfold version_numbers. rewrite <- list_fmap_compose. by apply list_fmap_ext. Qed.

(** What a successful [CreateVersion] has checked and written. *)
Lemma CreateVersion_Ok tenantID version r out r' :
  inMemoryRepository.CreateVersion tenantID version r = (Ok out, r') →
  out = version ∧
  is_Some (owned r tenantID (V_TemplateID version)) ∧
  TemplateVersion_Validate version = None ∧
  r' = mkRepo (templates r)
         (<[V_TemplateID version :=
              (set_IsCurrent false <$> history r (V_TemplateID version)) ++ [version]]>
            (versions r)).
Proof.
  unfold inMemoryRepository.CreateVersion.
  destruct (owned r tenantID (V_TemplateID version)) as [tpl|]; [|done].
  destruct (TemplateVersion_Validate version); [done|].
  intros [= <- <-]. eauto.
Qed.

(** C2, as the code has it: a successful CreateVersion clears [is_current]
    on every entry the template already had and appends the incoming entry
    last, with the [is_current] flag its caller gave it; when that flag is
    set, the history ends with exactly one current entry, the new one. *)
Theorem CreateVersion_clears_then_appends (tenantID : string) (version out : TemplateVersion)
    (r r' : inMemoryRepository) :
  inMemoryRepository.CreateVersion tenantID version r = (Ok out, r') →
  out = version ∧
  templates r' = templates r ∧
  history r' (V_TemplateID version)
  = (set_IsCurrent false <$> history r (V_TemplateID version)) ++ [version] ∧
  (∀ id, id ≠ V_TemplateID version → history r' id = history r id) ∧
  (IsCurrent version = true →
   current_entries (history r' (V_TemplateID version)) = [version]).
Proof.
  intros Hok. apply CreateVersion_Ok in Hok as (-> & _ & _ & ->).
  rewrite history_insert_eq. repeat split.
  - intros id Hne. by apply history_insert_ne.
  - intros Hcur. unfold current_entries. rewrite filter_app.
    fold (current_entries (set_IsCurrent false <$> history r (V_TemplateID version))).
    rewrite current_entries_cleared. simpl.
    by rewrite filter_cons_True, filter_nil.
Qed.

Lemma CreateVersion_clears_then_appends_witness :
  history (inMemoryRepository.CreateVersion "t1" (set_IsCurrent true stale_entry)
             repo_created).2 "T"
  = (set_IsCurrent false <$> history repo_created "T") ++ [set_IsCurrent true stale_entry].
Proof.
  apply (CreateVersion_clears_then_appends "t1" (set_IsCurrent true stale_entry)
           (set_IsCurrent true stale_entry) repo_created
           (inMemoryRepository.CreateVersion "t1" (set_IsCurrent true stale_entry)
              repo_created).2).
  vm_compute. reflexivity.
Defined.

(** C2 as stated fails: CreateVersion accepts an entry that is not flagged
    current, stores it as it is, and leaves a non-empty history with no
    current entry. *)
Lemma CreateVersion_can_leave_no_current :
  is_Ok (inMemoryRepository.CreateVersion "t1" stale_entry repo_created).1 = true ∧
  length (history repo_created "T") = 1%nat ∧
  length (history (inMemoryRepository.CreateVersion "t1" stale_entry repo_created).2 "T")
  = 2%nat ∧
  current_entries
    (history (inMemoryRepository.CreateVersion "t1" stale_entry repo_created).2 "T") = [].
Proof. repeat split; by vm_compute. Qed.

(** ** Restoring a version *)

Lemma find_version_Some versionNumber l v :
  inMemoryRepository.find_version versionNumber l = Some v →
  v ∈ l ∧ VersionNumber v = versionNumber.
Proof.
  unfold inMemoryRepository.find_version.
  destruct (list_find _ l) as [[i w]|] eqn:Hfind; [|done].
  simpl. intros [= <-]. apply list_find_Some in Hfind as (Hi & Hn & _).
  split; [by eapply list_elem_of_lookup_2 | done].
Qed.

(** What a successful [RestoreVersion] has found and written. *)
Lemma RestoreVersion_Ok now tenantID templateID versionNumber r out r' :
  inMemoryRepository.RestoreVersion now tenantID templateID versionNumber r = (Ok out, r') →
  ∃ tpl restored,
    owned r tenantID templateID = Some tpl ∧
    inMemoryRepository.find_version versionNumber (history r templateID) = Some restored ∧
    out = set_V_CreatedAt now
            (set_VersionNumber (int_incr (Version tpl)) (set_IsCurrent true restored)) ∧
    r' = mkRepo
           (<[templateID :=
                set_UpdatedBy (V_CreatedBy restored)
                  (set_UpdatedAt now
                     (set_Version (int_incr (Version tpl))
                        (set_JSONSchemaURL (V_JSONSchemaURL restored) tpl)))]>
              (templates r))
           (<[templateID := history r templateID ++ [out]]> (versions r)).
Proof.
  unfold inMemoryRepository.RestoreVersion.
  destruct (owned r tenantID templateID) as [tpl|] eqn:Hown; [|done].
  destruct (inMemoryRepository.find_version _ _) as [restored|] eqn:Hfind; [|done].
  simpl. intros [= <- <-]. eexists _, _. repeat split; reflexivity.
Qed.

(** X16: the parts of the contract of RestoreVersion that the code keeps: the
    counter moves to its successor (strictly up, short of the largest int),
    and the appended entry carries the restored schema URL, the new
    [updated_at], the new number and the current flag. *)
Lemma RestoreVersion_moves_forward now tenantID templateID versionNumber r out r' :
  inMemoryRepository.RestoreVersion now tenantID templateID versionNumber r = (Ok out, r') →
  ∃ tpl tpl' restored,
    templates r !! templateID = Some tpl ∧
    templates r' !! templateID = Some tpl' ∧
    restored ∈ history r templateID ∧
    VersionNumber restored = versionNumber ∧
    Version tpl' = int_incr (Version tpl) ∧
    (int_min ≤ Version tpl < int_max → Version tpl < Version tpl') ∧
    history r' templateID = history r templateID ++ [out] ∧
    V_JSONSchemaURL out = V_JSONSchemaURL restored ∧
    JSONSchemaURL tpl' = V_JSONSchemaURL restored ∧
    V_CreatedAt out = UpdatedAt tpl' ∧
    VersionNumber out = Version tpl' ∧
    IsCurrent out = true ∧
    VersionID out = VersionID restored.
Proof.
  intros Hok. apply RestoreVersion_Ok in Hok as (tpl & restored & Hown & Hfind & -> & ->).
  apply owned_Some in Hown as [Hget _].
  apply find_version_Some in Hfind as [Hin Hnum].
  eexists tpl, _, restored. simpl. rewrite lookup_insert_eq, history_insert_eq.
  repeat split; try done.
  intros Hrange. rewrite int_incr_below_max by done. simpl. lia.
Qed.

(** C1: the code breaks it. RestoreVersion appends its entry flagged current
    without clearing the flag on the entries already there (CreateVersion
    does clear them): after creating T and restoring its version 1 the
    history of T has two current entries. *)
Theorem RestoreVersion_leaves_two_current :
  length (current_entries (history repo_created "T")) = 1%nat ∧
  is_Ok (TemplateService.RestoreVersion 30 "t1" "T" 1 repo_created).1 = true ∧
  IsCurrent <$> history (TemplateService.RestoreVersion 30 "t1" "T" 1 repo_created).2 "T"
  = [true; true] ∧
  length (current_entries
            (history (TemplateService.RestoreVersion 30 "t1" "T" 1 repo_created).2 "T"))
  = 2%nat.
Proof. repeat split; by vm_compute. Qed.

(** C3: the code breaks it. The entry RestoreVersion appends is a copy of
    the restored one in which only the flag, the number and the timestamp
    are replaced: it keeps the restored entry's identifier, where every other
    producer of an entry draws a new one. After creating T and restoring its
    version 1, both entries of the history carry the identifier v-1. *)
Theorem RestoreVersion_reuses_identifier :
  is_Ok (TemplateService.RestoreVersion 30 "t1" "T" 1 repo_created).1 = true ∧
  VersionID <$> history repo_created "T" = ["v-1"] ∧
  VersionID <$> history (TemplateService.RestoreVersion 30 "t1" "T" 1 repo_created).2 "T"
  = ["v-1"; "v-1"] ∧
  VersionNumber <$> history (TemplateService.RestoreVersion 30 "t1" "T" 1 repo_created).2 "T"
  = [1; 2].
Proof. repeat split; by vm_compute. Qed.

(** ** Create followed by updates *)

(** What a successful [TemplateService.CreateTemplate] has written. *)
Lemma CreateTemplate_Ok templateID versionID now tpl r created r' :
  TemplateService.CreateTemplate templateID versionID now tpl r = (Ok created, r') →
  created = set_Version 1 (set_UpdatedAt now (set_CreatedAt now (set_TemplateID templateID tpl))) ∧
  Template_Validate created = None ∧
  templates r !! templateID = None ∧
  r' = mkRepo (<[templateID := created]> (templates r))
         (<[templateID :=
              (set_IsCurrent false <$> history r templateID)
              ++ [mkTemplateVersion versionID templateID 1 "initial version"
                    (JSONSchemaURL tpl) (CreatedBy tpl) now true]]>
            (versions r)).
Proof.
  unfold TemplateService.CreateTemplate.
  set (tpl1 := set_Version 1 _).
  destruct (Template_Validate tpl1) eqn:Hval; [done|].
  unfold bind, inMemoryRepository.CreateTemplate.
  destruct (templates r !! TemplateID tpl1) eqn:Hfree; [done|].
  match goal with |- context [inMemoryRepository.CreateVersion ?t ?v ?s] =>
    destruct (inMemoryRepository.CreateVersion t v s) as [[out|err] r2] eqn:Hcv end; [|done].
  intros [= <- <-]. apply CreateVersion_Ok in Hcv as (_ & _ & _ & ->).
  done.
Qed.

(** What a successful [TemplateService.UpdateTemplate] has read, checked and
    written. *)
Lemma UpdateTemplate_Ok versionID now tenantID templateID mutate updatedBy changeSummary
    r updated r' :
  TemplateService.UpdateTemplate versionID now tenantID templateID mutate updatedBy
    changeSummary r = (Ok updated, r') →
  ∃ tpl mutated,
    templates r !! templateID = Some tpl ∧
    TenantID tpl = tenantID ∧
    DeletedAt tpl = None ∧
    mutate tpl = Ok mutated ∧
    updated = set_UpdatedAt now
                (set_UpdatedBy updatedBy (set_Version (int_incr (Version mutated)) mutated)) ∧
    Template_Validate updated = None ∧
    is_Some (owned r (TenantID mutated) (TemplateID mutated)) ∧
    0 < Version updated ∧
    r' = mkRepo (<[TemplateID mutated := updated]> (templates r))
           (<[TemplateID mutated :=
                (set_IsCurrent false <$> history r (TemplateID mutated))
                ++ [mkTemplateVersion versionID (TemplateID mutated) (Version updated)
                      changeSummary (JSONSchemaURL mutated) updatedBy now true]]>
              (versions r)).
Proof.
  unfold TemplateService.UpdateTemplate, bind, read, inMemoryRepository.GetTemplate.
  destruct (owned r tenantID templateID) as [tpl|] eqn:Hown; [|done].
  apply owned_Some in Hown as [Hget Hten].
  destruct (DeletedAt tpl) eqn:Hdel; [done|].
  destruct (mutate tpl) as [mutated|] eqn:Hmut; [|done].
  set (tpl2 := set_UpdatedAt now _).
  destruct (Template_Validate tpl2) eqn:Hval; [done|].
  unfold inMemoryRepository.UpdateTemplate.
  destruct (owned r (TenantID tpl2) (TemplateID tpl2)) as [existing|] eqn:Hex; [|done].
  match goal with |- context [inMemoryRepository.CreateVersion ?t ?v ?s] =>
    destruct (inMemoryRepository.CreateVersion t v s) as [[out|err] r2] eqn:Hcv end; [|done].
  intros [= <- <-]. apply CreateVersion_Ok in Hcv as (_ & _ & Hvv & ->).
  apply TemplateVersion_Validate_None in Hvv as (_ & Hpos & _).
  exists tpl, mutated. repeat split; done.
Qed.

Lemma current_entries_after_clear l v :
  IsCurrent v = true → current_entries ((set_IsCurrent false <$> l) ++ [v]) = [v].
Proof.
  intros Hcur. unfold current_entries. rewrite filter_app.
  fold (current_entries (set_IsCurrent false <$> l)).
  rewrite current_entries_cleared. simpl.
  by rewrite filter_cons_True, filter_nil.
Qed.

Lemma tracks_CreateTemplate templateID versionID now tpl r created r' :
  TemplateService.CreateTemplate templateID versionID now tpl r = (Ok created, r') →
  TemplateID created = templateID ∧ tracks (TenantID created) templateID 1 r'.
Proof.
  intros Hok. apply CreateTemplate_Ok in Hok as (-> & _ & _ & ->).
  split; [done|]. eexists _, _. simpl. rewrite lookup_insert_eq, history_insert_eq.
  rewrite current_entries_after_clear by done.
  repeat split; done.
Qed.

Lemma tracks_UpdateTemplate versionID now tenantID templateID mutate updatedBy changeSummary
    k r updated r' :
  keeps_version mutate → keeps_identifier mutate →
  tracks tenantID templateID k r →
  TemplateService.UpdateTemplate versionID now tenantID templateID mutate updatedBy
    changeSummary r = (Ok updated, r') →
  tracks tenantID templateID (k + 1) r'.
Proof.
  intros Hkv Hki (t & e & Hget & Hid & Hten & Hver & Hk & _ & _) Hok.
  apply UpdateTemplate_Ok in Hok
    as (tpl & mutated & Hget' & _ & _ & Hmut & -> & _ & [existing Hex] & Hpos & ->).
  assert (tpl = t) as -> by congruence.
  pose proof (Hkv _ _ Hmut) as Hv. pose proof (Hki _ _ Hmut) as Hi.
  rewrite Hi, Hid in *. simpl in Hpos. rewrite Hv, Hver in Hpos.
  destruct (int_incr_positive k) as [Hincr Hlt]; [unfold in_int, int_min; lia | done |].
  apply owned_Some in Hex as [Hget2 Hten2].
  assert (existing = t) as -> by congruence.
  eexists _, _. simpl. rewrite lookup_insert_eq, history_insert_eq.
  rewrite current_entries_after_clear by done. simpl.
  rewrite Hv, Hver, Hincr. repeat split; try done; try lia.
  simpl. congruence.
Qed.

Lemma tracks_run_updates tenantID templateID calls : ∀ k r r',
  Forall (λ c, keeps_version (u_mutate c) ∧ keeps_identifier (u_mutate c)) calls →
  tracks tenantID templateID k r →
  run_updates tenantID templateID calls r = Some r' →
  tracks tenantID templateID (k + Z.of_nat (length calls)) r'.
Proof.
  induction calls as [|c calls IH]; intros k r r' Hall Htr Hrun.
  - injection Hrun as <-. simpl. by rewrite Z.add_0_r.
  - apply Forall_cons in Hall as [[Hkv Hki] Hall].
    cbn [run_updates] in Hrun.
    destruct (TemplateService.UpdateTemplate _ _ _ _ _ _ _ r) as [[updated|err] r1] eqn:Hupd;
      [|done].
    eapply tracks_UpdateTemplate in Hupd; [|done..].
    specialize (IH _ _ _ Hall Hupd Hrun).
    rewrite length_cons, Nat2Z.inj_succ.
    by replace (k + Z.succ (Z.of_nat (length calls)))
      with (k + 1 + Z.of_nat (length calls)) by lia.
Qed.

(** C7, as the code has it: after a valid Create and N accepted Updates
    whose closures leave both the version counter and the template
    identifier alone, the template's version is 1 + N and its history has
    exactly one current entry, numbered with that version. *)
Theorem updates_count_versions (r0 r1 r : inMemoryRepository)
    (templateID versionID : string) (now : Time) (tpl created : Template)
    (calls : list UpdateCall) :
  TemplateService.CreateTemplate templateID versionID now tpl r0 = (Ok created, r1) →
  Forall (λ c, keeps_version (u_mutate c) ∧ keeps_identifier (u_mutate c)) calls →
  run_updates (TenantID created) (TemplateID created) calls r1 = Some r →
  ∃ t e,
    templates r !! TemplateID created = Some t ∧
    Version t = 1 + Z.of_nat (length calls) ∧
    current_entries (history r (TemplateID created)) = [e] ∧
    VersionNumber e = Version t.
Proof.
  intros Hcreate Hall Hrun.
  apply tracks_CreateTemplate in Hcreate as [Hid Htr]. rewrite Hid in *.
  pose proof (tracks_run_updates _ _ _ _ _ _ Hall Htr Hrun)
    as (t & e & Hget & _ & _ & Hver & _ & Hcur & Hnum).
  exists t, e. repeat split; try done. congruence.
Qed.

Lemma updates_count_versions_witness :
  ∃ t e,
    templates repo_updated !! "T" = Some t ∧
    Version t = 2 ∧
    current_entries (history repo_updated "T") = [e] ∧
    VersionNumber e = Version t.
Proof.
  assert (Hcreate :
    TemplateService.CreateTemplate "T" "v-1" 10 warranty_eu NewInMemoryRepository
    = (Ok (set_Version 1 (set_UpdatedAt 10 (set_CreatedAt 10 (set_TemplateID "T" warranty_eu)))),
       repo_created)) by (vm_compute; reflexivity).
  assert (Hall : Forall (λ c, keeps_version (u_mutate c) ∧ keeps_identifier (u_mutate c))
                   [mkUpdateCall "v-2" 20 rename_v2 "u1" "rename"]).
  { repeat constructor; intros t t' [= <-]; reflexivity. }
  assert (Hrun : run_updates "t1" "T" [mkUpdateCall "v-2" 20 rename_v2 "u1" "rename"]
                   repo_created = Some repo_updated) by (vm_compute; reflexivity).
  exact (updates_count_versions NewInMemoryRepository repo_created repo_updated
           "T" "v-1" 10 warranty_eu _ _ Hcreate Hall Hrun).
Defined.

(** C7 as stated fails: T is created by a valid Create in a repository that
    holds U; one Update on T whose closure leaves the version counter alone
    but overwrites the identifier with U's is accepted, and the version of T
    is still 1, not 1 + 1. *)
Lemma retargeted_update_misses_template :
  is_Ok (TemplateService.CreateTemplate "T" "v-1" 10 warranty_eu repo_U).1 = true ∧
  keeps_version retarget_U ∧
  ((λ r, Version <$> templates r !! "T")
     <$> run_updates "t1" "T" [mkUpdateCall "v-2" 20 retarget_U "u1" "edit"] repo_two)
  = Some (Some 1).
Proof.
  split; [by vm_compute|]. split; [|by vm_compute].
  intros t t' [= <-]. reflexivity.
Qed.

(** ** Numbering of histories *)

Lemma observe_lookup r r' held id :
  observe r r' held !! id
  = match templates r' !! id with
    | None => None
    | Some t' =>
        Some (match templates r !! id with
              | Some t => if decide (Version t = Version t') then default [] (held !! id)
                          else default [] (held !! id) ++ [Version t']
              | None => default [] (held !! id) ++ [Version t']
              end)
    end.
Proof.
  unfold observe. rewrite map_lookup_imap.
  destruct (templates r' !! id) as [t'|]; [|done]. simpl.
  destruct (templates r !! id) as [t|]; [|done]. by case_decide.
Qed.

Lemma seqZ_snoc v : 0 ≤ v → seqZ 1 (v + 1) = seqZ 1 v ++ [v + 1].
Proof.
  intros Hv. rewrite seqZ_app by lia. f_equal.
  unfold seqZ. simpl. f_equal. lia.
Qed.

Lemma numbered_effect n r r' held :
  numbered n r held → effect r r' → numbered (S n) r' (observe r r' held).
Proof.
  intros [Hsome Hnone] Heff.
  destruct Heff as [-> | id t t' Hget Hid Hver -> | id t t' h Hget Hid Hver Hh ->
                   | id t' h Hget Hne Hid Hver Hh ->].
  - split.
    + intros id t Hget. destruct (Hsome id t Hget) as (? & ? & ? & ? & Hheld).
      rewrite observe_lookup, Hget, Hheld. rewrite decide_True by done.
      repeat split; try done; lia.
    + intros id Hget. destruct (Hnone id Hget) as [? ?].
      by rewrite observe_lookup, Hget.
  - destruct (Hsome id t Hget) as (Htid & Hnonempty & Hrange & Hnum & Hheld). split.
    + intros j u. rewrite observe_lookup. simpl.
      destruct (decide (id = j)) as [<-|Hj].
      * rewrite lookup_insert_eq. intros [= <-].
        rewrite Hget, Hheld, decide_True by done. rewrite Hver.
        repeat split; try done; try lia.
      * rewrite lookup_insert_ne by done. intros Hu.
        destruct (Hsome j u Hu) as (? & ? & ? & ? & Hheld').
        rewrite Hu, Hheld', decide_True by done.
        repeat split; try done; lia.
    + intros j. rewrite observe_lookup. simpl.
      destruct (decide (id = j)) as [<-|Hj]; [by rewrite lookup_insert_eq|].
      rewrite lookup_insert_ne by done. intros Hu. rewrite Hu.
      by destruct (Hnone j Hu).
  - destruct (Hsome id t Hget) as (Htid & Hnonempty & Hrange & Hnum & Hheld). split.
    + intros j u. rewrite observe_lookup. simpl.
      destruct (decide (id = j)) as [<-|Hj].
      * rewrite lookup_insert_eq. intros [= <-].
        rewrite history_insert_eq, Hget, Hheld, decide_False by lia. simpl.
        rewrite Hh, Hnum, Hver, seqZ_snoc by lia.
        repeat split; try done; lia.
      * rewrite lookup_insert_ne by done. intros Hu.
        destruct (Hsome j u Hu) as (? & ? & ? & ? & Hheld').
        rewrite history_insert_ne by done.
        rewrite Hu, Hheld', decide_True by done.
        repeat split; try done; lia.
    + intros j. rewrite observe_lookup. simpl.
      destruct (decide (id = j)) as [<-|Hj]; [by rewrite lookup_insert_eq|].
      rewrite lookup_insert_ne by done. intros Hu. rewrite Hu.
      rewrite history_insert_ne by done. by destruct (Hnone j Hu).
  - destruct (Hnone id Hget) as [Hempty Hheld]. split.
    + intros j u. rewrite observe_lookup. simpl.
      destruct (decide (id = j)) as [<-|Hj].
      * rewrite lookup_insert_eq. intros [= <-].
        rewrite history_insert_eq, Hget, Hheld. simpl.
        rewrite Hh, Hempty, Hver. simpl.
        repeat split; try done; lia.
      * rewrite lookup_insert_ne by done. intros Hu.
        destruct (Hsome j u Hu) as (? & ? & ? & ? & Hheld').
        rewrite history_insert_ne by done.
        rewrite Hu, Hheld', decide_True by done.
        repeat split; try done; lia.
    + intros j. rewrite observe_lookup. simpl.
      destruct (decide (id = j)) as [<-|Hj]; [by rewrite lookup_insert_eq|].
      rewrite lookup_insert_ne by done. intros Hu. rewrite Hu.
      rewrite history_insert_ne by done. by destruct (Hnone j Hu).
Qed.

Lemma version_numbers_snoc l v :
  version_numbers (l ++ [v]) = version_numbers l ++ [VersionNumber v].
Proof. unfold version_numbers. by rewrite fmap_app. Qed.

Lemma effect_CreateTemplate templateID versionID now tpl r :
  templateID ≠ "" →
  effect r (TemplateService.CreateTemplate templateID versionID now tpl r).2.
Proof.
  intros Hne. unfold TemplateService.CreateTemplate.
  set (tpl1 := set_Version 1 _).
  destruct (Template_Validate tpl1) eqn:Hval; [by apply effect_none|].
  apply Template_Validate_None in Hval as [(_ & _ & _ & _ & _ & Hurl & Hby & _) _].
  unfold bind, inMemoryRepository.CreateTemplate.
  destruct (templates r !! TemplateID tpl1) eqn:Hfree; [by apply effect_none|].
  unfold inMemoryRepository.CreateVersion, owned. simpl.
  rewrite lookup_insert_eq. simpl. rewrite decide_True by done.
  match goal with |- context [TemplateVersion_Validate ?v] =>
    assert (TemplateVersion_Validate v = None) as -> by (by apply TemplateVersion_Validate_None)
  end.
  simpl. eapply (effect_new _ _ templateID tpl1); try done.
  by rewrite version_numbers_snoc, version_numbers_cleared.
Qed.

Lemma effect_UpdateTemplate versionID now tenantID templateID mutate updatedBy changeSummary
    n r held :
  numbered n r held → 1 + Z.of_nat n < int_max →
  keeps_identifier mutate → keeps_version mutate →
  effect r (TemplateService.UpdateTemplate versionID now tenantID templateID mutate
              updatedBy changeSummary r).2.
Proof.
  intros [Hsome _] Hbound Hki Hkv.
  unfold TemplateService.UpdateTemplate, bind, read, inMemoryRepository.GetTemplate.
  destruct (owned r tenantID templateID) as [tpl|] eqn:Hown; [|by apply effect_none].
  apply owned_Some in Hown as [Hget Hten].
  destruct (Hsome _ _ Hget) as (Hid & Hnonempty & Hrange & _).
  destruct (DeletedAt tpl); [by apply effect_none|].
  destruct (mutate tpl) as [mutated|] eqn:Hmut; [|by apply effect_none].
  pose proof (Hki _ _ Hmut) as Hi. pose proof (Hkv _ _ Hmut) as Hv.
  set (tpl2 := set_UpdatedAt now _).
  destruct (Template_Validate tpl2) eqn:Hval; [by apply effect_none|].
  apply Template_Validate_None in Hval as [(_ & _ & _ & _ & _ & Hurl & _ & Hby) _].
  assert (Hincr : Version tpl2 = Version tpl + 1).
  { simpl. rewrite Hv. apply int_incr_below_max. unfold int_min. lia. }
  unfold inMemoryRepository.UpdateTemplate.
  (* a closure that has changed the tenant is stopped by the repository *)
  destruct (owned r (TenantID tpl2) (TemplateID tpl2)) as [existing|] eqn:Hown2;
    [|by apply effect_none].
  apply owned_Some in Hown2 as [Hget2 Hten2]. simpl in Hget2, Hten2.
  rewrite Hi, Hid, Hget in Hget2. injection Hget2 as <-.
  assert (Ht : TenantID mutated = TenantID tpl) by done.
  unfold inMemoryRepository.CreateVersion, owned. simpl.
  rewrite lookup_insert_eq. simpl. rewrite Ht, Hten, decide_True by done.
  match goal with |- context [TemplateVersion_Validate ?v] =>
    assert (TemplateVersion_Validate v = None) as ->
  end.
  { apply TemplateVersion_Validate_None. simpl. simpl in Hincr.
    rewrite Hi, Hid, Hincr. repeat split; try done. lia. }
  simpl. rewrite Hi, Hid.
  eapply (effect_bump _ _ templateID tpl tpl2); try done.
  - simpl. by rewrite Hi.
  - rewrite version_numbers_snoc, version_numbers_cleared. done.
Qed.

Lemma effect_DuplicateTemplate cloneID versionID now ids tenantID templateID opt r :
  cloneID ≠ "" → CopyVersions opt = false →
  effect r (TemplateService.DuplicateTemplate cloneID versionID now ids tenantID
              templateID opt r).2.
Proof.
  intros Hne Hcopy.
  unfold TemplateService.DuplicateTemplate, bind, inMemoryRepository.DuplicateTemplate.
  rewrite Hcopy.
  destruct (owned r tenantID templateID) as [tpl|]; [|by apply effect_none].
  match goal with |- context [Template_Validate ?c] => set (clone := c) end.
  assert (Hid : TemplateID clone = cloneID).
  { subst clone. by repeat (case_match; simpl). }
  assert (Hver : Version clone = 1).
  { subst clone. by repeat (case_match; simpl). }
  destruct (Template_Validate clone); [by apply effect_none|].
  destruct (templates r !! TemplateID clone) eqn:Hfree; [by apply effect_none|].
  simpl. rewrite Hid in *.
  eapply (effect_new _ _ cloneID clone); try done.
  rewrite version_numbers_snoc. cbn [VersionNumber]. by rewrite Hver.
Qed.

Lemma effect_RestoreTemplate tenantID templateID n r held :
  numbered n r held →
  effect r (TemplateService.RestoreTemplate tenantID templateID r).2.
Proof.
  intros [Hsome _].
  unfold TemplateService.RestoreTemplate, inMemoryRepository.RestoreTemplate.
  destruct (owned r tenantID templateID) as [tpl|] eqn:Hown; [|by apply effect_none].
  apply owned_Some in Hown as [Hget _]. simpl.
  destruct (Hsome _ _ Hget) as (Hid & _).
  eapply (effect_touch _ _ templateID tpl); [done | | | reflexivity]; done.
Qed.

Lemma effect_DeleteTemplate now tenantID templateID n r held :
  numbered n r held →
  effect r (TemplateService.DeleteTemplate now tenantID templateID r).2.
Proof.
  intros [Hsome _].
  unfold TemplateService.DeleteTemplate, inMemoryRepository.SoftDeleteTemplate.
  destruct (owned r tenantID templateID) as [tpl|] eqn:Hown; [|by apply effect_none].
  apply owned_Some in Hown as [Hget _]. simpl.
  destruct (Hsome _ _ Hget) as (Hid & _).
  eapply (effect_touch _ _ templateID tpl); [done | | | reflexivity]; done.
Qed.

Lemma effect_RestoreVersion now tenantID templateID versionNumber n r held :
  numbered n r held → 1 + Z.of_nat n < int_max →
  effect r (TemplateService.RestoreVersion now tenantID templateID versionNumber r).2.
Proof.
  intros [Hsome _] Hbound.
  unfold TemplateService.RestoreVersion, inMemoryRepository.RestoreVersion.
  destruct (owned r tenantID templateID) as [tpl|] eqn:Hown; [|by apply effect_none].
  apply owned_Some in Hown as [Hget _].
  destruct (Hsome _ _ Hget) as (Hid & _ & Hrange & _).
  destruct (inMemoryRepository.find_version _ _) as [restored|]; [|by apply effect_none].
  simpl.
  assert (Hincr : int_incr (Version tpl) = Version tpl + 1).
  { apply int_incr_below_max. unfold int_min. lia. }
  eapply (effect_bump _ _ templateID tpl _ _ Hget); cycle 3.
  - reflexivity.
  - done.
  - simpl. by rewrite Hincr.
  - by rewrite version_numbers_snoc.
Qed.

Lemma effect_exec c n r held :
  numbered n r held → 1 + Z.of_nat n < int_max → plain c → effect r (exec c r).
Proof.
  intros Hnum Hbound Hplain. destruct c; simpl in *.
  - by apply effect_CreateTemplate.
  - destruct Hplain as [? ?]. by eapply effect_UpdateTemplate.
  - destruct Hplain as [? ?]. by apply effect_DuplicateTemplate.
  - by eapply effect_RestoreTemplate.
  - by eapply effect_DeleteTemplate.
  - by eapply effect_RestoreVersion.
Qed.

Lemma numbered_empty : numbered 0 NewInMemoryRepository ∅.
Proof. split; [by intros id t Hget | done]. Qed.

Lemma numbered_run calls : ∀ n r held r' held',
  numbered n r held →
  Forall plain calls →
  Z.of_nat (n + length calls) < int_max →
  run calls r held = (r', held') →
  numbered (n + length calls) r' held'.
Proof.
  induction calls as [|c calls IH]; intros n r held r' held' Hnum Hall Hbound Hrun.
  - injection Hrun as <- <-. simpl. by rewrite Nat.add_0_r.
  - apply Forall_cons in Hall as [Hplain Hall]. cbn [run] in Hrun.
    rewrite length_cons in *.
    replace (n + S (length calls))%nat with (S n + length calls)%nat in * by lia.
    eapply IH; [|done..].
    apply numbered_effect; [done|].
    eapply effect_exec; [done| lia |done].
Qed.

(** What [TemplateService.UpdateTemplate] does is what it reads followed
    by what it writes. *)
Lemma UpdateTemplate_phases versionID now tenantID templateID mutate updatedBy changeSummary
    r :
  TemplateService.UpdateTemplate versionID now tenantID templateID mutate updatedBy
    changeSummary r
  = match UpdateTemplate_reads versionID now tenantID templateID mutate updatedBy
            changeSummary r with
    | Ok w => UpdateTemplate_writes tenantID w r
    | Err err => (Err err, r)
    end.
Proof.
  unfold TemplateService.UpdateTemplate, UpdateTemplate_reads, UpdateTemplate_writes,
    bind, read, fail.
  destruct (inMemoryRepository.GetTemplate tenantID templateID r) as [tpl|]; [|done].
  destruct (DeletedAt tpl); [done|].
  destruct (mutate tpl) as [mutated|]; [|done].
  by destruct (Template_Validate _).
Qed.

(** C4, as the code has it: in every state reached from the empty
    repository by fewer than 2^63 - 1 service calls made one at a time, none
    starting before the one before it has returned, where the identifier
    generator never returns the empty string, update closures leave
    identifier and version counter alone and no duplicate copies the source
    history, the history of every template is numbered 1, 2, ..., version in
    this order; the numbers are pairwise distinct and are exactly the values
    recorded for the template's version counter. *)
Theorem plain_runs_number_histories (calls : list Call) (r : inMemoryRepository)
    (held : gmap string (list Z)) (templateID : string) (t : Template) :
  Forall plain calls →
  Z.of_nat (length calls) < int_max →
  run calls NewInMemoryRepository ∅ = (r, held) →
  templates r !! templateID = Some t →
  version_numbers (history r templateID) = seqZ 1 (Version t) ∧
  NoDup (version_numbers (history r templateID)) ∧
  held !! templateID = Some (version_numbers (history r templateID)).
Proof.
  intros Hall Hbound Hrun Hget.
  pose proof (numbered_run calls 0 _ _ _ _ numbered_empty Hall Hbound Hrun) as [Hsome _].
  destruct (Hsome _ _ Hget) as (_ & _ & _ & Hnum & Hheld).
  rewrite Hnum. split; [done|]. split; [apply NoDup_seqZ | done].
Qed.

Lemma plain_runs_number_histories_witness :
  version_numbers (history (run scenario_calls NewInMemoryRepository ∅).1 "T") = [1; 2; 3] ∧
  NoDup (version_numbers (history (run scenario_calls NewInMemoryRepository ∅).1 "T")) ∧
  (run scenario_calls NewInMemoryRepository ∅).2 !! "T"
  = Some (version_numbers (history (run scenario_calls NewInMemoryRepository ∅).1 "T")).
Proof.
  assert (Hall : Forall plain scenario_calls).
  { repeat constructor; try discriminate; intros t t' [= <-]; reflexivity. }
  assert (Hbound : Z.of_nat (length scenario_calls) < int_max) by (vm_compute; reflexivity).
  assert (Hrun : run scenario_calls NewInMemoryRepository ∅
                 = ((run scenario_calls NewInMemoryRepository ∅).1,
                    (run scenario_calls NewInMemoryRepository ∅).2))
    by apply surjective_pairing.
  assert (Hget : templates (run scenario_calls NewInMemoryRepository ∅).1 !! "T"
                 = Some (default warranty_eu
                           (templates (run scenario_calls NewInMemoryRepository ∅).1 !! "T")))
    by (vm_compute; reflexivity).
  exact (plain_runs_number_histories scenario_calls _ _ "T" _ Hall Hbound Hrun Hget).
Defined.

(** C4 as stated fails in each of the cases the theorem leaves out.
    - A clone made with copy_versions: D receives the synthetic entry
      numbered 1, the copy of T's entry 1, and the copy of T's current entry
      renumbered to D's version, which is 1 as well.  The numbers of D's
      history are 1, 1, 1, while D's counter has held the single value 1.
    - Two updates of T that overlap: both read version 1, both are accepted,
      both store version 2 and both append an entry numbered 2.
    - A closure that sets the counter back: the update stores version 1 again
      and appends a second entry numbered 1.
    - A closure that overwrites the identifier: the update of T (version 1)
      lands on U (version 2), which keeps version 2 and gets a second entry
      numbered 2.
    - An empty generated identifier: the template is stored with version 1,
      its first entry is refused, and its history stays empty. *)
Lemma histories_repeat_numbers :
  (Version <$> templates (run duplicate_calls NewInMemoryRepository ∅).1 !! "D" = Some 1 ∧
   version_numbers (history (run duplicate_calls NewInMemoryRepository ∅).1 "D") = [1; 1; 1] ∧
   ¬ NoDup (version_numbers (history (run duplicate_calls NewInMemoryRepository ∅).1 "D")) ∧
   (run duplicate_calls NewInMemoryRepository ∅).2 !! "D" = Some [1]) ∧
  (is_Ok overlapped_updates.1.1 = true ∧ is_Ok overlapped_updates.1.2 = true ∧
   Version <$> templates overlapped_updates.2 !! "T" = Some 2 ∧
   version_numbers (history overlapped_updates.2 "T") = [1; 2; 2] ∧
   ¬ NoDup (version_numbers (history overlapped_updates.2 "T"))) ∧
  (Version <$> templates (run reset_calls NewInMemoryRepository ∅).1 !! "T" = Some 1 ∧
   version_numbers (history (run reset_calls NewInMemoryRepository ∅).1 "T") = [1; 1] ∧
   (run reset_calls NewInMemoryRepository ∅).2 !! "T" = Some [1]) ∧
  (Version <$> templates (run retarget_calls NewInMemoryRepository ∅).1 !! "U" = Some 2 ∧
   version_numbers (history (run retarget_calls NewInMemoryRepository ∅).1 "U") = [1; 2; 2] ∧
   (run retarget_calls NewInMemoryRepository ∅).2 !! "U" = Some [1; 2]) ∧
  (Version <$> templates (run unnamed_calls NewInMemoryRepository ∅).1 !! "" = Some 1 ∧
   version_numbers (history (run unnamed_calls NewInMemoryRepository ∅).1 "") = [] ∧
   (run unnamed_calls NewInMemoryRepository ∅).2 !! "" = Some [1]).
Proof.
  assert (Hcopy : version_numbers
                    (history (run duplicate_calls NewInMemoryRepository ∅).1 "D") = [1; 1; 1])
    by (vm_compute; reflexivity).
  assert (Hover : version_numbers (history overlapped_updates.2 "T") = [1; 2; 2])
    by (vm_compute; reflexivity).
  assert (Hrep : ∀ (a : Z) l, ¬ NoDup (a :: a :: l)).
  { intros a l Hnd. apply NoDup_cons in Hnd as [Hnotin _]. apply Hnotin. constructor. }
  split; [|split; [|split; [|split]]].
  - split; [vm_compute; reflexivity|]. split; [exact Hcopy|].
    split; [|vm_compute; reflexivity].
    rewrite Hcopy. apply Hrep.
  - split; [vm_compute; reflexivity|]. split; [vm_compute; reflexivity|].
    split; [vm_compute; reflexivity|]. split; [exact Hover|].
    rewrite Hover. intros Hnd. apply NoDup_cons in Hnd as [_ Hnd]. by apply Hrep in Hnd.
  - split; [vm_compute; reflexivity|]. split; vm_compute; reflexivity.
  - split; [vm_compute; reflexivity|]. split; vm_compute; reflexivity.
  - split; [vm_compute; reflexivity|]. split; vm_compute; reflexivity.
Qed.

(** ** The scenario of the specification *)

(** Create gives version 1 with one current entry; the update gives version
    2 and moves the current flag to the new entry; restoring version 1 gives
    version 3 with a new entry that carries the schema URL of entry 1; and
    comparing 1 with 3 names both schema URLs. *)
Example scenario_runs :
  (Version <$> templates repo_created !! "T") = Some 1 ∧
  (λ v, (VersionNumber v, IsCurrent v)) <$> history repo_created "T" = [(1, true)] ∧
  (Version <$> templates repo_updated !! "T") = Some 2 ∧
  (λ v, (VersionNumber v, IsCurrent v)) <$> history repo_updated "T"
  = [(1, false); (2, true)] ∧
  (Version <$> templates repo_restored !! "T") = Some 3 ∧
  V_JSONSchemaURL <$> last (history repo_restored "T") = Some "s3://schemas/v1.json" ∧
  VersionNumber <$> last (history repo_restored "T") = Some 3 ∧
  match TemplateService.CompareVersions "t1" "T" 1 3 repo_restored with
  | Ok c => Summary c
  | Err _ => ""
  end = "left schema: s3://schemas/v1.json, right schema: s3://schemas/v1.json".
Proof. repeat split; by vm_compute. Qed.

(** ** Service methods as sequences of repository calls *)

Section Composition.
Variable R : relation inMemoryRepository.
Context `{!PreOrder R}.
Hypothesis R_repo : ∀ c r, R r (repo_exec c r).2.

Lemma respects_ret {A} (a : A) : respects R (ret a).
Proof. intros r. simpl. reflexivity. Qed.

Lemma respects_fail {A} (e : error) : respects R (@fail A e).
Proof. intros r. simpl. reflexivity. Qed.

Lemma respects_read {A} (f : inMemoryRepository → result A) : respects R (read f).
Proof. intros r. simpl. reflexivity. Qed.

Lemma respects_bind {A B} (c : M A) (k : A → M B) :
  respects R c → (∀ a, respects R (k a)) → respects R (bind c k).
Proof.
  intros Hc Hk r. unfold bind. specialize (Hc r).
  destruct (c r) as [[a|e] r1]; simpl in *; [|done].
  etransitivity; [exact Hc | apply Hk].
Qed.

Lemma respects_repo_CreateTemplate tpl :
  respects R (inMemoryRepository.CreateTemplate tpl).
Proof. intros r. apply (R_repo (RepoCreateTemplate tpl)). Qed.

Lemma respects_repo_UpdateTemplate tpl :
  respects R (inMemoryRepository.UpdateTemplate tpl).
Proof. intros r. apply (R_repo (RepoUpdateTemplate tpl)). Qed.

Lemma respects_repo_CreateVersion tenantID version :
  respects R (inMemoryRepository.CreateVersion tenantID version).
Proof. intros r. apply (R_repo (RepoCreateVersion tenantID version)). Qed.

Lemma respects_repo_DuplicateTemplate cloneID versionID now tenantID templateID opt :
  respects R (inMemoryRepository.DuplicateTemplate cloneID versionID now tenantID
                templateID opt).
Proof.
  intros r. apply (R_repo (RepoDuplicateTemplate cloneID versionID now tenantID templateID opt)).
Qed.

Lemma respects_CreateTemplate templateID versionID now tpl :
  respects R (TemplateService.CreateTemplate templateID versionID now tpl).
Proof.
  unfold TemplateService.CreateTemplate.
  destruct (Template_Validate _); [apply respects_fail|].
  apply respects_bind; [apply respects_repo_CreateTemplate | intros created].
  apply respects_bind; [apply respects_repo_CreateVersion | intros _].
  apply respects_ret.
Qed.

Lemma respects_UpdateTemplate versionID now tenantID templateID mutate updatedBy
    changeSummary :
  respects R (TemplateService.UpdateTemplate versionID now tenantID templateID mutate
                updatedBy changeSummary).
Proof.
  unfold TemplateService.UpdateTemplate.
  apply respects_bind; [apply respects_read | intros tpl].
  destruct (DeletedAt tpl); [apply respects_fail|].
  destruct (mutate tpl) as [mutated|]; [|apply respects_fail].
  destruct (Template_Validate _); [apply respects_fail|].
  apply respects_bind; [apply respects_repo_UpdateTemplate | intros updated].
  apply respects_bind; [apply respects_repo_CreateVersion | intros _].
  apply respects_ret.
Qed.

Lemma respects_copy_versions tenantID tpl ids vs : ∀ i,
  respects R (TemplateService.copy_versions tenantID tpl ids i vs).
Proof.
  induction vs as [|v vs IH]; intros i; simpl; [apply respects_ret|].
  apply respects_bind; [apply respects_repo_CreateVersion | intros _; apply IH].
Qed.

Lemma respects_DuplicateTemplate cloneID versionID now ids tenantID templateID opt :
  respects R (TemplateService.DuplicateTemplate cloneID versionID now ids tenantID
                templateID opt).
Proof.
  unfold TemplateService.DuplicateTemplate.
  apply respects_bind; [apply respects_repo_DuplicateTemplate | intros tpl].
  destruct (CopyVersions opt); [|apply respects_ret].
  apply respects_bind; [apply respects_read | intros vs].
  apply respects_bind; [apply respects_copy_versions | intros _].
  apply respects_ret.
Qed.

(** Whatever every repository call keeps, every service call keeps. *)
Lemma respects_exec c r : R r (exec c r).
Proof.
  destruct c; simpl.
  - apply respects_CreateTemplate.
  - apply respects_UpdateTemplate.
  - apply respects_DuplicateTemplate.
  - apply (R_repo (RepoRestoreTemplate tenantID templateID)).
  - apply (R_repo (RepoSoftDeleteTemplate now tenantID templateID)).
  - apply (R_repo (RepoRestoreVersion now tenantID templateID versionNumber)).
Qed.

End Composition.

(** ** What every repository call keeps *)

Lemma history_insert r ts id l j :
  history (mkRepo ts (<[id := l]> (versions r))) j
  = if decide (id = j) then l else history r j.
Proof.
  case_decide as Hj; [subst; apply history_insert_eq | by apply history_insert_ne].
Qed.

Lemma history_same_versions r ts j : history (mkRepo ts (versions r)) j = history r j.
Proof. done. Qed.

Lemma consistent_step r r' id t :
  consistent r →
  templates r' = <[id := t]> (templates r) →
  TemplateID t = id →
  (∀ j, j ≠ id → history r' j = history r j) →
  (∀ v, v ∈ history r' id → V_TemplateID v = id) →
  consistent r'.
Proof.
  intros [Hkey Hent] Hts Hid Hother Hhere. split.
  - intros j u. rewrite Hts. destruct (decide (id = j)) as [<-|Hj].
    + rewrite lookup_insert_eq. by intros [= <-].
    + rewrite lookup_insert_ne by done. apply Hkey.
  - intros j v Hv. rewrite Hts. destruct (decide (id = j)) as [<-|Hj].
    + rewrite lookup_insert_eq. split; [by apply Hhere | by eexists].
    + rewrite lookup_insert_ne by done. rewrite Hother in Hv by done. by apply Hent.
Qed.

Lemma dimmed_refl v : dimmed v v.
Proof. by left. Qed.

Lemma dimmed_cleared v : dimmed v (set_IsCurrent false v).
Proof. by right. Qed.

Lemma dimmed_trans v1 v2 v3 : dimmed v1 v2 → dimmed v2 v3 → dimmed v1 v3.
Proof.
  intros [->| ->] [->| ->]; unfold dimmed; auto.
Qed.

Lemma dimmed_all l : Forall2 dimmed l l.
Proof. induction l; constructor; [apply dimmed_refl | done]. Qed.

Lemma extends_refl l : extends l l.
Proof. exists l, []. split; [by rewrite app_nil_r | apply dimmed_all]. Qed.

Lemma extends_trans l1 l2 l3 : extends l1 l2 → extends l2 l3 → extends l1 l3.
Proof.
  intros (k2 & a2 & -> & H12) (k3 & a3 & -> & H23).
  apply Forall2_app_inv_l in H23 as (k3a & k3b & Hk & Ha & ->).
  exists k3a, (k3b ++ a3). split; [by rewrite app_assoc|].
  eapply Forall2_trans; [|exact H12|exact Hk].
  intros x y z. apply dimmed_trans.
Qed.

Lemma extends_app l added : extends l (l ++ added).
Proof.
  exists l, added. split; [done | apply dimmed_all].
Qed.

Lemma extends_cleared_app l added : extends l ((set_IsCurrent false <$> l) ++ added).
Proof.
  exists (set_IsCurrent false <$> l), added. split; [done|].
  apply Forall2_fmap_r. induction l; constructor; [apply dimmed_cleared | done].
Qed.

Lemma continues_step r r' id t :
  templates r' = <[id := t]> (templates r) →
  (∀ t0, templates r !! id = Some t0 → TenantID t = TenantID t0) →
  (∀ j, j ≠ id → history r' j = history r j) →
  extends (history r id) (history r' id) →
  continues r r'.
Proof.
  intros Hts Hten Hother Hhere. split.
  - intros j u Hu. rewrite Hts. destruct (decide (id = j)) as [<-|Hj].
    + rewrite lookup_insert_eq. exists t. split; [done | by apply Hten].
    + rewrite lookup_insert_ne by done. by exists u.
  - intros j. destruct (decide (j = id)) as [->|Hj]; [done|].
    rewrite Hother by done. apply extends_refl.
Qed.

#[local] Instance continues_preorder : PreOrder continues.
Proof.
  split.
  - intros r. split; [by eauto | intros id; apply extends_refl].
  - intros r1 r2 r3 [Ht12 Hh12] [Ht23 Hh23]. split.
    + intros id t Ht. destruct (Ht12 _ _ Ht) as (t2 & Ht2 & Hten2).
      destruct (Ht23 _ _ Ht2) as (t3 & Ht3 & Hten3). exists t3. split; [done | congruence].
    + intros id. eapply extends_trans; [apply Hh12 | apply Hh23].
Qed.

(** What a successful repository [DuplicateTemplate] has read, built and
    written. *)
Lemma repo_DuplicateTemplate_Ok cloneID versionID now tenantID templateID opt r clone r' :
  inMemoryRepository.DuplicateTemplate cloneID versionID now tenantID templateID opt r
  = (Ok clone, r') →
  ∃ tpl,
    templates r !! templateID = Some tpl ∧ TenantID tpl = tenantID ∧
    clone = mkTemplate cloneID (TenantID tpl)
              (if bool_decide (NameOverride opt = "") then Name tpl +:+ " Copy"
               else NameOverride opt)
              (if bool_decide (DescriptionOverride opt = "") then Description tpl
               else DescriptionOverride opt)
              (DocumentType tpl) (PageSize tpl) (Orientation tpl) (JSONSchemaURL tpl)
              (ThumbnailURL tpl) 1 (D_CreatedBy opt) (D_UpdatedBy opt) now now None 0 None ∧
    Template_Validate clone = None ∧
    templates r !! cloneID = None ∧
    r' = mkRepo (<[cloneID := clone]> (templates r))
           (<[cloneID :=
                history r cloneID
                ++ [mkTemplateVersion versionID cloneID 1 ("duplicated from " +:+ TemplateID tpl)
                      (JSONSchemaURL tpl) (D_UpdatedBy opt) now true]]>
              (versions r)).
Proof.
  unfold inMemoryRepository.DuplicateTemplate.
  destruct (owned r tenantID templateID) as [tpl|] eqn:Hown; [|done].
  apply owned_Some in Hown as [Hget Hten].
  match goal with |- context [Template_Validate ?c] => set (c0 := c) end.
  assert (Hc0 : c0 = mkTemplate cloneID (TenantID tpl)
              (if bool_decide (NameOverride opt = "") then Name tpl +:+ " Copy"
               else NameOverride opt)
              (if bool_decide (DescriptionOverride opt = "") then Description tpl
               else DescriptionOverride opt)
              (DocumentType tpl) (PageSize tpl) (Orientation tpl) (JSONSchemaURL tpl)
              (ThumbnailURL tpl) 1 (D_CreatedBy opt) (D_UpdatedBy opt) now now None 0 None).
  { subst c0. by do 2 (case_bool_decide; simpl). }
  clearbody c0. subst c0.
  match goal with |- context [Template_Validate ?c] => set (c0 := c) end.
  destruct (Template_Validate c0) eqn:Hval; [done|].
  destruct (templates r !! TemplateID c0) eqn:Hfree; [done|].
  intros [= <- <-]. exists tpl. repeat split; done.
Qed.

Lemma repo_exec_error_unchanged (c : RepoCall) (r r' : inMemoryRepository) (e : error) :
  repo_exec c r = (Some e, r') → r' = r.
Proof.
  destruct c; unfold repo_exec, outcome; simpl.
  - unfold inMemoryRepository.CreateTemplate.
    destruct (templates r !! TemplateID tpl); simpl; congruence.
  - unfold inMemoryRepository.UpdateTemplate.
    destruct (owned r _ _); simpl; congruence.
  - unfold inMemoryRepository.SoftDeleteTemplate.
    destruct (owned r _ _); simpl; congruence.
  - unfold inMemoryRepository.RestoreTemplate.
    destruct (owned r _ _); simpl; congruence.
  - destruct (inMemoryRepository.DuplicateTemplate _ _ _ _ _ _ r) as [[clone|err] r1] eqn:Hdup;
      simpl; [congruence|].
    intros [= _ <-]. revert Hdup. unfold inMemoryRepository.DuplicateTemplate.
    destruct (owned r _ _); [|congruence].
    destruct (Template_Validate _); [congruence|].
    destruct (templates r !! _); congruence.
  - unfold inMemoryRepository.CreateVersion.
    destruct (owned r _ _); simpl; [|congruence].
    destruct (TemplateVersion_Validate _); simpl; congruence.
  - unfold inMemoryRepository.RestoreVersion.
    destruct (owned r _ _); simpl; [|congruence].
    destruct (inMemoryRepository.find_version _ _); simpl; congruence.
Qed.

Lemma elem_of_snoc {A} (l : list A) (x y : A) : y ∈ l ++ [x] ↔ y ∈ l ∨ y = x.
Proof. rewrite elem_of_app, list_elem_of_singleton. done. Qed.

Lemma repo_exec_consistent c r : consistent r → consistent (repo_exec c r).2.
Proof.
  intros Hcons. pose proof Hcons as [Hkey Hent].
  destruct c; unfold repo_exec, outcome; simpl.
  - unfold inMemoryRepository.CreateTemplate.
    destruct (templates r !! TemplateID tpl); simpl; [done|].
    eapply (consistent_step r _ (TemplateID tpl) tpl); try done.
    intros v Hv. by apply Hent.
  - unfold inMemoryRepository.UpdateTemplate.
    destruct (owned r _ _); simpl; [|done].
    eapply (consistent_step r _ (TemplateID tpl) tpl); try done.
    intros v Hv. by apply Hent.
  - unfold inMemoryRepository.SoftDeleteTemplate.
    destruct (owned r _ _) as [tpl|] eqn:Hown; simpl; [|done].
    apply owned_Some in Hown as [Hget _].
    eapply (consistent_step r _ templateID); try done.
    + simpl. by apply Hkey.
    + intros v Hv. by apply Hent.
  - unfold inMemoryRepository.RestoreTemplate.
    destruct (owned r _ _) as [tpl|] eqn:Hown; simpl; [|done].
    apply owned_Some in Hown as [Hget _].
    eapply (consistent_step r _ templateID); try done.
    + simpl. by apply Hkey.
    + intros v Hv. by apply Hent.
  - destruct (inMemoryRepository.DuplicateTemplate _ _ _ _ _ _ r) as [[clone|err] r1] eqn:Hdup;
      simpl.
    + apply repo_DuplicateTemplate_Ok in Hdup as (tpl & _ & _ & Hclone & _ & _ & ->).
      eapply (consistent_step r _ cloneID clone); try done.
      * by rewrite Hclone.
      * intros j Hj. by apply history_insert_ne.
      * intros v. rewrite history_insert_eq, elem_of_snoc.
        intros [Hv| ->]; [by apply Hent | done].
    + by rewrite (repo_exec_error_unchanged
                    (RepoDuplicateTemplate cloneID versionID now tenantID templateID opt)
                    r r1 err) by (unfold repo_exec, outcome; by rewrite Hdup).
  - unfold inMemoryRepository.CreateVersion.
    destruct (owned r _ _) as [tpl|] eqn:Hown; simpl; [|done].
    apply owned_Some in Hown as [Hget _].
    destruct (TemplateVersion_Validate _); simpl; [done|].
    eapply (consistent_step r _ (V_TemplateID version) tpl).
    + done.
    + simpl. symmetry. by apply insert_id.
    + by apply Hkey.
    + intros j Hj. by apply history_insert_ne.
    + intros v. rewrite history_insert_eq, elem_of_snoc.
      intros [Hv| ->]; [|done].
      apply list_elem_of_fmap in Hv as (w & -> & Hw). simpl. by apply Hent.
  - unfold inMemoryRepository.RestoreVersion.
    destruct (owned r _ _) as [tpl|] eqn:Hown; simpl; [|done].
    apply owned_Some in Hown as [Hget _].
    destruct (inMemoryRepository.find_version _ _) as [restored|] eqn:Hfind; simpl; [|done].
    apply find_version_Some in Hfind as [Hin _].
    eapply (consistent_step r _ templateID).
    + done.
    + simpl. reflexivity.
    + simpl. by apply Hkey.
    + intros j Hj. by apply history_insert_ne.
    + intros v. rewrite history_insert_eq, elem_of_snoc.
      intros [Hv| ->]; [by apply Hent|]. simpl. by apply Hent.
Qed.

Lemma repo_exec_continues c r : continues r (repo_exec c r).2.
Proof.
  destruct c; unfold repo_exec, outcome; simpl.
  - unfold inMemoryRepository.CreateTemplate.
    destruct (templates r !! TemplateID tpl) eqn:Hfree; simpl; [reflexivity|].
    eapply (continues_step r _ (TemplateID tpl) tpl); try apply extends_refl; try done. congruence.
  - unfold inMemoryRepository.UpdateTemplate.
    destruct (owned r _ _) as [existing|] eqn:Hown; simpl; [|reflexivity].
    apply owned_Some in Hown as [Hget Hten].
    eapply (continues_step r _ (TemplateID tpl) tpl); try apply extends_refl; try done. congruence.
  - unfold inMemoryRepository.SoftDeleteTemplate.
    destruct (owned r _ _) as [tpl|] eqn:Hown; simpl; [|reflexivity].
    apply owned_Some in Hown as [Hget _].
    eapply (continues_step r _ templateID); try apply extends_refl; try done.
    intros t0 Ht0. simpl. congruence.
  - unfold inMemoryRepository.RestoreTemplate.
    destruct (owned r _ _) as [tpl|] eqn:Hown; simpl; [|reflexivity].
    apply owned_Some in Hown as [Hget _].
    eapply (continues_step r _ templateID); try apply extends_refl; try done.
    intros t0 Ht0. simpl. congruence.
  - destruct (inMemoryRepository.DuplicateTemplate _ _ _ _ _ _ r) as [[clone|err] r1] eqn:Hdup;
      simpl.
    + apply repo_DuplicateTemplate_Ok in Hdup as (tpl & _ & _ & Hclone & _ & Hfree & ->).
      eapply (continues_step r _ cloneID clone); try apply extends_refl; try done.
      * congruence.
      * intros j Hj. by apply history_insert_ne.
      * rewrite history_insert_eq. apply extends_app.
    + rewrite (repo_exec_error_unchanged
                 (RepoDuplicateTemplate cloneID versionID now tenantID templateID opt)
                 r r1 err) by (unfold repo_exec, outcome; by rewrite Hdup).
      reflexivity.
  - unfold inMemoryRepository.CreateVersion.
    destruct (owned r _ _) as [tpl|] eqn:Hown; simpl; [|reflexivity].
    apply owned_Some in Hown as [Hget _].
    destruct (TemplateVersion_Validate _); simpl; [reflexivity|].
    eapply (continues_step r _ (V_TemplateID version) tpl).
    + simpl. symmetry. by apply insert_id.
    + congruence.
    + intros j Hj. by apply history_insert_ne.
    + rewrite history_insert_eq. apply extends_cleared_app.
  - unfold inMemoryRepository.RestoreVersion.
    destruct (owned r _ _) as [tpl|] eqn:Hown; simpl; [|reflexivity].
    apply owned_Some in Hown as [Hget _].
    destruct (inMemoryRepository.find_version _ _) as [restored|]; simpl; [|reflexivity].
    eapply (continues_step r _ templateID).
    + simpl. reflexivity.
    + intros t0 Ht0. simpl. congruence.
    + intros j Hj. by apply history_insert_ne.
    + rewrite history_insert_eq. apply extends_app.
Qed.

#[local] Instance keeps_consistent_preorder : PreOrder keeps_consistent.
Proof. split; unfold keeps_consistent; [by intros r | by eauto]. Qed.

Lemma consistent_empty : consistent NewInMemoryRepository.
Proof.
  split.
  - by intros id t Hget.
  - intros id v Hv. unfold history in Hv. simpl in Hv.
    rewrite lookup_empty in Hv. simpl in Hv. by apply elem_of_nil in Hv.
Qed.

(** X1: referential integrity holds in every state of the store: whatever
    repository and service methods have run, with whatever arguments,
    closures and identifiers, every template is stored under its own
    identifier and every history entry is filed under the identifier it
    carries, which is that of a stored template. *)
Theorem reachable_consistent (r : inMemoryRepository) : reachable r → consistent r.
Proof.
  induction 1 as [|c r _ IH|c r _ IH].
  - apply consistent_empty.
  - by apply repo_exec_consistent.
  - by apply (respects_exec keeps_consistent repo_exec_consistent c r).
Qed.

Lemma reachable_consistent_witness :
  consistent (exec (CallDuplicate "D" "v-d" 40 copy_ids "t1" "T"
                      (mkDuplicateOptions "u2" "u2" true "" ""))
                (repo_exec (RepoCreateVersion "t1" stale_entry)
                   (exec (CallCreate "T" "v-1" 10 warranty_eu) NewInMemoryRepository)).2).
Proof.
  apply reachable_consistent.
  apply reachable_service, reachable_repo, reachable_service, reachable_new.
Defined.

(** X2: nothing is ever taken away: after any repository or service call every
    template that was stored is still stored, under the same tenant, and
    every history still starts with the entries it had, one for one and in
    their order, each either exactly as it was or differing from what it was
    in its current flag only, which is then cleared; what is new comes after
    them. *)
Theorem calls_only_add (r : inMemoryRepository) :
  (∀ c, continues r (repo_exec c r).2) ∧ (∀ c, continues r (exec c r)).
Proof.
  split; intros c.
  - apply repo_exec_continues.
  - apply (respects_exec continues repo_exec_continues).
Qed.

(** ** Soft delete and restore *)

Lemma set_DeletedAt_undo now tpl :
  DeletedAt tpl = None → set_DeletedAt None (set_DeletedAt (Some now) tpl) = tpl.
Proof. destruct tpl; simpl. by intros ->. Qed.

Lemma set_DeletedAt_None_id tpl : DeletedAt tpl = None → set_DeletedAt None tpl = tpl.
Proof. destruct tpl; simpl. by intros ->. Qed.

(** X4: restoring a template that is not deleted returns it and changes
    nothing; soft-deleting an active template and restoring it gives back
    the template and the repository as they were. *)
Theorem restore_undoes_delete (r : inMemoryRepository) (tenantID templateID : string)
    (tpl : Template) (now : Time) :
  templates r !! templateID = Some tpl →
  TenantID tpl = tenantID →
  DeletedAt tpl = None →
  inMemoryRepository.RestoreTemplate tenantID templateID r = (Ok tpl, r) ∧
  inMemoryRepository.SoftDeleteTemplate now tenantID templateID r
  = (Ok (), mkRepo (<[templateID := set_DeletedAt (Some now) tpl]> (templates r)) (versions r)) ∧
  inMemoryRepository.RestoreTemplate tenantID templateID
    (inMemoryRepository.SoftDeleteTemplate now tenantID templateID r).2 = (Ok tpl, r).
Proof.
  intros Hget Hten Hactive.
  assert (Hown : owned r tenantID templateID = Some tpl) by by apply owned_Some.
  assert (Hdel : inMemoryRepository.SoftDeleteTemplate now tenantID templateID r
            = (Ok (), mkRepo (<[templateID := set_DeletedAt (Some now) tpl]> (templates r))
                        (versions r))).
  { unfold inMemoryRepository.SoftDeleteTemplate. by rewrite Hown. }
  split; [|split; [done|]].
  - unfold inMemoryRepository.RestoreTemplate. rewrite Hown.
    rewrite set_DeletedAt_None_id by done. rewrite insert_id by done. by destruct r.
  - rewrite Hdel. unfold inMemoryRepository.RestoreTemplate, owned. simpl.
    rewrite lookup_insert_eq. simpl. rewrite decide_True by done.
    rewrite set_DeletedAt_undo by done.
    rewrite insert_insert_eq, insert_id by done. by destruct r.
Qed.

Lemma restore_undoes_delete_witness :
  inMemoryRepository.RestoreTemplate "t1" "T"
    (inMemoryRepository.SoftDeleteTemplate 15 "t1" "T" repo_created).2
  = (Ok (set_Version 1 (set_UpdatedAt 10 (set_CreatedAt 10 (set_TemplateID "T" warranty_eu)))),
     repo_created).
Proof.
  apply (restore_undoes_delete repo_created "t1" "T" _ 15); by vm_compute.
Defined.

(** ** Insert and look up *)

(** X5: creating a template under a free identifier stores it: a lookup under
    its tenant returns it, lookups of other identifiers are unaffected, and
    a second create under the same identifier, by whatever tenant, is a
    conflict that changes nothing. *)
Theorem create_then_get (r : inMemoryRepository) (tpl : Template) :
  templates r !! TemplateID tpl = None →
  (inMemoryRepository.CreateTemplate tpl r).1 = Ok tpl ∧
  inMemoryRepository.GetTemplate (TenantID tpl) (TemplateID tpl)
    (inMemoryRepository.CreateTemplate tpl r).2 = Ok tpl ∧
  (∀ tenantID templateID, templateID ≠ TemplateID tpl →
     inMemoryRepository.GetTemplate tenantID templateID
       (inMemoryRepository.CreateTemplate tpl r).2
     = inMemoryRepository.GetTemplate tenantID templateID r) ∧
  (∀ other, TemplateID other = TemplateID tpl →
     inMemoryRepository.CreateTemplate other (inMemoryRepository.CreateTemplate tpl r).2
     = (Err ErrConflict, (inMemoryRepository.CreateTemplate tpl r).2)).
Proof.
  intros Hfree.
  assert (inMemoryRepository.CreateTemplate tpl r
          = (Ok tpl, mkRepo (<[TemplateID tpl := tpl]> (templates r)) (versions r))) as ->.
  { unfold inMemoryRepository.CreateTemplate. by rewrite Hfree. }
  simpl. split; [done|]. split; [|split].
  - unfold inMemoryRepository.GetTemplate, owned. simpl.
    rewrite lookup_insert_eq. by rewrite decide_True.
  - intros tenantID templateID Hne.
    unfold inMemoryRepository.GetTemplate, owned. simpl.
    by rewrite lookup_insert_ne.
  - intros other Hid. unfold inMemoryRepository.CreateTemplate. simpl.
    by rewrite Hid, lookup_insert_eq.
Qed.

Lemma create_then_get_witness :
  inMemoryRepository.GetTemplate "t1" "W"
    (inMemoryRepository.CreateTemplate (set_TemplateID "W" warranty_eu) repo_created).2
  = Ok (set_TemplateID "W" warranty_eu).
Proof.
  apply (create_then_get repo_created (set_TemplateID "W" warranty_eu)).
  by vm_compute.
Defined.

(** X3: every repository method that returns an error has left the repository
    exactly as it was: no write precedes a failing check. *)
Theorem repo_error_leaves_repository (c : RepoCall) (r : inMemoryRepository) (e : error) :
  (repo_exec c r).1 = Some e → (repo_exec c r).2 = r.
Proof.
  intros Herr. apply (repo_exec_error_unchanged c r _ e).
  rewrite <- Herr. apply surjective_pairing.
Qed.

Lemma repo_error_leaves_repository_witness :
  (repo_exec (RepoCreateVersion "t1" (set_VersionNumber 0 stale_entry)) repo_created).2
  = repo_created.
Proof.
  apply (repo_error_leaves_repository _ _ (errors_New "version_number must be positive")).
  by vm_compute.
Defined.

(** ** Pages of a listing *)

Lemma paginate_Some {A} (result page : list A) offset limit :
  paginate result offset limit = Some page →
  ∃ m k, page = take k (drop m result) ∧
         (0 < limit → Z.of_nat k ≤ limit).
Proof.
  unfold paginate, slice.
  destruct (Z.ltb_spec (Z.of_nat (length result)) offset) as [Hbeyond|Hwithin].
  - intros [= <-]. exists 0%nat, 0%nat. split; [done | lia].
  - set (wrapped := int_add offset limit).
    destruct (Z.leb_spec limit 0) as [Hall|Hpos]; simpl.
    + destruct (0 <=? offset); simpl; [|done].
      destruct (offset <=? Z.of_nat (length result)); simpl; [|done].
      rewrite Z.leb_refl. intros [= <-]. eexists _, _. split; [done | lia].
    + destruct (Z.leb_spec 0 offset) as [Hnonneg|]; simpl; [|done].
      assert (Hwrap : wrapped ≤ offset + limit).
      { subst wrapped. unfold int_add, int_wrap.
        pose proof (Z.mod_le (offset + limit + 2 ^ 63) (2 ^ 64)). lia. }
      destruct (Z.ltb_spec (Z.of_nat (length result)) wrapped) as [Hclamp|Hfit].
      * destruct (offset <=? Z.of_nat (length result)); simpl; [|done].
        rewrite Z.leb_refl. intros [= <-]. eexists _, _. split; [done | lia].
      * destruct (Z.leb_spec offset wrapped); simpl; [|done].
        destruct (wrapped <=? Z.of_nat (length result)); [|done].
        intros [= <-]. eexists _, _. split; [done | lia].
Qed.

Lemma selects_true ToLower opt tpl :
  inMemoryRepository.selects ToLower opt tpl = true →
  TenantID tpl = L_TenantID opt ∧
  (IncludeDeleted opt = false → DeletedAt tpl = None) ∧
  (L_DocumentType opt ≠ "" → DocumentType tpl = L_DocumentType opt) ∧
  (ToLower (TrimSpace (Search opt)) ≠ "" →
   Contains (ToLower (Name tpl)) (ToLower (TrimSpace (Search opt))) = true ∨
   Contains (ToLower (Description tpl)) (ToLower (TrimSpace (Search opt))) = true).
Proof.
  unfold inMemoryRepository.selects. cbv zeta.
  case_bool_decide as Hten; simpl; [|done].
  destruct (negb (IncludeDeleted opt) && bool_decide (DeletedAt tpl ≠ None)) eqn:Hdel; [done|].
  destruct (negb (bool_decide (L_DocumentType opt = ""))
            && negb (bool_decide (DocumentType tpl = L_DocumentType opt))) eqn:Hty; [done|].
  destruct (negb (bool_decide (ToLower (TrimSpace (Search opt)) = ""))
            && negb (Contains (ToLower (Name tpl)) (ToLower (TrimSpace (Search opt))))
            && negb (Contains (ToLower (Description tpl)) (ToLower (TrimSpace (Search opt)))))
    eqn:Hs; [done|].
  intros _. split; [done|]. split; [|split].
  - intros Hinc. rewrite Hinc in Hdel. simpl in Hdel.
    apply bool_decide_eq_false in Hdel. destruct (DeletedAt tpl); [|done].
    by destruct Hdel.
  - intros Hne. apply andb_false_iff in Hty as [H|H];
      apply negb_false_iff, bool_decide_eq_true in H; done.
  - intros Hne. apply andb_false_iff in Hs as [H|H];
      [apply andb_false_iff in H as [H|H]|]; apply negb_false_iff in H.
    + by apply bool_decide_eq_true in H.
    + by left.
    + by right.
Qed.

(** X6: every template on a page is a stored template of the tenant named in
    the options; it is not soft-deleted unless deleted records were asked
    for, it has the document type asked for if one was given, and its
    lower-cased name or description contains the lower-cased, trimmed search
    text if one was given. *)
Theorem listed_templates_pass_filters (ToLower : string → string) (opt : ListOptions)
    (r : inMemoryRepository) (page : list Template) (x : Template) :
  inMemoryRepository.ListTemplates ToLower opt r = Some page →
  x ∈ page →
  (∃ id, templates r !! id = Some x) ∧
  TenantID x = L_TenantID opt ∧
  (IncludeDeleted opt = false → DeletedAt x = None) ∧
  (L_DocumentType opt ≠ "" → DocumentType x = L_DocumentType opt) ∧
  (ToLower (TrimSpace (Search opt)) ≠ "" →
   Contains (ToLower (Name x)) (ToLower (TrimSpace (Search opt))) = true ∨
   Contains (ToLower (Description x)) (ToLower (TrimSpace (Search opt))) = true).
Proof.
  intros Hlist Hx.
  pose proof (paginate_elem_of _ _ _ _ _ Hlist Hx) as Hin.
  apply matching_selects in Hin as [Hsel Hstored].
  split; [done|]. by apply selects_true.
Qed.

Lemma listed_templates_pass_filters_witness :
  TenantID (set_Version 1 (set_UpdatedAt 10 (set_CreatedAt 10 (set_TemplateID "T" warranty_eu))))
  = "t1".
Proof.
  assert (Hlist : inMemoryRepository.ListTemplates id (mkListOptions "t1" "EU" "warranty" false 1 0)
                    repo_two
                  = Some [set_Version 1 (set_UpdatedAt 10 (set_CreatedAt 10
                            (set_TemplateID "T" warranty_eu)))])
    by (by vm_compute).
  eapply (listed_templates_pass_filters id _ repo_two _ _ Hlist).
  apply list_elem_of_singleton. reflexivity.
Defined.

(** X7: a page is in the order promised, most recently updated first: no
    template on it was updated later than one that precedes it. With a
    positive limit the page has at most that many templates, and a page
    never has more templates than CountTemplates reports for the same
    options. *)
Theorem page_sorted_and_bounded (ToLower : string → string) (opt : ListOptions)
    (r : inMemoryRepository) (page : list Template) :
  inMemoryRepository.ListTemplates ToLower opt r = Some page →
  StronglySorted (λ a b, UpdatedAt b ≤ UpdatedAt a) page ∧
  (0 < Limit opt → Z.of_nat (length page) ≤ Limit opt) ∧
  Z.of_nat (length page) ≤ inMemoryRepository.CountTemplates ToLower opt r.
Proof.
  intros Hlist. unfold inMemoryRepository.ListTemplates in Hlist.
  apply paginate_Some in Hlist as (m & k & -> & Hk).
  assert (Hsorted : StronglySorted (λ a b, UpdatedAt b ≤ UpdatedAt a)
                      (inMemoryRepository.matching ToLower opt r)).
  { apply Sorted_StronglySorted; [intros a b c; lia|].
    apply sort_by_UpdatedAt_sorted. }
  split; [|split].
  - rewrite <- (take_drop m (inMemoryRepository.matching ToLower opt r)) in Hsorted.
    apply StronglySorted_app_1_r in Hsorted.
    rewrite <- (take_drop k (drop m _)) in Hsorted.
    by apply StronglySorted_app_1_l in Hsorted.
  - intros Hpos. rewrite length_take. specialize (Hk Hpos). lia.
  - unfold inMemoryRepository.CountTemplates.
    rewrite length_take, length_drop.
    unfold inMemoryRepository.matching. rewrite sort_by_UpdatedAt_perm. lia.
Qed.

Lemma page_sorted_and_bounded_witness :
  Z.of_nat (length [set_Version 1 (set_UpdatedAt 10 (set_CreatedAt 10
                      (set_TemplateID "T" warranty_eu)))])
  ≤ inMemoryRepository.CountTemplates id (mkListOptions "t1" "" "" false 1 0) repo_two.
Proof.
  apply (page_sorted_and_bounded id (mkListOptions "t1" "" "" false 1 0) repo_two).
  by vm_compute.
Defined.

(** X8: asked for everything from the start (offset 0, limit 0 or less), the
    listing returns every stored template that passes the filters, each
    once per identifier it is stored under. *)
Theorem unpaged_listing_is_complete (ToLower : string → string) (opt : ListOptions)
    (r : inMemoryRepository) (templateID : string) (x : Template) :
  Offset opt = 0 → Limit opt ≤ 0 →
  templates r !! templateID = Some x →
  inMemoryRepository.selects ToLower opt x = true →
  ∃ page, inMemoryRepository.ListTemplates ToLower opt r = Some page ∧
          x ∈ page ∧
          length page = length (filter (λ t, inMemoryRepository.selects ToLower opt t = true)
                                  (map_to_list (templates r)).*2).
Proof.
  intros Hoff Hlim Hget Hsel. unfold inMemoryRepository.ListTemplates.
  rewrite paginate_all_remaining by lia. rewrite Hoff. simpl.
  eexists; split; [done|]. unfold inMemoryRepository.matching.
  rewrite sort_by_UpdatedAt_perm. split; [|done].
  apply list_elem_of_filter. split; [done|].
  apply list_elem_of_fmap. exists (templateID, x). split; [done|].
  by apply elem_of_map_to_list.
Qed.

Lemma unpaged_listing_is_complete_witness :
  ∃ page, inMemoryRepository.ListTemplates id (mkListOptions "t1" "" "" false 0 0) repo_two
          = Some page ∧
          set_Version 1 (set_UpdatedAt 10 (set_CreatedAt 10 (set_TemplateID "T" warranty_eu)))
          ∈ page ∧
          length page = 2%nat.
Proof.
  apply (unpaged_listing_is_complete id (mkListOptions "t1" "" "" false 0 0) repo_two "T");
    by vm_compute.
Defined.

(** ** Kinds of errors *)

Lemma Template_Validate_plain t e :
  Template_Validate t = Some e → ∃ msg, e = errors_New msg.
Proof.
  unfold Template_Validate.
  repeat match goal with
         | |- context [if ?c then Some _ else _] => destruct c; [intros [= <-]; by eexists|]
         end.
  done.
Qed.

Lemma TemplateVersion_Validate_plain tv e :
  TemplateVersion_Validate tv = Some e → ∃ msg, e = errors_New msg.
Proof.
  unfold TemplateVersion_Validate.
  repeat match goal with
         | |- context [if ?c then Some _ else _] => destruct c; [intros [= <-]; by eexists|]
         end.
  done.
Qed.

(** X11: a validation failure is an anonymous error: it is none of the three
    sentinel errors and wraps none, also after the service's Create has
    wrapped it. An invalid template given to Create comes back as such an
    error with the repository untouched, so a test for Invalid-Input with
    [errors.Is] does not recognise it. *)
Theorem validation_failure_is_no_sentinel (templateID versionID : string) (now : Time)
    (tpl : Template) (r : inMemoryRepository) (e : error) :
  Template_Validate
    (set_Version 1 (set_UpdatedAt now (set_CreatedAt now (set_TemplateID templateID tpl))))
  = Some e →
  TemplateService.CreateTemplate templateID versionID now tpl r
  = (Err (fmt_Errorf "validate template" e), r) ∧
  ∀ sentinel, sentinel ∈ [ErrNotFound; ErrConflict; ErrInvalidInput] →
    errors_Is e sentinel = false ∧
    errors_Is (fmt_Errorf "validate template" e) sentinel = false.
Proof.
  intros Hval. split.
  - unfold TemplateService.CreateTemplate. by rewrite Hval.
  - apply Template_Validate_plain in Hval as [msg ->].
    intros sentinel Hin. repeat (apply elem_of_cons in Hin as [->|Hin]; [done|]).
    by apply elem_of_nil in Hin.
Qed.

Lemma validation_failure_is_no_sentinel_witness :
  TemplateService.CreateTemplate "W" "v-w" 12 (set_Name "ab" warranty_eu) repo_created
  = (Err (fmt_Errorf "validate template"
            (errors_New "name must be between 3 and 100 characters")), repo_created).
Proof.
  apply (validation_failure_is_no_sentinel "W" "v-w" 12 (set_Name "ab" warranty_eu)
           repo_created).
  by vm_compute.
Defined.

(** ** Valid creation *)

Lemma consistent_no_history r id :
  consistent r → templates r !! id = None → history r id = [].
Proof.
  intros [_ Hent] Hfree. destruct (history r id) as [|v l] eqn:Hh; [done|].
  destruct (Hent id v) as [_ [t Ht]]; [rewrite Hh; by left | congruence].
Qed.

(** X12: in a state of the store, a Create with valid fields, a free identifier
    and a non-empty one succeeds: the template is stored with version 1, and
    its history consists of exactly one entry, current, numbered 1, carrying
    the template's schema URL and creator. *)
Theorem valid_create_starts_history (r : inMemoryRepository) (templateID versionID : string)
    (now : Time) (tpl : Template) :
  consistent r →
  templateID ≠ "" →
  templates r !! templateID = None →
  Template_Validate
    (set_Version 1 (set_UpdatedAt now (set_CreatedAt now (set_TemplateID templateID tpl))))
  = None →
  ∃ created r',
    TemplateService.CreateTemplate templateID versionID now tpl r = (Ok created, r') ∧
    templates r' !! templateID = Some created ∧
    Version created = 1 ∧
    DeletedAt created = DeletedAt tpl ∧
    history r' templateID
    = [mkTemplateVersion versionID templateID 1 "initial version"
         (JSONSchemaURL tpl) (CreatedBy tpl) now true].
Proof.
  intros Hcons Hne Hfree Hval.
  pose proof (consistent_no_history _ _ Hcons Hfree) as Hempty.
  pose proof Hval as Hfields.
  apply Template_Validate_None in Hfields as [(_ & _ & _ & _ & _ & Hurl & Hby & _) _].
  unfold TemplateService.CreateTemplate. rewrite Hval.
  unfold bind, inMemoryRepository.CreateTemplate. simpl. rewrite Hfree.
  unfold inMemoryRepository.CreateVersion, owned. simpl.
  rewrite lookup_insert_eq. simpl. rewrite decide_True by done.
  match goal with |- context [TemplateVersion_Validate ?v] =>
    assert (TemplateVersion_Validate v = None) as -> by (by apply TemplateVersion_Validate_None)
  end.
  simpl. eexists _, _. split; [done|]. simpl.
  rewrite lookup_insert_eq, history_insert_eq.
  rewrite history_same_versions, Hempty. done.
Qed.

Lemma valid_create_starts_history_witness :
  ∃ created r',
    TemplateService.CreateTemplate "W" "v-w" 12 warranty_eu repo_created = (Ok created, r') ∧
    templates r' !! "W" = Some created ∧
    Version created = 1 ∧
    DeletedAt created = None ∧
    history r' "W"
    = [mkTemplateVersion "v-w" "W" 1 "initial version" "s3://schemas/v1.json" "u1" 12 true].
Proof.
  apply (valid_create_starts_history repo_created "W" "v-w" 12 warranty_eu).
  - apply (respects_exec keeps_consistent repo_exec_consistent
             (CallCreate "T" "v-1" 10 warranty_eu) NewInMemoryRepository), consistent_empty.
  - discriminate.
  - by vm_compute.
  - by vm_compute.
Defined.

(** ** Duplicating a template *)

Lemma length_append (a b : string) :
  String.length (a +:+ b) = (String.length a + String.length b)%nat.
Proof. induction a as [|c a IH]; simpl; [done | by rewrite IH]. Qed.

Lemma duplicate_builds_clone_facts r r' cloneID versionID now tenantID templateID opt clone :
  consistent r →
  inMemoryRepository.DuplicateTemplate cloneID versionID now tenantID templateID opt r
  = (Ok clone, r') →
  history r' templateID = history r templateID ∧
  cloneID ≠ templateID ∧
  TemplateID clone = cloneID ∧
  Version clone = 1 ∧
  (∃ tpl, templates r !! templateID = Some tpl ∧
          history r' cloneID
          = [mkTemplateVersion versionID cloneID 1 ("duplicated from " +:+ TemplateID tpl)
               (JSONSchemaURL tpl) (D_UpdatedBy opt) now true]) ∧
  is_Some (owned r' tenantID templateID).
Proof.
  intros Hcons Hdup.
  apply repo_DuplicateTemplate_Ok in Hdup as (tpl & Hget & Hten & -> & _ & Hfree & ->).
  pose proof (consistent_no_history _ _ Hcons Hfree) as Hempty.
  assert (Hne : cloneID ≠ templateID) by congruence.
  rewrite history_insert_ne, history_insert_eq by done. rewrite Hempty.
  repeat split; try done.
  - by exists tpl.
  - exists tpl. apply owned_Some. simpl. by rewrite lookup_insert_ne.
Qed.

(** X13: a successful repository DuplicateTemplate in a state of the store: the
    clone is stored under the new identifier with the source's tenant and
    content, version 1, no deletion mark and zeroed usage counters, named
    after the source with " Copy" appended unless a name is given; its
    history is exactly the one synthetic entry, current and numbered 1; the
    source and its history are untouched. *)
Theorem duplicate_builds_clone (r r' : inMemoryRepository) (cloneID versionID : string)
    (now : Time) (tenantID templateID : string) (opt : DuplicateOptions) (clone : Template) :
  consistent r →
  inMemoryRepository.DuplicateTemplate cloneID versionID now tenantID templateID opt r
  = (Ok clone, r') →
  ∃ tpl,
    templates r !! templateID = Some tpl ∧
    templates r' !! templateID = Some tpl ∧
    history r' templateID = history r templateID ∧
    templates r' !! cloneID = Some clone ∧
    cloneID ≠ templateID ∧
    TemplateID clone = cloneID ∧ TenantID clone = tenantID ∧
    Version clone = 1 ∧ DeletedAt clone = None ∧
    DocumentsCount clone = 0 ∧ LastUsedAt clone = None ∧
    Name clone = (if bool_decide (NameOverride opt = "") then Name tpl +:+ " Copy"
                  else NameOverride opt) ∧
    Description clone = (if bool_decide (DescriptionOverride opt = "") then Description tpl
                         else DescriptionOverride opt) ∧
    (DocumentType clone, PageSize clone, Orientation clone, JSONSchemaURL clone,
     ThumbnailURL clone)
    = (DocumentType tpl, PageSize tpl, Orientation tpl, JSONSchemaURL tpl, ThumbnailURL tpl) ∧
    history r' cloneID
    = [mkTemplateVersion versionID cloneID 1 ("duplicated from " +:+ TemplateID tpl)
         (JSONSchemaURL tpl) (D_UpdatedBy opt) now true].
Proof.
  intros Hcons Hdup.
  apply repo_DuplicateTemplate_Ok in Hdup as (tpl & Hget & Hten & -> & _ & Hfree & ->).
  pose proof (consistent_no_history _ _ Hcons Hfree) as Hempty.
  assert (Hne : cloneID ≠ templateID) by congruence.
  exists tpl. simpl.
  rewrite lookup_insert_ne, lookup_insert_eq, history_insert_ne, history_insert_eq by done.
  rewrite Hempty. repeat split; done.
Qed.

Lemma duplicate_builds_clone_witness :
  ∃ tpl,
    templates repo_created !! "T" = Some tpl ∧
    templates (inMemoryRepository.DuplicateTemplate "D" "v-d" 40 "t1" "T"
                 (mkDuplicateOptions "u2" "u2" false "" "") repo_created).2 !! "T" = Some tpl.
Proof.
  assert (Hdup : inMemoryRepository.DuplicateTemplate "D" "v-d" 40 "t1" "T"
                   (mkDuplicateOptions "u2" "u2" false "" "") repo_created
                 = (Ok (mkTemplate "D" "t1" "Warranty EU Copy" "" "warranty" "A4" "portrait"
                          "s3://schemas/v1.json" "" 1 "u2" "u2" 40 40 None 0 None),
                    (inMemoryRepository.DuplicateTemplate "D" "v-d" 40 "t1" "T"
                       (mkDuplicateOptions "u2" "u2" false "" "") repo_created).2))
    by (by vm_compute).
  destruct (duplicate_builds_clone repo_created _ "D" "v-d" 40 "t1" "T"
              (mkDuplicateOptions "u2" "u2" false "" "") _
              (respects_exec keeps_consistent repo_exec_consistent
                 (CallCreate "T" "v-1" 10 warranty_eu) NewInMemoryRepository consistent_empty)
              Hdup) as (tpl & H1 & H2 & _).
  exists tpl. split; [exact H1 | exact H2].
Defined.

(** X14: without a name override the clone is called "<source name> Copy", five
    bytes longer than the source: a template whose name has more than 95
    bytes cannot be duplicated that way. The call fails and nothing is
    written. *)
Theorem duplicate_of_long_name_fails (r : inMemoryRepository) (cloneID versionID : string)
    (now : Time) (tenantID templateID : string) (opt : DuplicateOptions) (tpl : Template) :
  templates r !! templateID = Some tpl →
  NameOverride opt = "" →
  (95 < String.length (Name tpl))%nat →
  ∃ e, inMemoryRepository.DuplicateTemplate cloneID versionID now tenantID templateID opt r
       = (Err e, r).
Proof.
  intros Hget Hover Hlong.
  destruct (inMemoryRepository.DuplicateTemplate cloneID versionID now tenantID templateID opt r)
    as [[clone|e] r'] eqn:Hdup.
  - apply repo_DuplicateTemplate_Ok in Hdup as (tpl' & Hget' & _ & -> & Hval & _).
    assert (tpl' = tpl) as -> by congruence.
    apply Template_Validate_None in Hval as (_ & _ & Hlen). simpl in Hlen.
    rewrite Hover in Hlen. simpl in Hlen. rewrite length_append in Hlen. simpl in Hlen. lia.
  - exists e. f_equal.
    apply (repo_exec_error_unchanged
             (RepoDuplicateTemplate cloneID versionID now tenantID templateID opt) r r' e).
    unfold repo_exec, outcome. by rewrite Hdup.
Qed.

Lemma duplicate_of_long_name_fails_witness :
  ∃ e, inMemoryRepository.DuplicateTemplate "D" "v-d" 40 "t1" "T"
         (mkDuplicateOptions "u2" "u2" false "" "")
         (inMemoryRepository.UpdateTemplate
            (set_Name (string_of_list_ascii (replicate 96 "a"%char))
               (set_TemplateID "T" warranty_eu)) repo_created).2
       = (Err e,
          (inMemoryRepository.UpdateTemplate
             (set_Name (string_of_list_ascii (replicate 96 "a"%char))
                (set_TemplateID "T" warranty_eu)) repo_created).2).
Proof.
  apply (duplicate_of_long_name_fails _ "D" "v-d" 40 "t1" "T"
           (mkDuplicateOptions "u2" "u2" false "" "")
           (set_Name (string_of_list_ascii (replicate 96 "a"%char))
              (set_TemplateID "T" warranty_eu))).
  - by vm_compute.
  - reflexivity.
  - vm_compute. lia.
Defined.

(** ** Restoring and comparing versions *)

Lemma find_version_None versionNumber l :
  inMemoryRepository.find_version versionNumber l = None ↔
  versionNumber ∉ version_numbers l.
Proof.
  unfold inMemoryRepository.find_version, version_numbers.
  destruct (list_find _ l) as [[i w]|] eqn:Hfind; simpl.
  - apply list_find_Some in Hfind as (Hi & Hn & _). split; [done|].
    intros Hnot. destruct Hnot. apply list_elem_of_fmap. exists w.
    split; [done | by eapply list_elem_of_lookup_2].
  - split; [|done]. intros _ Hin. apply list_elem_of_fmap in Hin as (w & Hw & Hin).
    apply list_find_None in Hfind. rewrite Forall_forall in Hfind.
    by apply (Hfind w).
Qed.

(** X17: RestoreVersion succeeds exactly when the template belongs to the tenant
    and its history has an entry with the number asked for; otherwise it
    returns [ErrNotFound] and changes nothing. *)
Theorem RestoreVersion_succeeds_iff (r : inMemoryRepository) (now : Time)
    (tenantID templateID : string) (versionNumber : Z) :
  (is_Ok (inMemoryRepository.RestoreVersion now tenantID templateID versionNumber r).1 = true ↔
   is_Some (owned r tenantID templateID) ∧
   versionNumber ∈ version_numbers (history r templateID)) ∧
  (is_Ok (inMemoryRepository.RestoreVersion now tenantID templateID versionNumber r).1 = false →
   inMemoryRepository.RestoreVersion now tenantID templateID versionNumber r
   = (Err ErrNotFound, r)).
Proof.
  unfold inMemoryRepository.RestoreVersion.
  destruct (owned r tenantID templateID) as [tpl|]; simpl.
  - destruct (inMemoryRepository.find_version _ _) as [restored|] eqn:Hfind; simpl.
    + split; [|done]. split; [|done]. intros _. split; [by eexists|].
      destruct (decide (versionNumber ∈ version_numbers (history r templateID))); [done|].
      apply find_version_None in n. congruence.
    + apply find_version_None in Hfind. split; [|done].
      split; [done | by intros [_ ?]].
  - split; [|done]. split; [done|]. by intros [[? ?] _].
Qed.

Lemma pick_versions_same n l acc :
  acc.2 = None →
  (foldl (λ acc version,
            if decide (VersionNumber version = n) then (Some version, acc.2)
            else if decide (VersionNumber version = n) then (acc.1, Some version)
            else acc) acc l).2 = None.
Proof.
  revert acc. induction l as [|v l IH]; intros acc Hacc; simpl; [done|].
  apply IH. by destruct (decide (VersionNumber v = n)).
Qed.

Lemma pick_versions_sound left right l : ∀ acc,
  let res := foldl (λ acc version,
                      if decide (VersionNumber version = left) then (Some version, acc.2)
                      else if decide (VersionNumber version = right) then (acc.1, Some version)
                      else acc) acc l in
  (∀ v, res.1 = Some v → acc.1 = Some v ∨ (v ∈ l ∧ VersionNumber v = left)) ∧
  (∀ v, res.2 = Some v →
        acc.2 = Some v ∨ (v ∈ l ∧ VersionNumber v = right ∧ left ≠ right)).
Proof.
  induction l as [|x l IH]; intros acc; simpl; [by split; intros v; left|].
  specialize (IH (if decide (VersionNumber x = left) then (Some x, acc.2)
                  else if decide (VersionNumber x = right) then (acc.1, Some x) else acc)).
  simpl in IH. destruct IH as [IH1 IH2]. split; intros v Hv.
  - destruct (IH1 v Hv) as [Hacc|[Hin Hn]]; [|right; split; [by right | done]].
    destruct (decide (VersionNumber x = left)); simpl in Hacc.
    + injection Hacc as <-. right. split; [by left | done].
    + destruct (decide (VersionNumber x = right)); by left.
  - destruct (IH2 v Hv) as [Hacc|(Hin & Hn & Hne)]; [|right; split; [by right | done]].
    destruct (decide (VersionNumber x = left)); simpl in Hacc; [by left|].
    destruct (decide (VersionNumber x = right)); simpl in Hacc; [|by left].
    injection Hacc as <-. right. split; [by left|]. split; [done | congruence].
Qed.

Lemma pick_versions_complete left right l : ∀ acc,
  let res := foldl (λ acc version,
                      if decide (VersionNumber version = left) then (Some version, acc.2)
                      else if decide (VersionNumber version = right) then (acc.1, Some version)
                      else acc) acc l in
  (is_Some acc.1 ∨ left ∈ version_numbers l → is_Some res.1) ∧
  (is_Some acc.2 ∨ (left ≠ right ∧ right ∈ version_numbers l) → is_Some res.2).
Proof.
  induction l as [|x l IH]; intros acc; simpl.
  - split; intros [H|H]; try done.
    + by apply elem_of_nil in H.
    + destruct H as [_ H]. by apply elem_of_nil in H.
  - specialize (IH (if decide (VersionNumber x = left) then (Some x, acc.2)
                    else if decide (VersionNumber x = right) then (acc.1, Some x) else acc)).
    simpl in IH. destruct IH as [IH1 IH2]. unfold version_numbers in *.
    split; intros H.
    + apply IH1. destruct H as [H|H].
      * left. destruct (decide (VersionNumber x = left)); [by eexists|].
        by destruct (decide (VersionNumber x = right)).
      * apply elem_of_cons in H as [H|H]; [|by right].
        left. rewrite decide_True by done. by eexists.
    + apply IH2. destruct H as [H|[Hne H]].
      * left. destruct (decide (VersionNumber x = left)); [done|].
        destruct (decide (VersionNumber x = right)); [by eexists | done].
      * apply elem_of_cons in H as [H|H]; [|by right].
        left. rewrite decide_False by congruence.
        rewrite decide_True by done. by eexists.
Qed.

(** X18: comparing a version with itself is refused: the loop of CompareVersions
    tries the left number first, so with equal numbers the right side is
    never filled and the call returns [ErrNotFound], whether the entry
    exists or not. *)
Theorem compare_with_itself_not_found (r : inMemoryRepository)
    (tenantID templateID : string) (n : Z) :
  inMemoryRepository.CompareVersions tenantID templateID n n r = Err ErrNotFound.
Proof.
  unfold inMemoryRepository.CompareVersions.
  destruct (owned r tenantID templateID) as [tpl|]; [|done].
  pose proof (pick_versions_same n (history r templateID) (None, None) eq_refl) as Hright.
  unfold inMemoryRepository.pick_versions.
  destruct (foldl _ _ _) as [[l|] [rt|]]; simpl in *; congruence.
Qed.

(** X19: CompareVersions succeeds exactly when the template belongs to the
    tenant, the two numbers differ and both occur in its history; the
    comparison it returns names the template, holds an entry of the history
    with the left number and one with the right number, and its summary
    quotes their two schema URLs. *)
Theorem CompareVersions_succeeds_iff (r : inMemoryRepository)
    (tenantID templateID : string) (left right : Z) :
  (is_Ok (inMemoryRepository.CompareVersions tenantID templateID left right r) = true ↔
   is_Some (owned r tenantID templateID) ∧ left ≠ right ∧
   left ∈ version_numbers (history r templateID) ∧
   right ∈ version_numbers (history r templateID)) ∧
  (∀ c, inMemoryRepository.CompareVersions tenantID templateID left right r = Ok c →
        (TemplateID <$> templates r !! templateID) = Some (C_TemplateID c) ∧
        Left c ∈ history r templateID ∧ VersionNumber (Left c) = left ∧
        Right c ∈ history r templateID ∧ VersionNumber (Right c) = right ∧
        Summary c = "left schema: " +:+ V_JSONSchemaURL (Left c)
                    +:+ ", right schema: " +:+ V_JSONSchemaURL (Right c)).
Proof.
  unfold inMemoryRepository.CompareVersions, inMemoryRepository.pick_versions.
  pose proof (pick_versions_sound left right (history r templateID) (None, None)) as Hsound.
  pose proof (pick_versions_complete left right (history r templateID) (None, None)) as Hcompl.
  simpl in Hsound, Hcompl. destruct Hsound as [Hs1 Hs2]. destruct Hcompl as [Hc1 Hc2].
  destruct (owned r tenantID templateID) as [tpl|] eqn:Hown.
  - apply owned_Some in Hown as [Hget _].
    destruct (foldl _ _ _) as [[l|] [rt|]]; simpl in *.
    + destruct (Hs1 l eq_refl) as [?|[Hl1 Hl2]]; [done|].
      destruct (Hs2 rt eq_refl) as [?|(Hr1 & Hr2 & Hne)]; [done|].
      split.
      * split; [|done]. intros _. split; [by eexists|]. split; [done|].
        unfold version_numbers. split; apply list_elem_of_fmap; eauto.
      * intros c [= <-]. simpl. rewrite Hget. done.
    + split; [|done]. split; [done|]. intros (_ & Hne & _ & Hr).
      destruct Hc2 as [? ?]; [by right | done].
    + split; [|done]. split; [done|]. intros (_ & _ & Hl & _).
      destruct Hc1 as [? ?]; [by right | done].
    + split; [|done]. split; [done|]. intros (_ & _ & Hl & _).
      destruct Hc1 as [? ?]; [by right | done].
  - split; [|done]. split; [done|]. by intros [[? ?] _].
Qed.

(** ** Duplicating with the history *)

Lemma VersionID_cleared (l : list TemplateVersion) :
  VersionID <$> (set_IsCurrent false <$> l) = VersionID <$> l.
Proof. rewrite <- list_fmap_compose. by apply list_fmap_ext. Qed.

(** What a copy loop that ran to its end has written. *)
Lemma copy_versions_Ok tenantID tpl ids vs : ∀ i r r',
  TemplateService.copy_versions tenantID tpl ids i vs r = (Ok (), r') →
  templates r' = templates r ∧
  (∀ j, j ≠ TemplateID tpl → history r' j = history r j) ∧
  version_numbers (history r' (TemplateID tpl))
  = version_numbers (history r (TemplateID tpl))
    ++ ((λ v, if IsCurrent v then Version tpl else VersionNumber v) <$> vs) ∧
  VersionID <$> history r' (TemplateID tpl)
  = (VersionID <$> history r (TemplateID tpl)) ++ (ids <$> seq i (length vs)).
Proof.
  induction vs as [|v vs IH]; intros i r r'; simpl.
  - intros [= <-]. by rewrite !app_nil_r.
  - unfold bind at 1.
    match goal with |- context [inMemoryRepository.CreateVersion ?t ?c r] =>
      destruct (inMemoryRepository.CreateVersion t c r) as [[out|err] r1] eqn:Hcv;
      [|done]; set (copy := c) in *
    end.
    assert (Hcid : V_TemplateID copy = TemplateID tpl).
    { subst copy. by destruct (IsCurrent v). }
    assert (Hnum : VersionNumber copy = if IsCurrent v then Version tpl else VersionNumber v).
    { subst copy. by destruct (IsCurrent v). }
    assert (Hvid : VersionID copy = ids i).
    { subst copy. by destruct (IsCurrent v). }
    clearbody copy.
    apply CreateVersion_Ok in Hcv as (_ & _ & _ & ->). rewrite Hcid.
    intros Hrest. apply IH in Hrest as (Hts & Hother & Hnums & Hids).
    simpl in Hts. split; [done|]. split; [|split].
    + intros j Hj. rewrite Hother by done. by apply history_insert_ne.
    + rewrite Hnums, history_insert_eq, version_numbers_snoc, version_numbers_cleared.
      by rewrite Hnum, <- app_assoc.
    + rewrite Hids, history_insert_eq, fmap_app, VersionID_cleared. simpl.
      by rewrite Hvid, <- app_assoc.
Qed.

(** X15: a successful service DuplicateTemplate with copy_versions, in a state of
    the store: after the synthetic entry, the clone's history has one entry
    per entry of the source history as it was at the call, in the same
    order; each carries the identifier drawn for it; its number is the
    source entry's, except that an entry flagged current gets the clone's
    version, 1. The source history is untouched. *)
Theorem duplicate_copies_history (r r' : inMemoryRepository) (cloneID versionID : string)
    (now : Time) (ids : nat → string) (tenantID templateID : string) (opt : DuplicateOptions)
    (clone : Template) :
  consistent r →
  CopyVersions opt = true →
  TemplateService.DuplicateTemplate cloneID versionID now ids tenantID templateID opt r
  = (Ok clone, r') →
  history r' templateID = history r templateID ∧
  length (history r' cloneID) = S (length (history r templateID)) ∧
  version_numbers (history r' cloneID)
  = 1 :: ((λ v, if IsCurrent v then 1 else VersionNumber v) <$> history r templateID) ∧
  VersionID <$> history r' cloneID
  = versionID :: (ids <$> seq 0 (length (history r templateID))).
Proof.
  intros Hcons Hcopy. unfold TemplateService.DuplicateTemplate, bind at 1. rewrite Hcopy.
  destruct (inMemoryRepository.DuplicateTemplate _ _ _ _ _ _ r) as [[dup|err] r1] eqn:Hdup;
    [|done].
  destruct (duplicate_builds_clone_facts r r1 cloneID versionID now tenantID templateID opt dup
              Hcons Hdup) as (Hsrc & Hne & Hid & Hver & (tpl & _ & Hhist) & [src Hown]).
  unfold bind at 1, read. unfold inMemoryRepository.ListVersions at 1. rewrite Hown.
  unfold bind at 1.
  destruct (TemplateService.copy_versions _ _ _ _ _ r1) as [[[]|err] r2] eqn:Hloop; [|done].
  intros [= <- <-].
  apply copy_versions_Ok in Hloop as (_ & Hother & Hnums & Hids).
  rewrite Hid, Hver, Hhist in *. rewrite Hsrc in *.
  split; [by rewrite Hother by done|]. split; [|split].
  - apply (f_equal length) in Hids. rewrite !length_fmap in Hids.
    rewrite Hids. simpl. by rewrite length_fmap, length_seq.
  - exact Hnums.
  - exact Hids.
Qed.

Lemma duplicate_copies_history_witness :
  version_numbers
    (history (TemplateService.DuplicateTemplate "D" "v-d" 40 copy_ids "t1" "T"
                (mkDuplicateOptions "u2" "u2" true "" "") repo_updated).2 "D")
  = [1; 1; 1] ∧
  VersionID <$>
    history (TemplateService.DuplicateTemplate "D" "v-d" 40 copy_ids "t1" "T"
               (mkDuplicateOptions "u2" "u2" true "" "") repo_updated).2 "D"
  = ["v-d"; "copy-A"; "copy-B"].
Proof.
  assert (Hcons : consistent repo_updated).
  { apply (respects_exec keeps_consistent repo_exec_consistent
             (CallUpdate "v-2" 20 "t1" "T" rename_v2 "u1" "rename") repo_created).
    apply (respects_exec keeps_consistent repo_exec_consistent
             (CallCreate "T" "v-1" 10 warranty_eu) NewInMemoryRepository), consistent_empty. }
  assert (Hdup : TemplateService.DuplicateTemplate "D" "v-d" 40 copy_ids "t1" "T"
                   (mkDuplicateOptions "u2" "u2" true "" "") repo_updated
                 = (Ok (mkTemplate "D" "t1" "Warranty EU v2 Copy" "" "warranty" "A4" "portrait"
                          "s3://schemas/v1.json" "" 1 "u2" "u2" 40 40 None 0 None),
                    (TemplateService.DuplicateTemplate "D" "v-d" 40 copy_ids "t1" "T"
                       (mkDuplicateOptions "u2" "u2" true "" "") repo_updated).2))
    by (by vm_compute).
  destruct (duplicate_copies_history repo_updated _ "D" "v-d" 40 copy_ids "t1" "T"
              (mkDuplicateOptions "u2" "u2" true "" "") _ Hcons eq_refl Hdup)
    as (_ & _ & Hnums & Hids).
  split; [exact Hnums | exact Hids].
Defined.

Lemma RestoreVersion_moves_forward_witness :
  ∃ tpl tpl' restored,
    templates repo_updated !! "T" = Some tpl ∧
    templates (inMemoryRepository.RestoreVersion 30 "t1" "T" 1 repo_updated).2 !! "T"
    = Some tpl' ∧
    restored ∈ history repo_updated "T" ∧
    VersionNumber restored = 1 ∧
    Version tpl' = int_incr (Version tpl).
Proof.
  assert (Hok : inMemoryRepository.RestoreVersion 30 "t1" "T" 1 repo_updated
                = (Ok (mkTemplateVersion "v-1" "T" 3 "initial version" "s3://schemas/v1.json"
                         "u1" 30 true),
                   (inMemoryRepository.RestoreVersion 30 "t1" "T" 1 repo_updated).2))
    by (by vm_compute).
  destruct (RestoreVersion_moves_forward 30 "t1" "T" 1 repo_updated _ _ Hok)
    as (tpl & tpl' & restored & H1 & H2 & H3 & H4 & H5 & _).
  exists tpl, tpl', restored. repeat split; assumption.
Defined.

(** ** Names and white space *)

Lemma strip_prefix_length p : ∀ s s',
  strip_prefix p s = Some s' →
  String.length s = (String.length p + String.length s')%nat.
Proof.
  induction p as [|a p IH]; intros s s'; simpl.
  - by intros [= <-].
  - destruct s as [|b s]; [done|]. destruct (decide (a = b)); [|done].
    intros Hs. apply IH in Hs. simpl. lia.
Qed.

Lemma strip_rune_length runes s s' :
  strip_rune runes s = Some s' → (String.length s' ≤ String.length s)%nat.
Proof.
  induction runes as [|w runes IH]; simpl; [done|].
  destruct (strip_prefix w s) as [rest|] eqn:Hw; [|done].
  intros [= <-]. apply strip_prefix_length in Hw. lia.
Qed.

Lemma trim_left_fuel_length runes fuel : ∀ s,
  (String.length (trim_left_fuel runes fuel s) ≤ String.length s)%nat.
Proof.
  induction fuel as [|fuel IH]; intros s; simpl; [done|].
  destruct (strip_rune runes s) as [s'|] eqn:Hs; [|done].
  apply strip_rune_length in Hs. specialize (IH s'). lia.
Qed.

Lemma length_string_of_list_ascii l :
  String.length (string_of_list_ascii l) = length l.
Proof. induction l as [|a l IH]; simpl; [done | by rewrite IH]. Qed.

Lemma length_list_ascii_of_string s :
  length (list_ascii_of_string s) = String.length s.
Proof. induction s as [|a s IH]; simpl; [done | by rewrite IH]. Qed.

Lemma string_rev_length s : String.length (string_rev s) = String.length s.
Proof.
  unfold string_rev.
  by rewrite length_string_of_list_ascii, length_rev, length_list_ascii_of_string.
Qed.

Lemma TrimSpace_length s : (String.length (TrimSpace s) ≤ String.length s)%nat.
Proof.
  unfold TrimSpace, TrimRightSpace, TrimLeftSpace.
  rewrite string_rev_length.
  etransitivity; [apply trim_left_fuel_length|].
  rewrite string_rev_length. apply trim_left_fuel_length.
Qed.

Lemma trim_left_blanks n : ∀ fuel, (n ≤ fuel)%nat →
  trim_left_fuel space_runes fuel (blanks n) = "".
Proof.
  induction n as [|n IH]; intros fuel Hfuel.
  - by destruct fuel.
  - destruct fuel as [|fuel]; [lia|]. simpl. apply IH. lia.
Qed.

Lemma TrimSpace_blanks n : TrimSpace (blanks n) = "".
Proof.
  unfold TrimSpace, TrimLeftSpace.
  rewrite trim_left_blanks; [done|].
  unfold blanks. by rewrite length_string_of_list_ascii, length_replicate.
Qed.

(** X20: whatever white space surrounds it, a name that [Validate] accepts has
    between 3 and 100 bytes as given, and is not made of blanks only. *)
Theorem accepted_name_length (t : Template) :
  Template_Validate t = None →
  (3 ≤ String.length (Name t) ≤ 100)%nat ∧ ∀ n, Name t ≠ blanks n.
Proof.
  intros Hval. apply Template_Validate_None in Hval as (_ & Hlo & Hhi).
  pose proof (TrimSpace_length (Name t)). split; [lia|].
  intros n Hn. rewrite Hn, TrimSpace_blanks in Hlo. simpl in Hlo. lia.
Qed.

Lemma accepted_name_length_witness :
  (3 ≤ String.length (Name (set_Name "  Warranty EU  " warranty_eu)) ≤ 100)%nat ∧
  ∀ n, Name (set_Name "  Warranty EU  " warranty_eu) ≠ blanks n.
Proof.
  apply (accepted_name_length (set_Name "  Warranty EU  " warranty_eu)).
  by vm_compute.
Defined.

(** ** The HTTP layer *)

Example Router_examples :
  httpapi.Router "GET" "/templates/" = httpapi.ToListTemplates ∧
  httpapi.Router "PUT" "/templates/abc" = httpapi.ToUpdateTemplate "abc" ∧
  httpapi.Router "POST" "/templates/abc/versions/3/restore"
  = httpapi.ToRestoreVersion "abc" "3" ∧
  httpapi.Router "GET" "/templates/abc/versions/compare" = httpapi.ToCompareVersions "abc" ∧
  httpapi.Router "POST" "/templates/bulk/delete" = httpapi.ToBulkDelete ∧
  httpapi.Router "GET" "/documents" = httpapi.NotFound ∧
  httpapi.Router "PATCH" "/templates/abc" = httpapi.MethodNotAllowed.
Proof. repeat split; reflexivity. Qed.

(** X21: no request reaches a handler with the template identifier [bulk]: the
    second path segment [bulk] always goes to the bulk operations. And the
    restore and duplicate routes of a template do not look at the method or
    at what follows in the path: any request to /templates/{id}/restore/...
    restores, any to /templates/{id}/duplicate/... duplicates. *)
Theorem routes_of_a_template (method path : string) :
  httpapi.dispatched_id (httpapi.Router method path) ≠ Some "bulk" ∧
  ∀ templateID rest,
    templateID ≠ "bulk" →
    httpapi.route method ("templates" :: templateID :: "restore" :: rest)
    = httpapi.ToRestoreTemplate templateID ∧
    httpapi.route method ("templates" :: templateID :: "duplicate" :: rest)
    = httpapi.ToDuplicateTemplate templateID.
Proof.
  split.
  - unfold httpapi.Router. case_bool_decide; [done|].
    generalize (httpapi.split_slashes (httpapi.trim_slashes path)). intros segments.
    unfold httpapi.route.
    destruct segments as [|s0 [|s1 [|s2 rest]]]; simpl; try done.
    + case_bool_decide; [|done]. unfold httpapi.handleTemplatesCollection.
      by repeat case_bool_decide.
    + case_bool_decide; simpl; [|done]. case_bool_decide as Hbulk; [done|].
      unfold httpapi.handlerTemplate. repeat case_bool_decide; simpl; congruence.
    + case_bool_decide; simpl; [|done]. case_bool_decide as Hbulk.
      * unfold httpapi.handleTemplatesBulk. by repeat (case_bool_decide; simpl).
      * repeat (case_bool_decide; simpl; try congruence).
        unfold httpapi.handleVersions. destruct rest as [|v [|v1 [|v2 rest]]];
          repeat (case_bool_decide; simpl; try congruence).
  - intros templateID rest Hne. unfold httpapi.route. simpl.
    rewrite !bool_decide_eq_false_2 by done. done.
Qed.

Lemma payload_mutation_Ok payload t :
  ∃ t', httpapi.payload_mutation payload t = Ok t' ∧
    TemplateID t' = TemplateID t ∧ TenantID t' = TenantID t ∧ Version t' = Version t ∧
    CreatedBy t' = CreatedBy t ∧ CreatedAt t' = CreatedAt t ∧ DeletedAt t' = DeletedAt t ∧
    DocumentsCount t' = DocumentsCount t ∧ LastUsedAt t' = LastUsedAt t ∧
    Description t' = httpapi.P_Description payload ∧
    Name t' = (if bool_decide (httpapi.P_Name payload = "") then Name t
               else httpapi.P_Name payload) ∧
    JSONSchemaURL t' = (if bool_decide (httpapi.P_JSONSchemaURL payload = "")
                        then JSONSchemaURL t else httpapi.P_JSONSchemaURL payload).
Proof.
  destruct t, payload. unfold httpapi.payload_mutation. cbn [httpapi.P_Name
    httpapi.P_Description httpapi.P_DocumentType httpapi.P_PageSize httpapi.P_Orientation
    httpapi.P_JSONSchemaURL httpapi.P_ThumbnailURL].
  eexists. split; [reflexivity|].
  destruct (bool_decide (P_Name = "")), (bool_decide (P_DocumentType = "")),
    (bool_decide (P_PageSize = "")), (bool_decide (P_Orientation = "")),
    (bool_decide (P_JSONSchemaURL = "")), (bool_decide (P_ThumbnailURL = ""));
    cbn; repeat split; reflexivity.
Qed.

(** X22: an update that arrives over HTTP can change the name, the description,
    the document type, the page size, the orientation and the two URLs, and
    nothing else.  The closure the handler builds never fails, and what it
    returns is the loaded template with exactly these changes: name, document
    type, page size, orientation, schema URL and thumbnail URL are each the
    payload's where the payload's is not empty and the loaded one where it
    is; the description is always the payload's, empty or not; identifier,
    tenant, version counter, creator, updater, both timestamps, deletion
    mark and usage counters are the loaded ones. *)
Theorem http_update_scope (payload : httpapi.TemplatePayload) :
  keeps_identifier (httpapi.payload_mutation payload) ∧
  keeps_tenant (httpapi.payload_mutation payload) ∧
  keeps_version (httpapi.payload_mutation payload) ∧
  ∀ t,
    httpapi.payload_mutation payload t
    = Ok {| TemplateID := TemplateID t;
            TenantID := TenantID t;
            Name := if bool_decide (httpapi.P_Name payload = "") then Name t
                    else httpapi.P_Name payload;
            Description := httpapi.P_Description payload;
            DocumentType := if bool_decide (httpapi.P_DocumentType payload = "")
                            then DocumentType t else httpapi.P_DocumentType payload;
            PageSize := if bool_decide (httpapi.P_PageSize payload = "")
                        then PageSize t else httpapi.P_PageSize payload;
            Orientation := if bool_decide (httpapi.P_Orientation payload = "")
                           then Orientation t else httpapi.P_Orientation payload;
            JSONSchemaURL := if bool_decide (httpapi.P_JSONSchemaURL payload = "")
                             then JSONSchemaURL t else httpapi.P_JSONSchemaURL payload;
            ThumbnailURL := if bool_decide (httpapi.P_ThumbnailURL payload = "")
                            then ThumbnailURL t else httpapi.P_ThumbnailURL payload;
            Version := Version t;
            CreatedBy := CreatedBy t;
            UpdatedBy := UpdatedBy t;
            CreatedAt := CreatedAt t;
            UpdatedAt := UpdatedAt t;
            DeletedAt := DeletedAt t;
            DocumentsCount := DocumentsCount t;
            LastUsedAt := LastUsedAt t |}.
Proof.
  split; [|split; [|split]].
  - intros t t' Hm. destruct (payload_mutation_Ok payload t) as (u & Hu & H & _). congruence.
  - intros t t' Hm. destruct (payload_mutation_Ok payload t) as (u & Hu & _ & H & _).
    congruence.
  - intros t t' Hm. destruct (payload_mutation_Ok payload t) as (u & Hu & _ & _ & H & _).
    congruence.
  - intros t. destruct t, payload. unfold httpapi.payload_mutation.
    cbn [httpapi.P_Name httpapi.P_Description httpapi.P_DocumentType httpapi.P_PageSize
         httpapi.P_Orientation httpapi.P_JSONSchemaURL httpapi.P_ThumbnailURL].
    destruct (bool_decide (P_Name = "")), (bool_decide (P_DocumentType = "")),
      (bool_decide (P_PageSize = "")), (bool_decide (P_Orientation = "")),
      (bool_decide (P_JSONSchemaURL = "")), (bool_decide (P_ThumbnailURL = ""));
      reflexivity.
Qed.

Lemma tenantFromRequest_Ok header tenantID :
  httpapi.tenantFromRequest header = Ok tenantID ↔
  tenantID = TrimSpace header ∧ tenantID ≠ "".
Proof.
  unfold httpapi.tenantFromRequest. case_bool_decide as Hblank.
  - split; [done|]. intros [-> ?]. done.
  - split; [by intros [= <-] | by intros [-> _]].
Qed.

(** X23: what the UpdateTemplate handler answers: 400 to a blank tenant header;
    404 when the tenant has no such template; 400 when the template is
    soft-deleted; and 500, not 400, when the updated template fails
    validation. In all four cases the repository is unchanged. *)
Theorem http_update_statuses (versionID : string) (now : Time)
    (tenantHeader userHeader templateID : string) (payload : httpapi.TemplatePayload)
    (r : inMemoryRepository) :
  (TrimSpace tenantHeader = "" →
   httpapi.UpdateTemplate versionID now tenantHeader userHeader templateID payload r
   = (httpapi.StatusBadRequest, r)) ∧
  (TrimSpace tenantHeader ≠ "" →
   (owned r (TrimSpace tenantHeader) templateID = None →
    httpapi.UpdateTemplate versionID now tenantHeader userHeader templateID payload r
    = (httpapi.StatusNotFound, r)) ∧
   (∀ tpl,
      owned r (TrimSpace tenantHeader) templateID = Some tpl →
      (DeletedAt tpl ≠ None →
       httpapi.UpdateTemplate versionID now tenantHeader userHeader templateID payload r
       = (httpapi.StatusBadRequest, r)) ∧
      (∀ mutated e,
         DeletedAt tpl = None →
         httpapi.payload_mutation payload tpl = Ok mutated →
         Template_Validate
           (set_UpdatedAt now
              (set_UpdatedBy (httpapi.userFromRequest userHeader)
                 (set_Version (int_incr (Version mutated)) mutated))) = Some e →
         httpapi.UpdateTemplate versionID now tenantHeader userHeader templateID payload r
         = (httpapi.StatusInternalServerError, r)))).
Proof.
  unfold httpapi.UpdateTemplate, httpapi.tenantFromRequest.
  split; [intros ->; by rewrite bool_decide_eq_true_2|].
  intros Hten. rewrite bool_decide_eq_false_2 by done.
  unfold TemplateService.UpdateTemplate, bind, read, inMemoryRepository.GetTemplate.
  split.
  - by intros ->.
  - intros tpl ->. split.
    + intros Hdel. by destruct (DeletedAt tpl).
    + intros mutated e -> -> Hval. rewrite Hval.
      apply Template_Validate_plain in Hval as [msg ->]. done.
Qed.

(** X24: what the CreateTemplate handler answers: it answers 400 exactly when
    the tenant header is blank or the body does not decode, and then nothing
    is written.  A body that decodes to a template that fails validation is
    answered with 500, not 400, and nothing is written either. *)
Theorem http_create_statuses (templateID versionID : string) (now : Time)
    (tenantHeader userHeader : string) (body : option httpapi.TemplatePayload)
    (r : inMemoryRepository) :
  ((httpapi.CreateTemplate templateID versionID now tenantHeader userHeader body r).1
   = httpapi.StatusBadRequest ↔ TrimSpace tenantHeader = "" ∨ body = None) ∧
  (TrimSpace tenantHeader = "" ∨ body = None →
   httpapi.CreateTemplate templateID versionID now tenantHeader userHeader body r
   = (httpapi.StatusBadRequest, r)) ∧
  (∀ payload, TrimSpace tenantHeader ≠ "" → body = Some payload →
   (String.length (TrimSpace (httpapi.P_Name payload)) < 3)%nat →
   httpapi.CreateTemplate templateID versionID now tenantHeader userHeader body r
   = (httpapi.StatusInternalServerError, r)).
Proof.
  unfold httpapi.CreateTemplate, httpapi.tenantFromRequest.
  case_bool_decide as Hblank; simpl.
  { split; [split; auto|]. split; [done|]. intros payload Hne. done. }
  destruct body as [payload|]; simpl.
  2:{ split; [split; auto|]. split; [done|]. intros payload _ [=]. }
  set (tpl := set_UpdatedBy _ _).
  split; [|split].
  - split; [|by intros [?|[=]]]. unfold TemplateService.CreateTemplate.
    destruct (Template_Validate _) as [e|] eqn:Hval.
    + apply Template_Validate_plain in Hval as [msg ->]. done.
    + unfold bind, inMemoryRepository.CreateTemplate.
      destruct (templates r !! _); [done|].
      unfold inMemoryRepository.CreateVersion.
      destruct (owned _ _ _); [|done].
      destruct (TemplateVersion_Validate _) as [e|] eqn:Hvv; [|done].
      apply TemplateVersion_Validate_plain in Hvv as [msg ->]. done.
  - by intros [?|[=]].
  - intros payload' _ [= <-] Hshort. unfold TemplateService.CreateTemplate.
    destruct (Template_Validate _) as [e|] eqn:Hval.
    + apply Template_Validate_plain in Hval as [msg ->]. done.
    + apply Template_Validate_None in Hval as (_ & Hlo & _). simpl in Hlo.
      pose proof (TrimSpace_length (TrimSpace (httpapi.P_Name payload))). lia.
Qed.

(** X25: the page options the ListTemplates handler builds, whatever the query
    says and whatever [strconv.Atoi] makes of it: the limit is positive, the
    offset is not negative. And unless offset + limit exceeds the largest
    int, the listing returns a page, of at most limit templates. *)
Theorem http_listing_options (Atoi : string → option Z) (ToLower : string → string)
    (tenantID search docType includeDeleted limitParam offsetParam : string)
    (r : inMemoryRepository) :
  0 < Limit (httpapi.ListTemplates_options Atoi tenantID search docType includeDeleted
               limitParam offsetParam) ∧
  0 ≤ Offset (httpapi.ListTemplates_options Atoi tenantID search docType includeDeleted
                limitParam offsetParam) ∧
  (Offset (httpapi.ListTemplates_options Atoi tenantID search docType includeDeleted
             limitParam offsetParam)
   + Limit (httpapi.ListTemplates_options Atoi tenantID search docType includeDeleted
              limitParam offsetParam) ≤ int_max →
   ∃ page,
     inMemoryRepository.ListTemplates ToLower
       (httpapi.ListTemplates_options Atoi tenantID search docType includeDeleted
          limitParam offsetParam) r = Some page ∧
     Z.of_nat (length page)
     ≤ Limit (httpapi.ListTemplates_options Atoi tenantID search docType includeDeleted
                limitParam offsetParam)).
Proof.
  set (opt := httpapi.ListTemplates_options _ _ _ _ _ _ _).
  assert (Hbounds : 0 < Limit opt ∧ 0 ≤ Offset opt).
  { subst opt. unfold httpapi.ListTemplates_options, httpapi.paginationFromRequest.
    simpl. split.
    - case_bool_decide; simpl; [lia|]. destruct (Atoi limitParam) as [parsed|]; [|lia].
      destruct (Z.ltb_spec 0 parsed); lia.
    - case_bool_decide; simpl; [lia|]. destruct (Atoi offsetParam) as [parsed|]; [|lia].
      destruct (Z.leb_spec 0 parsed); lia. }
  destruct Hbounds as [Hlim Hoff]. split; [done|]. split; [done|].
  intros Hsum. unfold inMemoryRepository.ListTemplates.
  rewrite paginate_window by done. eexists. split; [done|].
  rewrite length_take. lia.
Qed.

(** X26: the acting user is never empty: it is the trimmed user header, and
    [system] when that is blank or missing.  The duplicate handler fills an
    empty creator and an empty updater of its payload with the acting user,
    each on its own, keeps the ones that are given, and leaves the other
    payload fields alone; so after it neither is empty. *)
Theorem acting_user_never_empty (userHeader : string) (payload : httpapi.DuplicatePayload) :
  httpapi.userFromRequest userHeader
  = (if bool_decide (TrimSpace userHeader = "") then "system" else TrimSpace userHeader) ∧
  httpapi.userFromRequest userHeader ≠ "" ∧
  (∀ userID,
     httpapi.Defaults userID payload
     = {| httpapi.DP_CopyVersions := httpapi.DP_CopyVersions payload;
          httpapi.DP_NameOverride := httpapi.DP_NameOverride payload;
          httpapi.DP_DescriptionOverride := httpapi.DP_DescriptionOverride payload;
          httpapi.DP_CreatedBy := if bool_decide (httpapi.DP_CreatedBy payload = "")
                                  then userID else httpapi.DP_CreatedBy payload;
          httpapi.DP_UpdatedBy := if bool_decide (httpapi.DP_UpdatedBy payload = "")
                                  then userID else httpapi.DP_UpdatedBy payload |}) ∧
  httpapi.DP_CreatedBy (httpapi.Defaults (httpapi.userFromRequest userHeader) payload) ≠ "" ∧
  httpapi.DP_UpdatedBy (httpapi.Defaults (httpapi.userFromRequest userHeader) payload) ≠ "".
Proof.
  assert (Huser : httpapi.userFromRequest userHeader ≠ "").
  { unfold httpapi.userFromRequest. by case_bool_decide. }
  split; [reflexivity|]. split; [done|]. split.
  { intros userID. destruct payload. unfold httpapi.Defaults.
    repeat (case_bool_decide; simpl in *); congruence. }
  unfold httpapi.Defaults.
  split; repeat (case_bool_decide; simpl in *); try done.
Qed.

(** X27: an update accepted over HTTP (status 200) in a state of the store: the
    addressed template, and no other, is replaced; its version is one more
    than before, its updater is the acting user and its update time the
    clock reading; tenant and identifier are kept and the description is the
    payload's. Its history has every earlier entry with the current flag
    cleared, followed by one new current entry with the new version number
    and the payload's change summary. *)
Theorem http_update_accepted (r r' : inMemoryRepository) (versionID : string) (now : Time)
    (tenantHeader userHeader templateID : string) (payload : httpapi.TemplatePayload)
    (t : Template) :
  consistent r →
  templates r !! templateID = Some t →
  in_int (Version t) →
  httpapi.UpdateTemplate versionID now tenantHeader userHeader templateID payload r
  = (httpapi.StatusOK, r') →
  ∃ t',
    templates r' = <[templateID := t']> (templates r) ∧
    Version t' = Version t + 1 ∧
    UpdatedBy t' = httpapi.userFromRequest userHeader ∧
    UpdatedAt t' = now ∧
    TemplateID t' = templateID ∧
    TenantID t' = TenantID t ∧
    TenantID t = TrimSpace tenantHeader ∧
    Description t' = httpapi.P_Description payload ∧
    history r' templateID
    = (set_IsCurrent false <$> history r templateID)
      ++ [mkTemplateVersion versionID templateID (Version t + 1)
            (httpapi.P_ChangeSummary payload) (JSONSchemaURL t')
            (httpapi.userFromRequest userHeader) now true] ∧
    ∀ j, j ≠ templateID → history r' j = history r j.
Proof.
  intros [Hkey _] Hget Hint. unfold httpapi.UpdateTemplate.
  destruct (httpapi.tenantFromRequest tenantHeader) as [tenantID|] eqn:Hten; [|done].
  apply tenantFromRequest_Ok in Hten as [-> _].
  destruct (TemplateService.UpdateTemplate _ _ _ _ _ _ _ r) as [[updated|err] r1] eqn:Hupd.
  - intros [= <-].
    apply UpdateTemplate_Ok in Hupd
      as (tpl & mutated & Hget' & Hten & _ & Hmut & -> & _ & _ & Hpos & ->).
    assert (tpl = t) as -> by congruence.
    destruct (payload_mutation_Ok payload t)
      as (u & Hu & Hid & Htenant & Hver & _ & _ & _ & _ & _ & Hdesc & _).
    assert (u = mutated) as -> by congruence.
    simpl in Hpos. rewrite Hver in Hpos.
    destruct (int_incr_positive (Version t) Hint Hpos) as [Hincr _].
    rewrite Hid, (Hkey _ _ Hget).
    eexists. split; [reflexivity|]. simpl.
    rewrite Hver, Hincr, history_insert_eq.
    repeat split; try done; try congruence.
    + by rewrite Hid, (Hkey _ _ Hget).
    + intros j Hj. by apply history_insert_ne.
  - by repeat case_match.
Qed.

Lemma http_update_accepted_witness :
  ∃ t',
    templates (httpapi.UpdateTemplate "v-2" 20 " t1 " "" "T"
                 (httpapi.mkTemplatePayload "Warranty EU v2" "" "" "" "" "" "" "rename")
                 repo_created).2
    = <["T" := t']> (templates repo_created) ∧
    Version t' = 2 ∧
    UpdatedBy t' = "system".
Proof.
  assert (Hcons : consistent repo_created).
  { apply (respects_exec keeps_consistent repo_exec_consistent
             (CallCreate "T" "v-1" 10 warranty_eu) NewInMemoryRepository), consistent_empty. }
  assert (Hget : templates repo_created !! "T"
                 = Some (set_Version 1 (set_UpdatedAt 10 (set_CreatedAt 10
                           (set_TemplateID "T" warranty_eu)))))
    by (by vm_compute).
  assert (Hint : in_int (Version (set_Version 1 (set_UpdatedAt 10 (set_CreatedAt 10
                                   (set_TemplateID "T" warranty_eu))))))
    by (by vm_compute).
  assert (Hok : httpapi.UpdateTemplate "v-2" 20 " t1 " "" "T"
                  (httpapi.mkTemplatePayload "Warranty EU v2" "" "" "" "" "" "" "rename")
                  repo_created
                = (httpapi.StatusOK,
                   (httpapi.UpdateTemplate "v-2" 20 " t1 " "" "T"
                      (httpapi.mkTemplatePayload "Warranty EU v2" "" "" "" "" "" "" "rename")
                      repo_created).2))
    by (by vm_compute).
  destruct (http_update_accepted repo_created _ "v-2" 20 " t1 " "" "T" _ _ Hcons Hget Hint Hok)
    as (t' & H1 & H2 & H3 & _).
  exists t'. split; [exact H1|]. split; [exact H2 | exact H3].
Defined.

(** ** Bulk delete *)

Lemma SoftDelete_keeps_ownership now tenantID templateID r tenant j :
  is_Some (owned (inMemoryRepository.SoftDeleteTemplate now tenantID templateID r).2 tenant j)
  ↔ is_Some (owned r tenant j).
Proof.
  unfold inMemoryRepository.SoftDeleteTemplate.
  destruct (owned r tenantID templateID) as [tpl|] eqn:Hown; simpl; [|done].
  apply owned_Some in Hown as [Hget _].
  unfold owned at 1. simpl. destruct (decide (templateID = j)) as [<-|Hj].
  - rewrite lookup_insert_eq. simpl. unfold owned. rewrite Hget. by case_decide.
  - rewrite lookup_insert_ne by done. done.
Qed.

Lemma SoftDelete_keeps_marks now tenantID templateID r j :
  (∃ t, templates r !! j = Some t ∧ DeletedAt t ≠ None) →
  ∃ t, templates (inMemoryRepository.SoftDeleteTemplate now tenantID templateID r).2 !! j
       = Some t ∧ DeletedAt t ≠ None.
Proof.
  intros (t & Hget & Hdel). unfold inMemoryRepository.SoftDeleteTemplate.
  destruct (owned r tenantID templateID) as [tpl|]; simpl; [|by exists t].
  destruct (decide (templateID = j)) as [<-|Hj].
  - rewrite lookup_insert_eq. by eexists.
  - rewrite lookup_insert_ne by done. by exists t.
Qed.

Lemma BulkDelete_keeps_marks nows tenantID templateIDs : ∀ i r j,
  (∃ t, templates r !! j = Some t ∧ DeletedAt t ≠ None) →
  ∃ t, templates (httpapi.BulkDelete_loop nows i tenantID templateIDs r).2 !! j = Some t
       ∧ DeletedAt t ≠ None.
Proof.
  induction templateIDs as [|id rest IH]; intros i r j Hj; simpl; [done|].
  apply (SoftDelete_keeps_marks (nows i) tenantID id) in Hj.
  unfold TemplateService.DeleteTemplate.
  destruct (inMemoryRepository.SoftDeleteTemplate _ _ _ r) as [[[]|err] r1]; simpl in Hj;
    specialize (IH (S i) r1 j Hj);
    destruct (httpapi.BulkDelete_loop nows (S i) tenantID rest r1) as [[s f] r2]; done.
Qed.

(** X28: the outcome of a bulk delete: the identifiers reported as succeeded are
    those of the request that belong to the tenant, in request order and as
    often as they were asked for; the identifiers reported as failed are the
    others of the request; afterwards every template reported as succeeded
    is soft-deleted, templates not named in the request are as they were,
    and no history has changed. *)
Theorem bulk_delete_outcome (nows : nat → Time) (tenantID : string)
    (templateIDs : list string) : ∀ (i : nat) (r : inMemoryRepository),
  (httpapi.BulkDelete_loop nows i tenantID templateIDs r).1.1
  = filter (λ id, is_Some (owned r tenantID id)) templateIDs ∧
  (∀ id, id ∈ (httpapi.BulkDelete_loop nows i tenantID templateIDs r).1.2
         ↔ id ∈ templateIDs ∧ owned r tenantID id = None) ∧
  (∀ id, id ∈ (httpapi.BulkDelete_loop nows i tenantID templateIDs r).1.1 →
         ∃ t, templates (httpapi.BulkDelete_loop nows i tenantID templateIDs r).2 !! id
              = Some t ∧ DeletedAt t ≠ None) ∧
  (∀ id, id ∉ templateIDs →
         templates (httpapi.BulkDelete_loop nows i tenantID templateIDs r).2 !! id
         = templates r !! id) ∧
  versions (httpapi.BulkDelete_loop nows i tenantID templateIDs r).2 = versions r.
Proof.
  induction templateIDs as [|id rest IH]; intros i r.
  - simpl. split; [done|]. split; [|split; [|done]].
    + intros id. split.
      * intros Hin. by apply elem_of_empty in Hin.
      * intros [Hin _]. by apply elem_of_nil in Hin.
    + intros id Hin. by apply elem_of_nil in Hin.
  - cbn [httpapi.BulkDelete_loop]. unfold TemplateService.DeleteTemplate.
    pose proof (SoftDelete_keeps_ownership (nows i) tenantID id r tenantID) as Hsame.
    pose proof (BulkDelete_keeps_marks nows tenantID rest (S i)
                  (inMemoryRepository.SoftDeleteTemplate (nows i) tenantID id r).2 id) as Hmark.
    revert Hsame Hmark. unfold inMemoryRepository.SoftDeleteTemplate.
    destruct (owned r tenantID id) as [tpl|] eqn:Hown; simpl; intros Hsame Hmark.
    + specialize (IH (S i) (mkRepo (<[id := set_DeletedAt (Some (nows i)) tpl]> (templates r))
                                (versions r))).
      destruct (httpapi.BulkDelete_loop nows (S i) tenantID rest _) as [[s f] r2].
      simpl in *. destruct IH as (IHs & IHf & IHd & IHo & IHv).
      assert (Hfilter : filter (λ j, is_Some (owned (mkRepo
                  (<[id := set_DeletedAt (Some (nows i)) tpl]> (templates r)) (versions r))
                  tenantID j)) rest
                = filter (λ j, is_Some (owned r tenantID j)) rest).
      { apply list_filter_iff. intros j. apply Hsame. }
      rewrite filter_cons_True by (by rewrite Hown). split; [by rewrite IHs, Hfilter|].
      split; [|split; [|split]].
      * intros j. rewrite IHf. rewrite elem_of_cons.
        split.
        -- intros [Hin Hnone]. split; [by right|].
           destruct (owned r tenantID j) eqn:Hj; [|done].
           assert (is_Some (owned (mkRepo
                     (<[id := set_DeletedAt (Some (nows i)) tpl]> (templates r))
                     (versions r)) tenantID j)) as [? ?] by (apply Hsame; by eexists).
           congruence.
        -- intros [[->|Hin] Hnone]; [congruence|]. split; [done|].
           destruct (owned (mkRepo _ _) tenantID j) eqn:Hj; [|done].
           assert (is_Some (owned r tenantID j)) as [? ?] by (apply Hsame; by eexists).
           congruence.
      * intros j. rewrite elem_of_cons. intros [->|Hin]; [|by apply IHd].
        apply Hmark. eexists. rewrite lookup_insert_eq. done.
      * intros j Hj. rewrite not_elem_of_cons in Hj. destruct Hj as [Hne Hnot].
        rewrite IHo by done. by rewrite lookup_insert_ne.
      * done.
    + specialize (IH (S i) r).
      destruct (httpapi.BulkDelete_loop nows (S i) tenantID rest r) as [[s f] r2].
      simpl in *. destruct IH as (IHs & IHf & IHd & IHo & IHv).
      rewrite filter_cons_False by (rewrite Hown; by intros [? ?]).
      split; [done|]. split; [|split; [|split]].
      * intros j. rewrite elem_of_union, elem_of_singleton, IHf, elem_of_cons.
        split.
        -- intros [->|[Hin Hnone]]; [by split; [left|] | by split; [right|]].
        -- intros [[->|Hin] Hnone]; [by left | by right].
      * done.
      * intros j Hj. rewrite not_elem_of_cons in Hj. destruct Hj as [_ Hnot]. by apply IHo.
      * done.
Qed.

(** ** Pagination, the remaining cases *)

(** X9: with a positive limit and an offset that is not negative, and
    offset + limit within the int range, the page is the window of the
    matching templates that starts at the offset and has at most limit
    templates; short or empty when the matches run out. *)
Theorem ListTemplates_window (ToLower : string → string) (opt : ListOptions)
    (r : inMemoryRepository) :
  0 ≤ Offset opt → 0 < Limit opt → Offset opt + Limit opt ≤ int_max →
  inMemoryRepository.ListTemplates ToLower opt r
  = Some (take (Z.to_nat (Limit opt))
            (drop (Z.to_nat (Offset opt)) (inMemoryRepository.matching ToLower opt r))).
Proof. intros Hoff Hlim Hsum. by apply paginate_window. Qed.

Lemma ListTemplates_window_witness :
  inMemoryRepository.ListTemplates id (mkListOptions "t1" "" "" false 1 1) repo_two
  = Some (take 1 (drop 1 (inMemoryRepository.matching id
                            (mkListOptions "t1" "" "" false 1 1) repo_two))).
Proof.
  apply (ListTemplates_window id (mkListOptions "t1" "" "" false 1 1) repo_two);
    by vm_compute.
Defined.

(** X10: a negative offset makes the slice expression panic in every call: with
    any limit, any filters and any repository, the empty one included. *)
Theorem negative_offset_always_panics (ToLower : string → string) (opt : ListOptions)
    (r : inMemoryRepository) :
  Offset opt < 0 → inMemoryRepository.ListTemplates ToLower opt r = None.
Proof. intros Hneg. by apply paginate_negative_offset. Qed.

Lemma negative_offset_always_panics_witness :
  inMemoryRepository.ListTemplates id (mkListOptions "t9" "" "" false 10 (-3))
    NewInMemoryRepository = None.
Proof.
  apply (negative_offset_always_panics id (mkListOptions "t9" "" "" false 10 (-3))
           NewInMemoryRepository).
  by vm_compute.
Defined.

(** ** Histories under HTTP traffic *)

Lemma http_exec_is_service Atoi c r :
  http_exec Atoi c r = r ∨
  ∃ c', http_exec Atoi c r = exec c' r ∧ (http_plain c → plain c').
Proof.
  destruct c; cbn [http_exec].
  - unfold httpapi.CreateTemplate.
    destruct (httpapi.tenantFromRequest tenantHeader) as [tenantID|]; [|by left].
    destruct body as [payload|]; [|by left].
    right.
    exists (CallCreate templateID versionID now
              (set_UpdatedBy (httpapi.userFromRequest userHeader)
                 (set_CreatedBy (httpapi.userFromRequest userHeader)
                    (httpapi.set_TenantID tenantID (httpapi.ToTemplate payload))))).
    split; [|done]. cbn [exec]. cbv zeta.
    by destruct (TemplateService.CreateTemplate _ _ _ _ r) as [[?|?] ?].
  - unfold httpapi.UpdateTemplate.
    destruct (httpapi.tenantFromRequest tenantHeader) as [tenantID|]; [|by left].
    right.
    exists (CallUpdate versionID now tenantID templateID (httpapi.payload_mutation payload)
              (httpapi.userFromRequest userHeader) (httpapi.P_ChangeSummary payload)).
    split.
    + cbn [exec]. cbv zeta.
      by destruct (TemplateService.UpdateTemplate _ _ _ _ _ _ _ r) as [[?|?] ?].
    + intros _. split; intros t t' Hm;
        destruct (payload_mutation_Ok payload t) as (u & Hu & H1 & H2 & H3 & _); congruence.
  - unfold httpapi.DeleteTemplate.
    destruct (httpapi.tenantFromRequest tenantHeader) as [tenantID|]; [|by left].
    right. exists (CallDelete now tenantID templateID).
    split; [|done]. cbn [exec].
    by destruct (TemplateService.DeleteTemplate _ _ _ r) as [[?|?] ?].
  - unfold httpapi.RestoreTemplate.
    destruct (httpapi.tenantFromRequest tenantHeader) as [tenantID|]; [|by left].
    right. exists (CallRestoreTemplate tenantID templateID).
    split; [|done]. cbn [exec].
    by destruct (TemplateService.RestoreTemplate _ _ r) as [[?|?] ?].
  - unfold httpapi.DuplicateTemplate.
    destruct (httpapi.tenantFromRequest tenantHeader) as [tenantID|]; [|by left].
    right.
    exists (CallDuplicate cloneID versionID now ids tenantID templateID
              {| D_CreatedBy :=
                   httpapi.DP_CreatedBy
                     (httpapi.Defaults (httpapi.userFromRequest userHeader) payload);
                 D_UpdatedBy :=
                   httpapi.DP_UpdatedBy
                     (httpapi.Defaults (httpapi.userFromRequest userHeader) payload);
                 CopyVersions :=
                   httpapi.DP_CopyVersions
                     (httpapi.Defaults (httpapi.userFromRequest userHeader) payload);
                 NameOverride :=
                   httpapi.DP_NameOverride
                     (httpapi.Defaults (httpapi.userFromRequest userHeader) payload);
                 DescriptionOverride :=
                   httpapi.DP_DescriptionOverride
                     (httpapi.Defaults (httpapi.userFromRequest userHeader) payload) |}).
    split.
    + cbn [exec]. cbv zeta.
      by destruct (TemplateService.DuplicateTemplate _ _ _ _ _ _ _ r) as [[?|?] ?].
    + intros [Hne Hcopy]. split; [done|]. cbn [CopyVersions].
      unfold httpapi.Defaults. by repeat (case_bool_decide; simpl).
  - unfold httpapi.RestoreVersion.
    destruct (httpapi.tenantFromRequest tenantHeader) as [tenantID|]; [|by left].
    destruct (Atoi versionParam) as [versionNumber|]; [|by left].
    right. exists (CallRestoreVersion now tenantID templateID versionNumber).
    split; [|done]. cbn [exec].
    by destruct (TemplateService.RestoreVersion _ _ _ _ r) as [[?|?] ?].
Qed.

Lemma numbered_http_run Atoi calls : ∀ n r held,
  numbered n r held →
  Forall http_plain calls →
  Z.of_nat (n + length calls) < int_max →
  ∃ held', numbered (n + length calls) (http_run Atoi calls r) held'.
Proof.
  induction calls as [|c calls IH]; intros n r held Hnum Hall Hbound.
  - exists held. simpl. by rewrite Nat.add_0_r.
  - apply Forall_cons in Hall as [Hplain Hall]. rewrite length_cons in *.
    replace (n + S (length calls))%nat with (S n + length calls)%nat in * by lia.
    cbn [http_run foldl]. fold (http_run Atoi calls (http_exec Atoi c r)).
    apply (IH (S n) _ (observe r (http_exec Atoi c r) held)); [|done..].
    apply numbered_effect; [done|].
    destruct (http_exec_is_service Atoi c r) as [->|(c' & -> & Hc')].
    + by apply effect_none.
    + eapply effect_exec; [done | lia | by apply Hc'].
Qed.

(** X29: histories stay numbered under HTTP requests that are served one at a
    time, none starting before the one before it has been answered: after
    fewer than 2^63 - 1 such create, update, delete, restore, restore-version
    and duplicate requests on the empty repository, with non-empty generated
    template identifiers and no duplicate asking for copy_versions, the
    history of every template is numbered 1, 2, ..., version in this order,
    without repetition. What the update closure may touch needs no
    assumption: the handler builds it.  Requests that overlap are not
    covered: two overlapping updates of one template can both append the
    same number. *)
Theorem http_histories_numbered (Atoi : string → option Z) (calls : list HttpCall)
    (templateID : string) (t : Template) :
  Forall http_plain calls →
  Z.of_nat (length calls) < int_max →
  templates (http_run Atoi calls NewInMemoryRepository) !! templateID = Some t →
  version_numbers (history (http_run Atoi calls NewInMemoryRepository) templateID)
  = seqZ 1 (Version t) ∧
  NoDup (version_numbers (history (http_run Atoi calls NewInMemoryRepository) templateID)) ∧
  TemplateID t = templateID.
Proof.
  intros Hall Hbound Hget.
  destruct (numbered_http_run Atoi calls 0 _ _ numbered_empty Hall Hbound) as [held [Hsome _]].
  destruct (Hsome _ _ Hget) as (Hid & _ & _ & Hnum & _).
  rewrite Hnum. split; [done|]. split; [apply NoDup_seqZ | done].
Qed.

Lemma http_histories_numbered_witness :
  version_numbers (history (http_run Atoi_one http_scenario NewInMemoryRepository) "T")
  = [1; 2; 3].
Proof.
  assert (Hall : Forall http_plain http_scenario).
  { repeat constructor. discriminate. }
  assert (Hbound : Z.of_nat (length http_scenario) < int_max) by (by vm_compute).
  assert (Hget : templates (http_run Atoi_one http_scenario NewInMemoryRepository) !! "T"
                 = Some (default warranty_eu
                           (templates (http_run Atoi_one http_scenario NewInMemoryRepository)
                              !! "T")))
    by (by vm_compute).
  exact (proj1 (http_histories_numbered Atoi_one http_scenario "T" _ Hall Hbound Hget)).
Defined.

(** ** Trimming twice *)















